(** * devision backend: a shallow embedding of the API handlers

    The development follows [api/views.py], [accounts/serializers.py],
    [accounts/views.py] and the models of the Django project.  The relational
    store is a record of tables (lists of rows, in table order), ORM queries
    are list programs ([List.filter] for [filter], a stable insertion sort for
    [order_by], [take]/[drop] for slices, [flat_map] for joins), Python
    dictionaries are [gmap]s, and handlers that write to the store or may
    raise are written in a small state-and-error monad. *)

From Stdlib Require Import ZArith QArith.QArith_base Ascii String List Lia Bool.
From Stdlib Require Import Sorting.Sorted Sorting.Permutation DecimalString.
From stdpp Require Import base option list sorting gmap strings.

Local Open Scope string_scope.
Local Open Scope Z_scope.
Local Set Warnings "-register-all".

(* ================================================================== *)
(** * Python and ORM idioms *)
(* ================================================================== *)

Section OrderBy.
Context {A : Type}.
Variable leb : A -> A -> bool.

(** [insert_by x l] places [x] in front of the first row that does not come
    strictly before it. *)
Fixpoint insert_by (x : A) (l : list A) : list A :=
  match l with
  | [] => [x]
  | y :: l' => if leb x y then x :: l else y :: insert_by x l'
  end.

(** [queryset.order_by(...)]: the rows sorted by the comparison [leb];
    rows that compare equal keep their table order. *)
Definition order_by (l : list A) : list A := foldr insert_by [] l.
End OrderBy.

(** Ascending and descending comparisons on an integer key
    ([order_by("k")] and [order_by("-k")]). *)
Definition asc {A} (key : A -> Z) (x y : A) : bool := key x <=? key y.
Definition desc {A} (key : A -> Z) (x y : A) : bool := key y <=? key x.

(** [qs[offset : offset + limit]] *)
Definition slice {A} (offset limit : Z) (l : list A) : list A :=
  take (Z.to_nat limit) (drop (Z.to_nat offset) l).

(** [qs.first()] on an ordered queryset. *)
Definition first {A} (l : list A) : option A := head l.

(** [a or b] on strings: the empty string is falsy. *)
Definition or_str (a b : string) : string :=
  if String.eqb a "" then b else a.

(** [s.split(sep)[0]]: the part of [s] before the first [sep]. *)
Fixpoint before_char (sep : ascii) (s : string) : string :=
  match s with
  | EmptyString => EmptyString
  | String c rest =>
      if Ascii.eqb c sep then EmptyString else String c (before_char sep rest)
  end.

(** [len(s)] on a [str].  A string holds the UTF-8 encoding of the text, and
    [len] counts characters: the bytes that do not continue one (a
    continuation byte has its two top bits set to 1 and 0). *)
Definition is_continuation (c : ascii) : bool :=
  match c with Ascii _ _ _ _ _ _ b6 b7 => b7 && negb b6 end.

Fixpoint py_len (s : string) : nat :=
  match s with
  | EmptyString => 0
  | String c rest => (if is_continuation c then 0 else 1) + py_len rest
  end.

(** [str(n)] on an integer. *)
Definition str_of_int (n : Z) : string := NilZero.string_of_int (Z.to_int n).

(** [s.startswith(p)] *)
Fixpoint startswith (s p : string) : bool :=
  match p, s with
  | EmptyString, _ => true
  | String a p', String b s' => Ascii.eqb a b && startswith s' p'
  | String _ _, EmptyString => false
  end.

(** [s.endswith(suf)] *)
Definition endswith (s suf : string) : bool :=
  (String.length suf <=? String.length s)%nat
  && String.eqb
       (substring (String.length s - String.length suf) (String.length suf) s)
       suf.

(** [needle in hay] on strings. *)
Fixpoint contains (hay needle : string) : bool :=
  startswith hay needle
  || match hay with
     | EmptyString => false
     | String _ rest => contains rest needle
     end.

Definition lower_ascii (c : ascii) : ascii :=
  let n := nat_of_ascii c in
  if ((65 <=? n) && (n <=? 90))%nat then ascii_of_nat (n + 32) else c.

Fixpoint lower (s : string) : string :=
  match s with
  | EmptyString => EmptyString
  | String c rest => String (lower_ascii c) (lower rest)
  end.

(** The [icontains] lookup: substring match after case folding.  The store
    engine decides how characters outside ASCII fold; the model folds the
    ASCII letters. *)
Definition icontains (field query : string) : bool :=
  contains (lower field) (lower query).

(** [int(dt.timestamp())] for a datetime held as microseconds since the
    epoch: whole seconds, truncated towards zero. *)
Definition timestamp (dt : Z) : Z := Z.quot dt 1000000.

(** Distinct values of a column, first occurrences kept. *)
Fixpoint distinct {A} `{EqDecision A} (l : list A) : list A :=
  match l with
  | [] => []
  | x :: l' => if bool_decide (x ∈ l') then distinct l' else x :: distinct l'
  end.

(* ================================================================== *)
(** * JSON values of request bodies and JSON columns *)
(* ================================================================== *)

(** A Python float: a finite value or an infinity (a JSON number too large
    for a double parses to [inf]). *)
Inductive float_val := Finite (q : Q) | Infinite.

Inductive value :=
| VNull
| VBool (b : bool)
| VInt (n : Z)
| VFloat (f : float_val)
| VStr (s : string)
| VList (l : list value)
| VDict (d : list (string * value)).

(** Python truthiness. *)
Definition truthy (v : value) : bool :=
  match v with
  | VNull => false
  | VBool b => b
  | VInt n => negb (n =? 0)
  | VFloat (Finite q) => negb (Qnum q =? 0)
  | VFloat Infinite => true
  | VStr s => negb (String.eqb s "")
  | VList l => match l with [] => false | _ => true end
  | VDict d => match d with [] => false | _ => true end
  end.

(** [v == s] for a string literal [s]: only an equal string compares equal. *)
Definition eq_str (v : value) (s : string) : bool :=
  match v with VStr s' => String.eqb s' s | _ => false end.

(** [d.get(name)]: a missing key reads as [None]. *)
Definition dict_get (d : gmap string value) (name : string) : value :=
  default VNull (d !! name).

(* ================================================================== *)
(** * The data model ([accounts/models.py], [hackathons/models.py]) *)
(* ================================================================== *)

(** A UUID primary key, held as its canonical text ([str(obj.id)]). *)
Definition uuid := string.

(** Datetimes are microseconds since the epoch. *)
Definition datetime := Z.

Record User := {
  u_id : uuid;
  u_email : string;
  u_username : string;
  u_password : string;
  u_first_name : string;
  u_last_name : string;
  u_visibility : string;
  u_xp : Z;
  u_xp_needed : Z;
  u_level : Z;
  u_school : option Z;
  u_grad_year : option Z;
  u_major : option Z;
  u_discord : option string;
  u_instagram : option string;
  u_github : option string;
  u_linkedin : option string;
  u_personal : option string;
  u_bio : option string;
  u_skills : list Z;
  u_interests : list Z;
  u_blocked : list value;
  u_profile_gradient : list string;
  u_date_joined : datetime;
  u_updated_at : datetime;
  u_is_staff : bool;
  u_is_superuser : bool;
  u_is_active : bool
}.

Record Friendship := {
  f_user : uuid;
  f_friend : uuid;
  f_created_at : datetime
}.

Record Hackathon := {
  h_id : uuid;
  h_name : string;
  h_description : string;
  h_start_date : datetime;
  h_end_date : datetime;
  h_created_at : datetime
}.

Record Team := {
  t_id : uuid;
  t_name : string;
  t_created_at : datetime
}.

Record TeamMembership := {
  tm_user : uuid;
  tm_team : uuid;
  tm_joined_at : datetime
}.

Record HackathonTeam := {
  ht_hackathon : uuid;
  ht_team : uuid;
  ht_placement : option Z;
  ht_created_at : datetime
}.

(** The relational store: one list of rows per table, in table order.  The
    lookup tables (schools, majors, skills, interests) map an integer primary
    key to a name. *)
Record Store := {
  users : list User;
  friendships : list Friendship;
  hackathons : list Hackathon;
  teams : list Team;
  memberships : list TeamMembership;
  hackathon_teams : list HackathonTeam;
  schools : list (Z * string);
  majors : list (Z * string);
  skills : list (Z * string);
  interests : list (Z * string)
}.

(** A user row with the two columns [profile_gradient] and [xp_needed]
    replaced and every other column kept. *)
Definition with_defaults (pg : list string) (xn : Z) (row : User) : User :=
  {| u_id := u_id row; u_email := u_email row; u_username := u_username row;
     u_password := u_password row; u_first_name := u_first_name row;
     u_last_name := u_last_name row; u_visibility := u_visibility row;
     u_xp := u_xp row; u_xp_needed := xn; u_level := u_level row;
     u_school := u_school row; u_grad_year := u_grad_year row;
     u_major := u_major row; u_discord := u_discord row;
     u_instagram := u_instagram row; u_github := u_github row;
     u_linkedin := u_linkedin row; u_personal := u_personal row;
     u_bio := u_bio row; u_skills := u_skills row;
     u_interests := u_interests row; u_blocked := u_blocked row;
     u_profile_gradient := pg;
     u_date_joined := u_date_joined row; u_updated_at := u_updated_at row;
     u_is_staff := u_is_staff row; u_is_superuser := u_is_superuser row;
     u_is_active := u_is_active row |}.

(** [user.profile_gradient = g] and [user.xp_needed = n] on an instance. *)
Definition set_profile_gradient (u : User) (g : list string) : User :=
  with_defaults g (u_xp_needed u) u.
Definition set_xp_needed (u : User) (n : Z) : User :=
  with_defaults (u_profile_gradient u) n u.

Definition set_users (s : Store) (us : list User) : Store :=
  {| users := us; friendships := friendships s; hackathons := hackathons s;
     teams := teams s; memberships := memberships s;
     hackathon_teams := hackathon_teams s; schools := schools s;
     majors := majors s; skills := skills s; interests := interests s |}.

(** [Model.objects.get(id=...)] / following a foreign key. *)
Definition get_user (s : Store) (id : uuid) : option User :=
  head (List.filter (fun u => String.eqb (u_id u) id) (users s)).

Definition get_team (s : Store) (id : uuid) : option Team :=
  head (List.filter (fun t => String.eqb (t_id t) id) (teams s)).

Definition get_hackathon (s : Store) (id : uuid) : option Hackathon :=
  head (List.filter (fun h => String.eqb (h_id h) id) (hackathons s)).

Definition name_of (table : list (Z * string)) (pk : Z) : option string :=
  snd <$> head (List.filter (fun r => fst r =? pk) table).

(* ================================================================== *)
(** * Handlers as state-passing programs *)
(* ================================================================== *)

Inductive exn :=
| AttributeError
| ValueError
| TypeError
| OverflowError
| DoesNotExist
| DatabaseError
| IntegrityError.

(** The outcome of a handler step: a value with the store and the rest of the
    random tape, a raised exception, or [OutOfTape] when the finite tape of
    [random.randint] results has been used up. *)
Inductive result (A : Type) :=
| Ret (a : A) (s : Store) (tape : list Z)
| Raise (e : exn)
| OutOfTape.
Arguments Ret {A} a s tape.
Arguments Raise {A} e.
Arguments OutOfTape {A}.

Definition M (A : Type) : Type := Store -> list Z -> result A.

Definition ret {A} (a : A) : M A := fun s t => Ret a s t.

Definition bind {A B} (m : M A) (k : A -> M B) : M B :=
  fun s t =>
    match m s t with
    | Ret a s' t' => k a s' t'
    | Raise e => Raise e
    | OutOfTape => OutOfTape
    end.

Definition raise {A} (e : exn) : M A := fun _ _ => Raise e.
Definition get_store : M Store := fun s t => Ret s s t.
Definition put_store (s : Store) : M unit := fun _ t => Ret tt s t.

Notation "'let*' x := m 'in' k" := (bind m (fun x => k))
  (at level 10, x pattern, m at level 100, k at level 200).

(** [for x in l: acc.append(f x)] for an effectful [f]. *)
Fixpoint mapM {A B} (f : A -> M B) (l : list A) : M (list B) :=
  match l with
  | [] => ret []
  | x :: l' => let* y := f x in let* ys := mapM f l' in ret (y :: ys)
  end.

(* ================================================================== *)
(** * Helpers of [api/views.py] *)
(* ================================================================== *)

Definition hex_digit (n : Z) : ascii :=
  nth (Z.to_nat n) (list_ascii_of_string "0123456789abcdef") "0"%char.

(** [f"{x:06x}"] for [0 <= x <= 0xFFFFFF]. *)
Definition hex6 (x : Z) : string :=
  string_of_list_ascii
    (map (fun k => hex_digit ((x / 16 ^ k) mod 16)) [5; 4; 3; 2; 1; 0]).

Definition hex_val (c : ascii) : option Z :=
  let n := Z.of_nat (nat_of_ascii c) in
  if (48 <=? n) && (n <=? 57) then Some (n - 48)
  else if (97 <=? n) && (n <=? 102) then Some (n - 87)
  else if (65 <=? n) && (n <=? 70) then Some (n - 55)
  else None.

Fixpoint int16_acc (acc : Z) (s : string) : option Z :=
  match s with
  | EmptyString => Some acc
  | String c rest =>
      match hex_val c with
      | Some d => int16_acc (16 * acc + d) rest
      | None => None
      end
  end.

(** [int(s, 16)] on a string of hexadecimal digits; [None] is [ValueError]. *)
Definition int16 (s : string) : option Z :=
  match s with
  | EmptyString => None
  | _ => int16_acc 0 s
  end.

Definition _hex_distance (a b : string) : option Z :=
  match int16 a, int16 b with
  | Some a_int, Some b_int => Some (Z.abs (a_int - b_int))
  | _, _ => None
  end.

(** [random.randint(0, 0xFFFFFF)]: the next number on the tape. *)
Definition randint : M Z :=
  fun s tape =>
    match tape with
    | [] => OutOfTape
    | x :: tape' => Ret x s tape'
    end.

(** The [while] loop of [generate_gradient]: redraw [second] as long as the
    two colours are closer than 10000. *)
Fixpoint gradient_loop (first second : string) (s : Store) (tape : list Z)
  {struct tape} : result (list string) :=
  match _hex_distance first second with
  | None => Raise ValueError
  | Some d =>
      if d <? 10000 then
        match tape with
        | [] => OutOfTape
        | x :: tape' => gradient_loop first (hex6 x) s tape'
        end
      else Ret [first; second] s tape
  end.

Definition generate_gradient : M (list string) :=
  let* a := randint in
  let* b := randint in
  gradient_loop (hex6 a) (hex6 b).

Definition compute_xp_needed (level xp : Z) : Z :=
  let target := Z.max level 1 * 100 in
  Z.max (target - xp) 0.

(** [n or d] on integers: zero is falsy. *)
Definition or_int (n d : Z) : Z := if n =? 0 then d else n.

(** [user.save(update_fields=["profile_gradient", "xp_needed"])]: the two
    columns of the row with the instance's primary key are overwritten from
    the instance; a save that matches no row raises. *)
Definition save_defaults (user : User) : M unit :=
  fun s tape =>
    if existsb (fun row => String.eqb (u_id row) (u_id user)) (users s) then
      Ret tt
        (set_users s
           (map (fun row =>
                   if String.eqb (u_id row) (u_id user)
                   then with_defaults (u_profile_gradient user)
                                      (u_xp_needed user) row
                   else row)
                (users s)))
        tape
    else Raise DatabaseError.

(** [ensure_user_defaults] mutates the instance it is given; the updated
    instance is returned. *)
Definition ensure_user_defaults (user : User) : M User :=
  let* (user1, changed1) :=
    match u_profile_gradient user with
    | [] => let* g := generate_gradient in
            ret (set_profile_gradient user g, true)
    | _ :: _ => ret (user, false)
    end in
  let expected_needed :=
    compute_xp_needed (or_int (u_level user1) 1) (or_int (u_xp user1) 0) in
  let (user2, changed2) :=
    if negb (u_xp_needed user1 =? expected_needed)
    then (set_xp_needed user1 expected_needed, true)
    else (user1, changed1) in
  if changed2 : bool then let* _ := save_defaults user2 in ret user2
  else ret user2.

Definition friendship_since (s : Store) (current_user : option User)
  (other : User) : option Z :=
  match current_user with
  | None => None
  | Some cu =>
      let link :=
        first
          (order_by (asc f_created_at)
             (List.filter
                (fun f =>
                   (String.eqb (f_user f) (u_id cu)
                    && String.eqb (f_friend f) (u_id other))
                   || (String.eqb (f_user f) (u_id other)
                       && String.eqb (f_friend f) (u_id cu)))
                (friendships s))) in
      match link with
      | None => None
      | Some l => Some (timestamp (f_created_at l))
      end
  end.

Definition is_blocked (current_user : option User) (other : User) : bool :=
  match current_user with
  | None => false
  | Some cu => existsb (fun v => eq_str v (u_id other)) (u_blocked cu)
  end.

(** [tuple(x) if x else None] on a gradient column. *)
Definition gradient_or_none (g : list string) : option (list string) :=
  match g with [] => None | _ :: _ => Some g end.

(* ================================================================== *)
(** * Payloads and serializers of [api/views.py] *)
(* ================================================================== *)

Record Socials := {
  so_discord : option string;
  so_instagram : option string;
  so_github : option string;
  so_linkedin : option string;
  so_personal : option string
}.

Record UserCore := {
  uc_uuid : string;
  uc_created_at : Z;
  uc_profile_gradient : option (list string);
  uc_display_name : string;
  uc_username : string;
  uc_school : option string;
  uc_grad_year : option string;
  uc_level : Z;
  uc_email : option string;
  uc_xp : Z;
  uc_xp_needed : Z;
  uc_is_public : bool;
  uc_bio : string;
  uc_socials : Socials;
  uc_skills : list string;
  uc_interests : list string;
  uc_friends_since : option Z;
  uc_is_blocked : bool
}.

Record MemberPayload := {
  mp_uuid : string;
  mp_friends_since : option Z;
  mp_profile_gradient : option (list string);
  mp_display_name : string;
  mp_username : string;
  mp_level : Z;
  mp_is_blocked : bool
}.

Record TeamPayload := {
  tp_uuid : string;
  tp_name : string;
  tp_created_at : Z;
  tp_members : list MemberPayload
}.

Record LeaderboardRow := {
  lb_placement : option Z;
  lb_uuid : string;
  lb_name : string;
  lb_created_at : Z;
  lb_members : list MemberPayload
}.

(** [hp_leaderboard] is [None] when the payload has no ["leaderboard"] key,
    [Some None] when the key holds [None], [Some (Some l)] for a list. *)
Record HackathonPayload := {
  hp_uuid : string;
  hp_name : string;
  hp_description : string;
  hp_start_date : Z;
  hp_end_date : Z;
  hp_participants : Z;
  hp_team : option TeamPayload;
  hp_placement : option Z;
  hp_leaderboard : option (option (list LeaderboardRow))
}.

Record FriendPayload := {
  fp_uuid : string;
  fp_friends_since : Z;
  fp_profile_gradient : option (list string);
  fp_display_name : string;
  fp_username : string;
  fp_level : Z;
  fp_is_blocked : bool
}.

(** The entries of [past_hackathons_for_user] and of [best_placement]. *)
Record PastHackathon := {
  ph_uuid : string;
  ph_name : string;
  ph_description : string;
  ph_start_date : Z;
  ph_end_date : Z;
  ph_participants : Z;
  ph_placement : option Z
}.

Record Bootstrap := {
  bp_user : UserCore;
  bp_hackathons : list HackathonPayload;
  bp_friends : list FriendPayload
}.

(** ** Joins *)

(** A nullable integer column in ascending order; NULLs sort first, as in
    SQLite, the engine of the test settings. *)
Definition asc_null {A} (key : A -> option Z) (x y : A) : bool :=
  match key x, key y with
  | None, _ => true
  | Some _, None => false
  | Some p, Some q => p <=? q
  end.

(** [Meta.ordering = ["placement", "created_at"]] of [HackathonTeam]. *)
Definition hackathon_team_ordering (x y : HackathonTeam) : bool :=
  match ht_placement x, ht_placement y with
  | None, None => ht_created_at x <=? ht_created_at y
  | None, Some _ => true
  | Some _, None => false
  | Some p, Some q =>
      (p <? q) || ((p =? q) && (ht_created_at x <=? ht_created_at y))
  end.

(** [team__members=user]: one row per membership of the user in the entry's
    team. *)
Definition is_member (s : Store) (uid tid : uuid) : list TeamMembership :=
  List.filter
    (fun m => String.eqb (tm_team m) tid && String.eqb (tm_user m) uid)
    (memberships s).

Definition entries_of_user (s : Store) (uid : uuid) : list HackathonTeam :=
  flat_map (fun e => map (fun _ => e) (is_member s uid (ht_team e)))
           (hackathon_teams s).

(** [select_related("hackathon")] / [select_related("team")]: the inner join
    of entries with the row their foreign key points to. *)
Definition with_hackathon (s : Store) (es : list HackathonTeam)
  : list (HackathonTeam * Hackathon) :=
  flat_map
    (fun e =>
       map (fun h => (e, h))
           (List.filter (fun h => String.eqb (h_id h) (ht_hackathon e))
                        (hackathons s)))
    es.

Definition with_team (s : Store) (es : list HackathonTeam)
  : list (HackathonTeam * Team) :=
  flat_map
    (fun e =>
       map (fun t => (e, t))
           (List.filter (fun t => String.eqb (t_id t) (ht_team e)) (teams s)))
    es.

(** [select_related("hackathon", "team")]: both inner joins; the rows keep
    the entry and its hackathon. *)
Definition with_hackathon_team (s : Store) (es : list HackathonTeam)
  : list (HackathonTeam * Hackathon) :=
  with_hackathon s (map fst (with_team s es)).

(** [team.members.all()]: the users joined through the memberships of the
    team, in the default ordering of [User] ([-date_joined]). *)
Definition team_members (s : Store) (team : Team) : list User :=
  order_by (desc u_date_joined)
    (flat_map
       (fun m =>
          List.filter (fun u => String.eqb (u_id u) (tm_user m)) (users s))
       (List.filter (fun m => String.eqb (tm_team m) (t_id team))
                    (memberships s))).

(** [Hackathon.participants_count]: the distinct users reached from the user
    table through their teams' entries in the hackathon. *)
Definition participants_count (s : Store) (h : Hackathon) : Z :=
  Z.of_nat
    (length
       (distinct
          (flat_map
             (fun u =>
                flat_map
                  (fun m =>
                     map (fun _ => u_id u)
                         (List.filter
                            (fun e =>
                               String.eqb (ht_team e) (tm_team m)
                               && String.eqb (ht_hackathon e) (h_id h))
                            (hackathon_teams s)))
                  (List.filter (fun m => String.eqb (tm_user m) (u_id u))
                               (memberships s)))
             (users s)))).

(** The annotation [Count("hackathon_teams__team__members", distinct=True)]:
    the distinct member ids reached from the hackathon through its entries. *)
Definition participant_estimate (s : Store) (h : Hackathon) : Z :=
  Z.of_nat
    (length
       (distinct
          (flat_map
             (fun e =>
                map tm_user
                    (List.filter
                       (fun m => String.eqb (tm_team m) (ht_team e))
                       (memberships s)))
             (List.filter (fun e => String.eqb (ht_hackathon e) (h_id h))
                          (hackathon_teams s))))).

(** ** Serializers *)

Definition serialize_user_core (user : User) (current_user : option User)
  (include_email : bool) : M UserCore :=
  let* user := ensure_user_defaults user in
  let* s := get_store in
  ret {| uc_uuid := u_id user;
         uc_created_at := timestamp (u_date_joined user);
         uc_profile_gradient := gradient_or_none (u_profile_gradient user);
         uc_display_name :=
           or_str (u_first_name user)
                  (or_str (u_username user)
                          (before_char "@"%char (u_email user)));
         uc_username := u_username user;
         uc_school :=
           match u_school user with
           | Some pk => name_of (schools s) pk
           | None => None
           end;
         uc_grad_year :=
           match u_grad_year user with
           | Some y => if y =? 0 then None else Some (str_of_int y)
           | None => None
           end;
         uc_level := u_level user;
         uc_email := if include_email then Some (u_email user) else None;
         uc_xp := u_xp user;
         uc_xp_needed := u_xp_needed user;
         uc_is_public := String.eqb (u_visibility user) "public";
         uc_bio := default "" (u_bio user);
         uc_socials :=
           {| so_discord := u_discord user;
              so_instagram := u_instagram user;
              so_github := u_github user;
              so_linkedin := u_linkedin user;
              so_personal := u_personal user |};
         uc_skills := omap (name_of (skills s)) (u_skills user);
         uc_interests := omap (name_of (interests s)) (u_interests user);
         uc_friends_since := friendship_since s current_user user;
         uc_is_blocked := is_blocked current_user user |}.

Definition serialize_team_members (s : Store) (team : Team)
  (current_user exclude_user : option User) : list MemberPayload :=
  let qs := team_members s team in
  let qs :=
    match exclude_user with
    | Some x => List.filter (fun u => negb (String.eqb (u_id u) (u_id x))) qs
    | None => qs
    end in
  map (fun member =>
         {| mp_uuid := u_id member;
            mp_friends_since := friendship_since s current_user member;
            mp_profile_gradient :=
              gradient_or_none (u_profile_gradient member);
            mp_display_name :=
              or_str (u_first_name member) (u_username member);
            mp_username := u_username member;
            mp_level := u_level member;
            mp_is_blocked := is_blocked current_user member |})
      qs.

Definition serialize_team (s : Store) (team : Team)
  (current_user exclude_user : option User) : TeamPayload :=
  {| tp_uuid := t_id team;
     tp_name := t_name team;
     tp_created_at := timestamp (t_created_at team);
     tp_members := serialize_team_members s team current_user exclude_user |}.

(** One leaderboard row, as built in [serialize_hackathon] and in
    [HackathonLeaderboardView.get]. *)
Definition leaderboard_row (s : Store) (current_user : option User)
  (r : HackathonTeam * Team) : LeaderboardRow :=
  let (entry, team) := r in
  {| lb_placement := ht_placement entry;
     lb_uuid := t_id team;
     lb_name := t_name team;
     lb_created_at := timestamp (t_created_at team);
     lb_members := serialize_team_members s team current_user None |}.

(** [HackathonTeam.objects.filter(hackathon=..., placement__isnull=False)
      .select_related("team").order_by("placement")] *)
Definition placed_entries (s : Store) (hackathon_id : uuid)
  : list (HackathonTeam * Team) :=
  order_by (asc_null (fun r => ht_placement (fst r)))
    (with_team s
       (List.filter
          (fun e => String.eqb (ht_hackathon e) hackathon_id
                    && bool_decide (is_Some (ht_placement e)))
          (hackathon_teams s))).

(** The entry of the current user's team in the hackathon:
    [HackathonTeam.objects.filter(hackathon=hackathon,
       team__members=current_user).select_related("team").first()],
    in the default ordering of [HackathonTeam]. *)
Definition user_entry (s : Store) (hackathon : Hackathon) (cu : User)
  : option (HackathonTeam * Team) :=
  first
    (order_by (fun x y => hackathon_team_ordering (fst x) (fst y))
       (with_team s
          (List.filter
             (fun e => String.eqb (ht_hackathon e) (h_id hackathon))
             (entries_of_user s (u_id cu))))).

Definition serialize_hackathon (s : Store) (hackathon : Hackathon)
  (current_user : option User) (include_user_team include_leaderboard : bool)
  : HackathonPayload :=
  let entry :=
    match include_user_team, current_user with
    | true, Some cu => user_entry s hackathon cu
    | _, _ => None
    end in
  {| hp_uuid := h_id hackathon;
     hp_name := h_name hackathon;
     hp_description := h_description hackathon;
     hp_start_date := timestamp (h_start_date hackathon);
     hp_end_date := timestamp (h_end_date hackathon);
     hp_participants := participants_count s hackathon;
     hp_team :=
       match entry with
       | Some (_, team) => Some (serialize_team s team current_user current_user)
       | None => None
       end;
     hp_placement :=
       match entry with
       | Some (e, _) => ht_placement e
       | None => None
       end;
     hp_leaderboard :=
       if include_leaderboard then
         let leaderboard :=
           map (leaderboard_row s current_user)
               (take 10 (placed_entries s (h_id hackathon))) in
         Some (match leaderboard with [] => None | _ :: _ => Some leaderboard end)
       else None |}.

Definition serialize_friend (friendship : Friendship) (current_user : User)
  : M FriendPayload :=
  let* s := get_store in
  let other_id :=
    if String.eqb (f_user friendship) (u_id current_user)
    then f_friend friendship else f_user friendship in
  match get_user s other_id with
  | None => raise DoesNotExist
  | Some other =>
      let* other := ensure_user_defaults other in
      ret {| fp_uuid := u_id other;
             fp_friends_since := timestamp (f_created_at friendship);
             fp_profile_gradient :=
               gradient_or_none (u_profile_gradient other);
             fp_display_name :=
               or_str (u_first_name other) (u_username other);
             fp_username := u_username other;
             fp_level := u_level other;
             fp_is_blocked := is_blocked (Some current_user) other |}
  end.

Definition past_hackathon (s : Store) (r : HackathonTeam * Hackathon)
  : PastHackathon :=
  let (entry, h) := r in
  {| ph_uuid := h_id h;
     ph_name := h_name h;
     ph_description := h_description h;
     ph_start_date := timestamp (h_start_date h);
     ph_end_date := timestamp (h_end_date h);
     ph_participants := participants_count s h;
     ph_placement := ht_placement entry |}.

(** The rows behind [past_hackathons_for_user]:
    [filter(team__members=user, hackathon__end_date__lt=now,
            placement__isnull=False).select_related("hackathon")
       .order_by("-hackathon__end_date")[offset : offset + limit]] *)
Definition past_entries_for_user (s : Store) (now : datetime) (user : User)
  (offset limit : Z) : list (HackathonTeam * Hackathon) :=
  slice offset limit
    (order_by (desc (fun r => h_end_date (snd r)))
       (List.filter
          (fun r => (h_end_date (snd r) <? now)
                    && bool_decide (is_Some (ht_placement (fst r))))
          (with_hackathon s (entries_of_user s (u_id user))))).

Definition past_hackathons_for_user (s : Store) (now : datetime) (user : User)
  (offset limit : Z) : list PastHackathon :=
  map (past_hackathon s) (past_entries_for_user s now user offset limit).

Definition past_entries_for_team (s : Store) (now : datetime) (team : Team)
  (offset limit : Z) : list (HackathonTeam * Hackathon) :=
  slice offset limit
    (order_by (desc (fun r => h_end_date (snd r)))
       (List.filter
          (fun r => (h_end_date (snd r) <? now)
                    && bool_decide (is_Some (ht_placement (fst r))))
          (with_hackathon s
             (List.filter (fun e => String.eqb (ht_team e) (t_id team))
                          (hackathon_teams s))))).

Definition past_hackathons_for_team (s : Store) (now : datetime) (team : Team)
  (offset limit : Z) : list PastHackathon :=
  map (past_hackathon s) (past_entries_for_team s now team offset limit).

(** The rows behind the [hackathons] list of the bootstrap payload. *)
Definition upcoming_entries (s : Store) (now : datetime) (user : User)
  : list (HackathonTeam * Hackathon) :=
  take 5
    (order_by (asc (fun r => h_start_date (snd r)))
       (List.filter (fun r => now <=? h_end_date (snd r))
          (with_hackathon_team s (entries_of_user s (u_id user))))).

(** The rows behind the [friends] list of the bootstrap payload. *)
Definition recent_friendships (s : Store) (user : User) : list Friendship :=
  take 5
    (order_by (desc f_created_at)
       (List.filter
          (fun f => String.eqb (f_user f) (u_id user)
                    || String.eqb (f_friend f) (u_id user))
          (friendships s))).

Definition build_bootstrap_payload (now : datetime) (user : User)
  : M Bootstrap :=
  let* s := get_store in
  let hackathons :=
    map (fun r => serialize_hackathon s (snd r) (Some user) true false)
        (upcoming_entries s now user) in
  let* friends :=
    mapM (fun f => serialize_friend f user) (recent_friendships s user) in
  let* core := serialize_user_core user None true in
  ret {| bp_user := core; bp_hackathons := hackathons; bp_friends := friends |}.

(* ================================================================== *)
(** * Library behaviour the handlers rely on *)
(* ================================================================== *)

(** Built-ins and framework calls whose code is outside the repository.
    - [int_of_str s] is [int(s)] on a [str]; [None] stands for [ValueError].
    - [str_of v] is [str(v)].
    - [url_validator v] tells whether [URLValidator()(v)] returns without
      raising [ValidationError].
    - [pk_exists s model pk] is [model.objects.filter(pk=pk).exists()];
      [inl e] stands for an exception of the ORM (a [pk] that cannot be
      turned into a key). *)
Class Builtins := {
  int_of_str : string -> option Z;
  str_of : value -> string;
  url_validator : value -> bool;
  pk_exists : Store -> string -> value -> exn + bool
}.

(** A response: the data and the HTTP status, or a [{"detail": ...}] body
    with its status. *)
Inductive response (A : Type) : Type :=
| Response (data : A) (status : Z)
| Detail (detail : string) (status : Z).
Arguments Response {A} data status.
Arguments Detail {A} detail status.

Definition status_of {A} (r : response A) : Z :=
  match r with
  | Response _ st => st
  | Detail _ st => st
  end.

Definition HTTP_200_OK : Z := 200.
Definition HTTP_201_CREATED : Z := 201.
Definition HTTP_400_BAD_REQUEST : Z := 400.
Definition HTTP_404_NOT_FOUND : Z := 404.

(* ================================================================== *)
(** * Views of [api/views.py] *)
(* ================================================================== *)

Section Views.
Context `{Builtins}.

(** [int(request.query_params.get(name, dflt))]: a parameter that is
    present is a string; an absent one reads as the integer default. *)
Definition int_param (query_params : gmap string string) (name : string)
  (dflt : Z) : option Z :=
  match query_params !! name with
  | Some raw => int_of_str raw
  | None => Some dflt
  end.

(** [parse_pagination]; [None] is the pair [(None, None)]. *)
Definition parse_pagination (query_params : gmap string string)
  : option (Z * Z) :=
  match int_param query_params "offset" 0 with
  | None => None
  | Some offset =>
      match int_param query_params "limit" 10 with
      | None => None
      | Some limit =>
          let offset := Z.max offset 0 in
          let limit := Z.max (Z.min limit 50) 1 in
          Some (offset, limit)
      end
  end.

Definition UserHackathonsView_get (s : Store) (now : datetime)
  (user : User) (query_params : gmap string string)
  : response (list HackathonPayload) :=
  match parse_pagination query_params with
  | None => Detail "Invalid pagination" HTTP_400_BAD_REQUEST
  | Some (offset, limit) =>
      let entries :=
        slice offset limit
          (order_by (asc (fun r => h_start_date (snd r)))
             (List.filter (fun r => now <=? h_end_date (snd r))
                (with_hackathon_team s (entries_of_user s (u_id user))))) in
      Response
        (map (fun r => serialize_hackathon s (snd r) (Some user) true false)
             entries)
        HTTP_200_OK
  end.

(** [payload["placement"] = entry.placement] *)
Definition set_placement (p : HackathonPayload) (pl : option Z)
  : HackathonPayload :=
  {| hp_uuid := hp_uuid p; hp_name := hp_name p;
     hp_description := hp_description p; hp_start_date := hp_start_date p;
     hp_end_date := hp_end_date p; hp_participants := hp_participants p;
     hp_team := hp_team p; hp_placement := pl;
     hp_leaderboard := hp_leaderboard p |}.

Definition UserPastHackathonsView_get (s : Store) (now : datetime)
  (user : User) (query_params : gmap string string)
  : response (list HackathonPayload) :=
  match parse_pagination query_params with
  | None => Detail "Invalid pagination" HTTP_400_BAD_REQUEST
  | Some (offset, limit) =>
      let entries :=
        slice offset limit
          (order_by (desc (fun r => h_end_date (snd r)))
             (List.filter (fun r => h_end_date (snd r) <? now)
                (with_hackathon_team s (entries_of_user s (u_id user))))) in
      Response
        (map (fun r =>
                set_placement
                  (serialize_hackathon s (snd r) (Some user) true false)
                  (ht_placement (fst r)))
             entries)
        HTTP_200_OK
  end.

Definition UserFriendsView_get (user : User)
  (query_params : gmap string string) : M (response (list FriendPayload)) :=
  match parse_pagination query_params with
  | None => ret (Detail "Invalid pagination" HTTP_400_BAD_REQUEST)
  | Some (offset, limit) =>
      let* s := get_store in
      let friendships :=
        slice offset limit
          (order_by (asc f_created_at)
             (List.filter
                (fun f => String.eqb (f_user f) (u_id user)
                          || String.eqb (f_friend f) (u_id user))
                (friendships s))) in
      let* friends := mapM (fun f => serialize_friend f user) friendships in
      ret (Response friends HTTP_200_OK)
  end.

(** The queryset of [HackathonSearchView.get] before it is serialized. *)
Definition search_results (s : Store) (query : string) (offset limit : Z)
  : list Hackathon :=
  let qs := hackathons s in
  let qs :=
    if negb (String.eqb query "")
    then List.filter (fun h => icontains (h_name h) query) qs
    else qs in
  slice offset limit (order_by (desc (participant_estimate s)) qs).

Definition HackathonSearchView_get (s : Store) (user : User)
  (query_params : gmap string string) : response (list HackathonPayload) :=
  match parse_pagination query_params with
  | None => Detail "Invalid pagination" HTTP_400_BAD_REQUEST
  | Some (offset, limit) =>
      let query := default "" (query_params !! "query") in
      Response
        (map (fun h => serialize_hackathon s h (Some user) true true)
             (search_results s query offset limit))
        HTTP_200_OK
  end.

Definition HackathonLeaderboardView_get (s : Store) (user : User)
  (hackathon_id : uuid) (query_params : gmap string string)
  : response (list LeaderboardRow) :=
  match parse_pagination query_params with
  | None => Detail "Invalid pagination" HTTP_400_BAD_REQUEST
  | Some (offset, limit) =>
      Response
        (map (leaderboard_row s (Some user))
             (slice offset limit (placed_entries s hackathon_id)))
        HTTP_200_OK
  end.

Definition UserHistoryView_get (s : Store) (now : datetime)
  (user_id : uuid) (query_params : gmap string string)
  : response (list PastHackathon) :=
  match parse_pagination query_params with
  | None => Detail "Invalid pagination" HTTP_400_BAD_REQUEST
  | Some (offset, limit) =>
      match get_user s user_id with
      | None => Detail "User not found" HTTP_404_NOT_FOUND
      | Some target =>
          Response (past_hackathons_for_user s now target offset limit)
                   HTTP_200_OK
      end
  end.

Definition TeamHistoryView_get (s : Store) (now : datetime)
  (team_id : uuid) (query_params : gmap string string)
  : response (list PastHackathon) :=
  match parse_pagination query_params with
  | None => Detail "Invalid pagination" HTTP_400_BAD_REQUEST
  | Some (offset, limit) =>
      match get_team s team_id with
      | None => Detail "Team not found" HTTP_404_NOT_FOUND
      | Some team =>
          Response (past_hackathons_for_team s now team offset limit)
                   HTTP_200_OK
      end
  end.

Definition InitView_get (now : datetime) (user : User)
  : M (response Bootstrap) :=
  let* payload := build_bootstrap_payload now user in
  ret (Response payload HTTP_200_OK).
End Views.

(* ================================================================== *)
(** * [SignupView.post] *)
(* ================================================================== *)

Section Signup.
Context `{Builtins}.

(** The part of [SignupView.post] after its two guards and the drawing of
    the gradient: [User.objects.create_user(...)],
    [Token.objects.get_or_create], [build_bootstrap_payload] and the cookie.
    The handler is written over this tail, which receives the email, the
    username and the password as the request holds them;
    [SignupView_created] below is the tail as the source has it, for
    values that are strings. *)
Variable create_and_respond :
  forall (email username password : value) (gradient : list string),
    M (response Bootstrap).

(** [str(v)] as a column lookup applies it: a string is its own text. *)
Definition text_of (v : value) : string :=
  match v with VStr t => t | _ => str_of v end.

(** [email.split("@")[0]]: only a [str] has [split]. *)
Definition split_first (email : value) : exn + value :=
  match email with
  | VStr e => inr (VStr (before_char "@"%char e))
  | _ => inl AttributeError
  end.

Definition SignupView_post (data : gmap string value)
  : M (response Bootstrap) :=
  let email := dict_get data "email" in
  let password := dict_get data "password" in
  let* username :=
    if truthy (dict_get data "username") then ret (dict_get data "username")
    else match split_first email with
         | inr u => ret u
         | inl e => raise e
         end in
  if negb (truthy email) || negb (truthy password) then
    ret (Detail "email and password are required" HTTP_400_BAD_REQUEST)
  else
    let* s := get_store in
    if existsb (fun u => String.eqb (u_email u) (text_of email)) (users s)
    then ret (Detail "email already registered" HTTP_400_BAD_REQUEST)
    else
      let* gradient := generate_gradient in
      create_and_respond email username password gradient.
End Signup.

(* ================================================================== *)
(** * [UserManager.create_user] and the tail of [SignupView.post] *)
(* ================================================================== *)

(** Framework code behind the user model, outside the repository:
    - [normalize_email e] is [BaseUserManager.normalize_email(e)] on a [str];
    - [make_password p] is the hash [set_password(p)] stores;
    - [unusable_password] is what [set_unusable_password()] stores. *)
Class UserLibrary := {
  normalize_email : string -> string;
  make_password : string -> string;
  unusable_password : string
}.

(** What the request draws from its environment when a user is created: the
    primary key ([uuid.uuid4], the default of [User.id]) and the clock
    readings for [date_joined] (its default) and [updated_at]
    ([auto_now]). *)
Record Drawn := {
  new_id : uuid;
  joined_at : datetime;
  saved_at : datetime
}.

(** The keyword arguments handed to [create_user]; [None] is a key that is
    not given. *)
Record ExtraFields := {
  x_username : string;
  x_profile_gradient : list string;
  x_xp : Z;
  x_level : Z;
  x_xp_needed : Z;
  x_is_staff : option bool;
  x_is_superuser : option bool
}.

(** [extra_fields.setdefault("is_staff", ...)] and
    [extra_fields.setdefault("is_superuser", ...)] *)
Definition setdefault_flags (extra : ExtraFields) (staff superuser : bool)
  : ExtraFields :=
  {| x_username := x_username extra;
     x_profile_gradient := x_profile_gradient extra;
     x_xp := x_xp extra; x_level := x_level extra;
     x_xp_needed := x_xp_needed extra;
     x_is_staff := Some (default staff (x_is_staff extra));
     x_is_superuser := Some (default superuser (x_is_superuser extra)) |}.

(** [self.model(email=email, **extra_fields)]: the fields that are given,
    the others at the defaults the model declares. *)
Definition new_user (d : Drawn) (email : string) (extra : ExtraFields)
  : User :=
  {| u_id := new_id d; u_email := email; u_username := x_username extra;
     u_password := ""; u_first_name := ""; u_last_name := "";
     u_visibility := "public"; u_xp := x_xp extra;
     u_xp_needed := x_xp_needed extra; u_level := x_level extra;
     u_school := None; u_grad_year := None; u_major := None;
     u_discord := None; u_instagram := None; u_github := None;
     u_linkedin := None; u_personal := None; u_bio := None;
     u_skills := []; u_interests := []; u_blocked := [];
     u_profile_gradient := x_profile_gradient extra;
     u_date_joined := joined_at d; u_updated_at := saved_at d;
     u_is_staff := default false (x_is_staff extra);
     u_is_superuser := default false (x_is_superuser extra);
     u_is_active := true |}.

(** [user.password = hash] *)
Definition with_password (user : User) (hash : string) : User :=
  {| u_id := u_id user; u_email := u_email user;
     u_username := u_username user; u_password := hash;
     u_first_name := u_first_name user; u_last_name := u_last_name user;
     u_visibility := u_visibility user; u_xp := u_xp user;
     u_xp_needed := u_xp_needed user; u_level := u_level user;
     u_school := u_school user; u_grad_year := u_grad_year user;
     u_major := u_major user; u_discord := u_discord user;
     u_instagram := u_instagram user; u_github := u_github user;
     u_linkedin := u_linkedin user; u_personal := u_personal user;
     u_bio := u_bio user; u_skills := u_skills user;
     u_interests := u_interests user; u_blocked := u_blocked user;
     u_profile_gradient := u_profile_gradient user;
     u_date_joined := u_date_joined user; u_updated_at := u_updated_at user;
     u_is_staff := u_is_staff user; u_is_superuser := u_is_superuser user;
     u_is_active := u_is_active user |}.

(** [user.save(using=self._db)] on a new instance: an INSERT.  The primary
    key, the email ([unique=True], models.py line 65) and the username
    (unique in [AbstractUser]) must not be taken; a failed INSERT writes
    nothing. *)
Definition insert_user (user : User) : M unit :=
  fun s tape =>
    if existsb (fun row => String.eqb (u_id row) (u_id user)
                           || String.eqb (u_email row) (u_email user)
                           || String.eqb (u_username row) (u_username user))
               (users s)
    then Raise IntegrityError
    else Ret tt (set_users s (users s ++ [user])) tape.

Section CreateUser.
Context `{UserLibrary}.

Definition _create_user (d : Drawn) (email : string)
  (password : option string) (extra_fields : ExtraFields) : M User :=
  if String.eqb email "" then raise ValueError
  else
    let email := normalize_email email in
    let user := new_user d email extra_fields in
    let user :=
      match password with
      | Some p =>
          if String.eqb p "" then with_password user unusable_password
          else with_password user (make_password p)
      | None => with_password user unusable_password
      end in
    let* _ := insert_user user in
    ret user.

Definition create_user (d : Drawn) (email : string)
  (password : option string) (extra_fields : ExtraFields) : M User :=
  _create_user d email password (setdefault_flags extra_fields false false).

(** The tail of [SignupView.post], after its two guards and the drawing of
    the gradient, for an email, a username and a password that are strings:
    [create_user], then the bootstrap payload of the new user with status
    201.  [Token.objects.get_or_create] writes the token table of
    [rest_framework.authtoken], which is not part of [Store], and
    [set_auth_cookie] puts the token key in a cookie, which is not part of
    the body. *)
Definition SignupView_created (d : Drawn) (now : datetime)
  (email username password : string) (gradient : list string)
  : M (response Bootstrap) :=
  let* user :=
    create_user d email (Some password)
      {| x_username := username; x_profile_gradient := gradient;
         x_xp := 0; x_level := 1; x_xp_needed := compute_xp_needed 1 0;
         x_is_staff := None; x_is_superuser := None |} in
  let* payload := build_bootstrap_payload now user in
  ret (Response payload HTTP_201_CREATED).
End CreateUser.

(* ================================================================== *)
(** * [CustomUserSerializer] ([accounts/serializers.py]) *)
(* ================================================================== *)

(** A field of the inbound payload: [serializers.empty] when the key is
    absent, the value otherwise. *)
Inductive field := Empty | Given (v : value).

(** The outcome of validation code that fills the [errors] dictionary:
    a value with the dictionary so far, a raised [ValidationError] with its
    detail, or another exception. *)
Inductive outcome (A : Type) : Type :=
| Val (a : A) (errors : gmap string string)
| Invalid (detail : gmap string string)
| Crash (e : exn).
Arguments Val {A} a errors.
Arguments Invalid {A} detail.
Arguments Crash {A} e.

Definition V (A : Type) : Type := gmap string string -> outcome A.

Definition vret {A} (a : A) : V A := fun errors => Val a errors.

Definition vbind {A B} (m : V A) (k : A -> V B) : V B :=
  fun errors =>
    match m errors with
    | Val a errors' => k a errors'
    | Invalid d => Invalid d
    | Crash e => Crash e
    end.

(** [errors[name] = msg] *)
Definition set_error (name msg : string) : V unit :=
  fun errors => Val tt (<[name := msg]> errors).

Notation "'do*' x := m 'in' k" := (vbind m (fun x => k))
  (at level 10, x pattern, m at level 100, k at level 200).

Section Serializer.
Context `{Builtins}.

(** [int(v)] on a JSON value. *)
Definition py_int (v : value) : exn + Z :=
  match v with
  | VNull => inl TypeError
  | VBool b => inr (if b then 1 else 0)
  | VInt n => inr n
  | VFloat (Finite q) => inr (Z.quot (Qnum q) (Z.pos (Qden q)))
  | VFloat Infinite => inl OverflowError
  | VStr t => match int_of_str t with Some n => inr n | None => inl ValueError end
  | VList _ => inl TypeError
  | VDict _ => inl TypeError
  end.

(** [data.get(name, serializers.empty)] *)
Definition data_get (data : gmap string value) (name : string) : field :=
  match data !! name with Some v => Given v | None => Empty end.

Definition is_empty (f : field) : bool :=
  match f with Empty => true | Given _ => false end.

Definition get_field (method : string) (data : gmap string value)
  (name : string) (required : bool) : V field :=
  fun errors =>
    let value := data_get data name in
    if required && String.eqb method "POST" && is_empty value
    then Invalid {[ name := "This field is required" ]}
    else Val value errors.

Definition parse_int (name : string) (value : field)
  (minv maxv : option Z) : V field :=
  match value with
  | Empty => vret Empty
  | Given v =>
      match py_int v with
      | inl TypeError | inl ValueError =>
          do* _ := set_error name "Must be an integer." in
          vret (Given VNull)
      | inl e => fun _ => Crash e
      | inr iv =>
          do* _ := match minv with
                   | Some m =>
                       if iv <? m
                       then set_error name ("Must be >= " ++ str_of_int m)
                       else vret tt
                   | None => vret tt
                   end in
          do* _ := match maxv with
                   | Some m =>
                       if m <? iv
                       then set_error name ("Must be <= " ++ str_of_int m)
                       else vret tt
                   | None => vret tt
                   end in
          vret (Given (VInt iv))
      end
  end.

Definition validate_fk (s : Store) (name model : string) (pk : field)
  : V field :=
  match pk with
  | Empty => vret Empty
  | Given v =>
      match py_int v with
      | inl _ =>
          do* _ := set_error name "Must be an integer ID." in
          vret (Given VNull)
      | inr pk_int =>
          match pk_exists s model (VInt pk_int) with
          | inl e => fun _ => Crash e
          | inr found =>
              do* _ := if found then vret tt
                       else set_error name (model ++ " does not exist.") in
              vret (Given (VInt pk_int))
          end
      end
  end.

Definition validate_url (name : string) (value : field) : V field :=
  match value with
  | Empty => vret Empty
  | Given v =>
      match v with
      | VNull => vret value
      | _ =>
          if eq_str v "" then vret value
          else
            do* _ := if url_validator v then vret tt
                     else set_error name "Enter a valid URL." in
            vret value
      end
  end.

(** [[pk for pk in value if not model.objects.filter(pk=pk).exists()]] *)
Fixpoint bad_ids (s : Store) (model : string) (l : list value)
  : exn + list value :=
  match l with
  | [] => inr []
  | pk :: l' =>
      match pk_exists s model pk with
      | inl e => inl e
      | inr found =>
          match bad_ids s model l' with
          | inl e => inl e
          | inr bad => inr (if found then bad else pk :: bad)
          end
      end
  end.

Definition validate_m2m (s : Store) (name : string) (value : field)
  (model : string) : V field :=
  match value with
  | Empty => vret Empty
  | Given (VList l) =>
      match bad_ids s model l with
      | inl e => fun _ => Crash e
      | inr bad =>
          do* _ := match bad with
                   | [] => vret tt
                   | _ :: _ =>
                       set_error name ("Invalid IDs: " ++ str_of (VList bad))
                   end in
          vret value
      end
  | Given _ =>
      do* _ := set_error name "Must be a list of IDs." in
      vret (Given (VList []))
  end.

Definition is_list (v : value) : bool :=
  match v with VList _ => true | _ => false end.

(** The inline checks of [to_internal_value], in source order. *)
Definition check_email (email : field) : V unit :=
  match email with
  | Empty => vret tt
  | Given (VStr e) =>
      if endswith e ".edu" then vret tt
      else set_error "email" "Must be a valid .edu email"
  | Given _ => set_error "email" "Must be a string."
  end.

Definition check_password (password : field) : V unit :=
  match password with
  | Empty => vret tt
  | Given (VStr p) =>
      if (py_len p <? 6)%nat
      then set_error "password" "Password must be at least 6 characters."
      else vret tt
  | Given _ => set_error "password" "Password must be at least 6 characters."
  end.

Definition check_visibility (visibility : field) : V unit :=
  match visibility with
  | Empty => vret tt
  | Given v =>
      if eq_str v "public" || eq_str v "private" then vret tt
      else set_error "visibility" "Must be 'public' or 'private'"
  end.

Definition check_blocked (blocked : field) : V unit :=
  match blocked with
  | Empty => vret tt
  | Given v =>
      if is_list v then vret tt else set_error "blocked" "Must be a list."
  end.

Definition check_profile_gradient (profile_gradient : field) : V field :=
  match profile_gradient with
  | Empty => vret profile_gradient
  | Given VNull => vret profile_gradient
  | Given (VList [a; b]) =>
      vret (Given (VList [VStr (str_of a); VStr (str_of b)]))
  | Given _ =>
      do* _ := set_error "profile_gradient" "Must be two hex strings." in
      vret profile_gradient
  end.

(** [if errors: raise serializers.ValidationError(errors)] *)
Definition raise_if_errors : V unit :=
  fun errors =>
    if decide (errors = ∅) then Val tt errors else Invalid errors.

Definition to_internal_value_body (method : string) (s : Store)
  (data : gmap string value) : V (list (string * field)) :=
  do* email := get_field method data "email" true in
  do* username := get_field method data "username" true in
  do* visibility := get_field method data "visibility" true in
  do* first := get_field method data "first_name" false in
  do* last := get_field method data "last_name" false in
  do* password := get_field method data "password" true in
  do* xp := get_field method data "xp" false in
  do* level := get_field method data "level" false in
  do* school_id := get_field method data "school" false in
  do* grad_year := get_field method data "grad_year" false in
  do* major_id := get_field method data "major" false in
  do* discord := get_field method data "discord" false in
  do* instagram := get_field method data "instagram" false in
  do* github := get_field method data "github" false in
  do* linkedin := get_field method data "linkedin" false in
  do* bio := get_field method data "bio" false in
  do* skills := get_field method data "skills" false in
  do* interests := get_field method data "interests" false in
  do* blocked := get_field method data "blocked" false in
  do* personal := get_field method data "personal" false in
  do* xp_needed := get_field method data "xp_needed" false in
  do* profile_gradient := get_field method data "profile_gradient" false in
  do* _ := check_email email in
  do* _ := check_password password in
  do* _ := check_visibility visibility in
  do* xp := parse_int "xp" xp (Some 0) None in
  do* level := parse_int "level" level (Some 0) (Some 500) in
  do* grad_year := parse_int "grad_year" grad_year (Some 2015) (Some 2080) in
  do* school_id := validate_fk s "school" "School" school_id in
  do* major_id := validate_fk s "major" "Major" major_id in
  do* discord := validate_url "discord" discord in
  do* instagram := validate_url "instagram" instagram in
  do* github := validate_url "github" github in
  do* linkedin := validate_url "linkedin" linkedin in
  do* personal := validate_url "personal" personal in
  do* skills := validate_m2m s "skills" skills "Skill" in
  do* interests := validate_m2m s "interests" interests "Interest" in
  do* _ := check_blocked blocked in
  do* profile_gradient := check_profile_gradient profile_gradient in
  do* _ := raise_if_errors in
  vret [ ("email", email); ("username", username); ("first_name", first);
         ("last_name", last); ("visibility", visibility);
         ("password", password); ("xp", xp); ("level", level);
         ("school_id", school_id); ("grad_year", grad_year);
         ("major_id", major_id); ("discord", discord);
         ("instagram", instagram); ("github", github);
         ("linkedin", linkedin); ("bio", bio); ("skills", skills);
         ("interests", interests); ("blocked", blocked);
         ("personal", personal); ("xp_needed", xp_needed);
         ("profile_gradient", profile_gradient) ].

(** [to_internal_value] starts from [errors = {}]. *)
Definition to_internal_value (method : string) (s : Store)
  (data : gmap string value) : outcome (list (string * field)) :=
  to_internal_value_body method s data ∅.

(** [CustomUserSerializer.update] followed by the save: the write path of
    the serializer.  Validation failures never reach it; what it writes is
    left open. *)
Variable update :
  Store -> User -> list (string * field) -> exn + (Store * User).

(** The body of a [MeView.patch] response: the errors mapping of a failed
    validation, or the updated user to be represented. *)
Inductive patch_body :=
| Errors (errors : gmap string string)
| Updated (user : User).

(** [MeView.patch]: [is_valid()] runs [to_internal_value] with the request
    method [PATCH] and catches [ValidationError]; [save()] runs only on
    success.  The result is the store after the request and the response,
    or an exception that escapes the handler. *)
Definition MeView_patch (s : Store) (user : User) (data : gmap string value)
  : exn + (Store * response patch_body) :=
  match to_internal_value "PATCH" s data with
  | Val validated_data _ =>
      match update s user validated_data with
      | inr (s', user') => inr (s', Response (Updated user') HTTP_200_OK)
      | inl e => inl e
      end
  | Invalid errors => inr (s, Response (Errors errors) HTTP_400_BAD_REQUEST)
  | Crash e => inl e
  end.
End Serializer.

(* ================================================================== *)
(** * A reference instance of the library behaviour *)
(* ================================================================== *)

(** Used to run the handlers on sample requests.  [plain_int] reads an
    optional sign followed by decimal digits, [plain_str] prints [None],
    booleans, integers and strings, [plain_url] accepts the strings that
    start with a web scheme, and [table_has] looks a key up in the lookup
    table of the model. *)
Fixpoint digits_acc (acc : Z) (t : string) : option Z :=
  match t with
  | EmptyString => Some acc
  | String c rest =>
      let n := Z.of_nat (nat_of_ascii c) in
      if (48 <=? n) && (n <=? 57) then digits_acc (10 * acc + (n - 48)) rest
      else None
  end.

Definition plain_int (t : string) : option Z :=
  match t with
  | EmptyString => None
  | String c rest =>
      if Ascii.eqb c "-"%char then
        match rest with
        | EmptyString => None
        | _ => Z.opp <$> digits_acc 0 rest
        end
      else if Ascii.eqb c "+"%char then
        match rest with
        | EmptyString => None
        | _ => digits_acc 0 rest
        end
      else digits_acc 0 t
  end.

Definition plain_str (v : value) : string :=
  match v with
  | VNull => "None"
  | VBool true => "True"
  | VBool false => "False"
  | VInt n => str_of_int n
  | VStr t => t
  | _ => "..."
  end.

Definition plain_url (v : value) : bool :=
  match v with
  | VStr t => startswith t "http://" || startswith t "https://"
  | _ => false
  end.

Definition table_of (s : Store) (model : string) : list (Z * string) :=
  if String.eqb model "School" then schools s
  else if String.eqb model "Major" then majors s
  else if String.eqb model "Skill" then skills s
  else if String.eqb model "Interest" then interests s
  else [].

Definition table_has (s : Store) (model : string) (pk : value) : exn + bool :=
  let has n := existsb (fun r => fst r =? n) (table_of s model) in
  match pk with
  | VNull => inr false
  | VBool b => inr (has (if b then 1 else 0))
  | VInt n => inr (has n)
  | VFloat (Finite q) => inr (has (Z.quot (Qnum q) (Z.pos (Qden q))))
  | VFloat Infinite => inl OverflowError
  | VStr t => match plain_int t with Some n => inr (has n) | None => inl ValueError end
  | VList _ => inl TypeError
  | VDict _ => inl TypeError
  end.

#[local] Instance reference_builtins : Builtins :=
  {| int_of_str := plain_int;
     str_of := plain_str;
     url_validator := plain_url;
     pk_exists := table_has |}.

(** ** Sample rows *)

Definition sample_user (id name : string) (joined : Z) : User :=
  {| u_id := id; u_email := name ++ "@example.edu"; u_username := name;
     u_password := "!"; u_first_name := ""; u_last_name := "";
     u_visibility := "public"; u_xp := 0; u_xp_needed := 100; u_level := 1;
     u_school := None; u_grad_year := None; u_major := None;
     u_discord := None; u_instagram := None; u_github := None;
     u_linkedin := None; u_personal := None; u_bio := None;
     u_skills := []; u_interests := []; u_blocked := [];
     u_profile_gradient := ["000000"; "ffffff"];
     u_date_joined := joined; u_updated_at := joined;
     u_is_staff := false; u_is_superuser := false; u_is_active := true |}.

Definition empty_store : Store :=
  {| users := []; friendships := []; hackathons := []; teams := [];
     memberships := []; hackathon_teams := []; schools := []; majors := [];
     skills := []; interests := [] |}.

Definition alice : User := sample_user "u-alice" "alice" 1000000.
Definition bob : User := sample_user "u-bob" "bob" 2000000.
Definition carol : User := sample_user "u-carol" "carol" 3000000.

(* ================================================================== *)
(** * Properties the claims speak about *)
(* ================================================================== *)

(** Two leaderboard rows in ascending order of placement: both are placed,
    the first no later than the second. *)
Definition placement_le (a b : LeaderboardRow) : Prop :=
  exists p q, lb_placement a = Some p /\ lb_placement b = Some q /\ p <= q.

(** The strict version: the first is placed strictly ahead of the second. *)
Definition placement_lt (a b : LeaderboardRow) : Prop :=
  exists p q, lb_placement a = Some p /\ lb_placement b = Some q /\ p < q.

(** A payload with an embedded leaderboard: the key is present; a list is
    non-empty, has at most 10 rows and ascends by placement; the key holds
    [None] when no entry of the hackathon has a placement; and it holds a
    list when an entry of the hackathon for a stored team has one. *)
Definition embedded_leaderboard_ok (s : Store) (p : HackathonPayload) : Prop :=
  exists lb,
    hp_leaderboard p = Some lb
    /\ match lb with
       | Some l =>
           l <> [] /\ (length l <= 10)%nat /\ StronglySorted placement_le l
       | None => True
       end
    /\ (Forall (fun e => ht_hackathon e = hp_uuid p -> ht_placement e = None)
               (hackathon_teams s) -> lb = None)
    /\ ((exists e t, e ∈ hackathon_teams s /\ ht_hackathon e = hp_uuid p
                     /\ is_Some (ht_placement e)
                     /\ t ∈ teams s /\ t_id t = ht_team e) ->
        is_Some lb).

(** ** A hackathon where two teams share first place *)

Definition tie_store : Store :=
  {| users := [alice];
     friendships := [];
     hackathons :=
       [ {| h_id := "h-1"; h_name := "Spring Hack"; h_description := "";
            h_start_date := 10; h_end_date := 20; h_created_at := 1 |} ];
     teams :=
       [ {| t_id := "t-1"; t_name := "Alpha"; t_created_at := 1 |};
         {| t_id := "t-2"; t_name := "Beta"; t_created_at := 2 |} ];
     memberships := [];
     hackathon_teams :=
       [ {| ht_hackathon := "h-1"; ht_team := "t-1"; ht_placement := Some 1;
            ht_created_at := 3 |};
         {| ht_hackathon := "h-1"; ht_team := "t-2"; ht_placement := Some 1;
            ht_created_at := 4 |} ];
     schools := []; majors := []; skills := []; interests := [] |}.

(** A page of past-hackathon history: it is built from entry/hackathon rows
    of the store whose hackathon ended strictly before [now], most recent
    end date first -- in the stored datetimes and so in the whole seconds
    the payload shows. *)
Definition past_page (s : Store) (now : datetime) (l : list PastHackathon)
  : Prop :=
  exists rows,
    l = map (past_hackathon s) rows
    /\ Forall (fun r => fst r ∈ hackathon_teams s
                        /\ snd r ∈ hackathons s
                        /\ h_id (snd r) = ht_hackathon (fst r)
                        /\ h_end_date (snd r) < now) rows
    /\ StronglySorted (fun x y => h_end_date (snd y) <= h_end_date (snd x)) rows
    /\ StronglySorted (fun a b => ph_end_date b <= ph_end_date a) l.

(** A user takes part in a hackathon when one of the hackathon's entries is
    for a team the user is a member of. *)
Definition is_participant (s : Store) (h : Hackathon) (uid : uuid) : Prop :=
  exists e m,
    e ∈ hackathon_teams s /\ ht_hackathon e = h_id h
    /\ m ∈ memberships s /\ tm_team m = ht_team e /\ tm_user m = uid.

(** [needle] occurs in [hay] when the case of ASCII letters is ignored. *)
Definition occurs_ignoring_case (needle hay : string) : Prop :=
  exists pre post, lower hay = pre ++ lower needle ++ post.

(** A page of search results for a non-empty query: the payloads are the
    serializations of stored hackathons whose names contain the query, in
    descending order of their number of distinct participants. *)
Definition search_page (s : Store) (user : User) (query : string)
  (l : list HackathonPayload) : Prop :=
  exists hs,
    l = map (fun h => serialize_hackathon s h (Some user) true true) hs
    /\ Forall (fun h => h ∈ hackathons s
                        /\ occurs_ignoring_case query (h_name h)) hs
    /\ Forall (fun p => occurs_ignoring_case query (hp_name p)) l
    /\ StronglySorted
         (fun a b => participant_estimate s b <= participant_estimate s a) hs.

(** ** The bootstrap payload *)

(** An entry/hackathon row is an upcoming entry of the user when the entry
    and its hackathon and team are stored, the user is a member of the
    entry's team, and the hackathon's end date is not before [now]. *)
Definition upcoming_entry_of (s : Store) (now : datetime) (user : User)
  (r : HackathonTeam * Hackathon) : Prop :=
  fst r ∈ hackathon_teams s
  /\ snd r ∈ hackathons s
  /\ h_id (snd r) = ht_hackathon (fst r)
  /\ (exists m, m ∈ memberships s /\ tm_team m = ht_team (fst r)
                /\ tm_user m = u_id user)
  /\ (exists t, t ∈ teams s /\ t_id t = ht_team (fst r))
  /\ now <= h_end_date (snd r).

(** A hackathon payload embeds the user's team and placement: an entry of
    the hackathon for a team the user belongs to, serialized without the
    user, with that entry's placement. *)
Definition team_embedded (s : Store) (user : User) (p : HackathonPayload)
  : Prop :=
  exists e t,
    e ∈ hackathon_teams s /\ ht_hackathon e = hp_uuid p
    /\ t ∈ teams s /\ t_id t = ht_team e
    /\ (exists m, m ∈ memberships s /\ tm_team m = t_id t
                  /\ tm_user m = u_id user)
    /\ hp_team p = Some (serialize_team s t (Some user) (Some user))
    /\ hp_placement p = ht_placement e.

(** The [hackathons] list as the code builds it: at most 5 payloads, made
    from upcoming entries of the user in ascending order of start date, none
    of the upcoming entries left out starting earlier than one that is
    listed, each payload embedding the user's team and placement; and the
    list is full: it has 5 payloads, or no upcoming entry of the user is
    left out. *)
Definition earliest_starting_page (s : Store) (now : datetime) (user : User)
  (l : list HackathonPayload) : Prop :=
  (length l <= 5)%nat
  /\ exists rows,
       l = map (fun r => serialize_hackathon s (snd r) (Some user) true false)
               rows
       /\ Forall (upcoming_entry_of s now user) rows
       /\ StronglySorted
            (fun x y => h_start_date (snd x) <= h_start_date (snd y)) rows
       /\ (forall r r', r ∈ rows -> upcoming_entry_of s now user r' ->
                        r' ∉ rows ->
                        h_start_date (snd r) <= h_start_date (snd r'))
       /\ Forall (team_embedded s user) l
       /\ (length l = 5%nat
           \/ forall r', upcoming_entry_of s now user r' -> r' ∈ rows).

(** Soonest-ending, as the specification words it: no upcoming hackathon of
    the user that is left out of the list ends before one that is listed. *)
Definition soonest_ending (s : Store) (now : datetime) (user : User)
  (l : list HackathonPayload) : Prop :=
  forall r',
    upcoming_entry_of s now user r' ->
    h_id (snd r') ∉ map hp_uuid l ->
    Forall (fun p => hp_end_date p <= timestamp (h_end_date (snd r'))) l.

(** The friendship is one of the user's. *)
Definition friendship_of (user : User) (f : Friendship) : Prop :=
  f_user f = u_id user \/ f_friend f = u_id user.

(** The other end of one of the user's friendships. *)
Definition other_end (user : User) (f : Friendship) : uuid :=
  if String.eqb (f_user f) (u_id user) then f_friend f else f_user f.

(** The [friends] list as the code builds it: at most 5 payloads, one per
    friendship, for the user's most recently created friendships, newest
    first; and the list is full: it has 5 payloads, or no friendship of the
    user is left out. *)
Definition most_recent_page (s : Store) (user : User)
  (l : list FriendPayload) : Prop :=
  (length l <= 5)%nat
  /\ exists fs,
       Forall2 (fun f p => fp_friends_since p = timestamp (f_created_at f)
                           /\ fp_uuid p = other_end user f) fs l
       /\ Forall (fun f => f ∈ friendships s /\ friendship_of user f) fs
       /\ StronglySorted (fun a b => f_created_at b <= f_created_at a) fs
       /\ (forall f f', f ∈ fs -> f' ∈ friendships s ->
                        friendship_of user f' -> f' ∉ fs ->
                        f_created_at f' <= f_created_at f)
       /\ StronglySorted
            (fun a b => fp_friends_since b <= fp_friends_since a) l
       /\ (length l = 5%nat
           \/ forall f', f' ∈ friendships s -> friendship_of user f' ->
                         f' ∈ fs).

(** ** Alice enters six upcoming hackathons; the last to start ends first *)

Definition hack (id : string) (start_s end_s : Z) : Hackathon :=
  {| h_id := id; h_name := id; h_description := "";
     h_start_date := start_s * 1000000; h_end_date := end_s * 1000000;
     h_created_at := 0 |}.

Definition entry (hackathon team : string) (placement : option Z)
  : HackathonTeam :=
  {| ht_hackathon := hackathon; ht_team := team; ht_placement := placement;
     ht_created_at := 0 |}.

Definition six_store : Store :=
  {| users := [alice];
     friendships := [];
     hackathons :=
       [ hack "h-1" 10 100; hack "h-2" 20 100; hack "h-3" 30 100;
         hack "h-4" 40 100; hack "h-5" 50 100; hack "h-6" 60 70 ];
     teams := [ {| t_id := "t-1"; t_name := "Alpha"; t_created_at := 1 |} ];
     memberships :=
       [ {| tm_user := "u-alice"; tm_team := "t-1"; tm_joined_at := 1 |} ];
     hackathon_teams :=
       [ entry "h-1" "t-1" None; entry "h-2" "t-1" None;
         entry "h-3" "t-1" None; entry "h-4" "t-1" None;
         entry "h-5" "t-1" None; entry "h-6" "t-1" None ];
     schools := []; majors := []; skills := []; interests := [] |}.

(** ** Alice befriends Bob, then Carol; Bob's stored [xp_needed] is stale *)

Definition stale_bob : User := set_xp_needed bob 0.

Definition friends_store : Store :=
  {| users := [alice; stale_bob; carol];
     friendships :=
       [ {| f_user := "u-alice"; f_friend := "u-bob";
            f_created_at := 1000000 |};
         {| f_user := "u-carol"; f_friend := "u-alice";
            f_created_at := 2000000 |} ];
     hackathons := []; teams := []; memberships := []; hackathon_teams := [];
     schools := []; majors := []; skills := []; interests := [] |}.

(** ** Alice has six friends; the oldest friendship is the one with Bob *)

Definition friendship (user friend : string) (created_s : Z) : Friendship :=
  {| f_user := user; f_friend := friend;
     f_created_at := created_s * 1000000 |}.

Definition crowd_store : Store :=
  {| users :=
       [ alice; bob; carol;
         sample_user "u-dave" "dave" 4000000;
         sample_user "u-erin" "erin" 5000000;
         sample_user "u-frank" "frank" 6000000;
         sample_user "u-grace" "grace" 7000000 ];
     friendships :=
       [ friendship "u-alice" "u-bob" 1; friendship "u-carol" "u-alice" 2;
         friendship "u-alice" "u-dave" 3; friendship "u-erin" "u-alice" 4;
         friendship "u-alice" "u-frank" 5; friendship "u-grace" "u-alice" 6;
         friendship "u-bob" "u-carol" 7 ];
     hackathons := []; teams := []; memberships := []; hackathon_teams := [];
     schools := []; majors := []; skills := []; interests := [] |}.

(** ** What building the bootstrap payload may write *)

(** [max(max(level, 1) * 100 - xp, 0)] for a stored row. *)
Definition xp_formula (row : User) : Z :=
  Z.max (Z.max (u_level row) 1 * 100 - u_xp row) 0.

(** The users whose defaults the bootstrap payload ensures: the user and the
    other end of each friendship it serializes. *)
Definition touched (s : Store) (user : User) (id : uuid) : Prop :=
  id = u_id user
  \/ exists f, f ∈ recent_friendships s user /\ id = other_end user f.

(** A user row before and after: every column but [profile_gradient] and
    [xp_needed] is kept; only rows of touched users change; a gradient
    changes only if it was empty; a changed [xp_needed] is the formula's
    value. *)
Definition row_frame (s : Store) (user : User) (row row' : User) : Prop :=
  row' = with_defaults (u_profile_gradient row') (u_xp_needed row') row
  /\ (row' <> row -> touched s user (u_id row))
  /\ (u_profile_gradient row' <> u_profile_gradient row ->
      u_profile_gradient row = [])
  /\ (u_xp_needed row' <> u_xp_needed row ->
      u_xp_needed row' = xp_formula row).

Definition same_tables (s s' : Store) : Prop :=
  friendships s' = friendships s /\ hackathons s' = hackathons s
  /\ teams s' = teams s /\ memberships s' = memberships s
  /\ hackathon_teams s' = hackathon_teams s /\ schools s' = schools s
  /\ majors s' = majors s /\ skills s' = skills s
  /\ interests s' = interests s.

Definition defaults_frame (s : Store) (user : User) (s' : Store) : Prop :=
  same_tables s s' /\ Forall2 (row_frame s user) (users s) (users s').

(** The frame as the specification words it: only the row of the user may
    change. *)
Definition only_user_row_changes (user : User) (s s' : Store) : Prop :=
  same_tables s s'
  /\ Forall2 (fun row row' => row' <> row -> u_id row = u_id user)
             (users s) (users s').

(** The invariant kept while the payload is built from the store [s]: the
    frame so far, with each row paired with a stored row of [s]. *)
Definition frame_invariant (s : Store) (user : User) (s1 : Store) : Prop :=
  same_tables s s1
  /\ Forall2 (fun row row' => row ∈ users s /\ row_frame s user row row')
             (users s) (users s1).

(** ** The validation rules, one per field *)

Section Rules.
Context `{Builtins}.

(** Email suffix. *)
Definition bad_email (v : value) : bool :=
  match v with VStr e => negb (endswith e ".edu") | _ => true end.

(** Password length. *)
Definition bad_password (v : value) : bool :=
  match v with VStr p => (py_len p <? 6)%nat | _ => true end.

Definition bad_visibility (v : value) : bool :=
  negb (eq_str v "public" || eq_str v "private").

(** Numeric ranges. *)
Definition bad_int (minv maxv : option Z) (v : value) : bool :=
  match py_int v with
  | inl _ => true
  | inr n =>
      match minv with Some m => n <? m | None => false end
      || match maxv with Some m => m <? n | None => false end
  end.

(** Foreign-key existence. *)
Definition bad_fk (s : Store) (model : string) (v : value) : bool :=
  match py_int v with
  | inl _ => true
  | inr n =>
      match pk_exists s model (VInt n) with
      | inr found => negb found
      | inl _ => true
      end
  end.

(** URL format; [None] and the empty string are accepted. *)
Definition bad_url (v : value) : bool :=
  match v with
  | VNull => false
  | _ => if eq_str v "" then false else negb (url_validator v)
  end.

(** List-of-ids existence. *)
Definition bad_m2m (s : Store) (model : string) (v : value) : bool :=
  match v with
  | VList l =>
      negb (forallb (fun pk => match pk_exists s model pk with
                               | inr found => found
                               | inl _ => false
                               end) l)
  | _ => true
  end.

Definition bad_blocked (v : value) : bool := negb (is_list v).

Definition bad_gradient (v : value) : bool :=
  match v with
  | VNull => false
  | VList [_; _] => false
  | _ => true
  end.

(** The rule of each validated field. *)
Definition rule (s : Store) (name : string) : option (value -> bool) :=
  if String.eqb name "email" then Some bad_email
  else if String.eqb name "password" then Some bad_password
  else if String.eqb name "visibility" then Some bad_visibility
  else if String.eqb name "xp" then Some (bad_int (Some 0) None)
  else if String.eqb name "level" then Some (bad_int (Some 0) (Some 500))
  else if String.eqb name "grad_year"
       then Some (bad_int (Some 2015) (Some 2080))
  else if String.eqb name "school" then Some (bad_fk s "School")
  else if String.eqb name "major" then Some (bad_fk s "Major")
  else if String.eqb name "discord" then Some bad_url
  else if String.eqb name "instagram" then Some bad_url
  else if String.eqb name "github" then Some bad_url
  else if String.eqb name "linkedin" then Some bad_url
  else if String.eqb name "personal" then Some bad_url
  else if String.eqb name "skills" then Some (bad_m2m s "Skill")
  else if String.eqb name "interests" then Some (bad_m2m s "Interest")
  else if String.eqb name "blocked" then Some bad_blocked
  else if String.eqb name "profile_gradient" then Some bad_gradient
  else None.

Definition field_bad (bad : value -> bool) (f : field) : bool :=
  match f with Given v => bad v | Empty => false end.

(** A field of the payload is invalid when it is provided and breaks its
    rule. *)
Definition invalid_field (s : Store) (data : gmap string value)
  (name : string) : bool :=
  match rule s name with
  | Some bad => field_bad bad (data_get data name)
  | None => false
  end.



(** Conversions that raise what validation does not catch: [int(value)] in
    [parse_int] outside [TypeError] and [ValueError]; the existence query of
    [validate_fk] on the converted key; an existence query of
    [validate_m2m] on one of the listed ids. *)
Definition int_raises (f : field) : bool :=
  match f with
  | Given v =>
      match py_int v with
      | inl TypeError | inl ValueError => false
      | inl _ => true
      | inr _ => false
      end
  | Empty => false
  end.

Definition fk_raises (s : Store) (model : string) (f : field) : bool :=
  match f with
  | Given v =>
      match py_int v with
      | inr n =>
          match pk_exists s model (VInt n) with
          | inl _ => true
          | inr _ => false
          end
      | inl _ => false
      end
  | Empty => false
  end.

Definition m2m_raises (s : Store) (model : string) (f : field) : bool :=
  match f with
  | Given (VList l) =>
      existsb (fun pk => match pk_exists s model pk with
                         | inl _ => true
                         | inr _ => false
                         end) l
  | _ => false
  end.

(** Some conversion of the payload raises an exception that validation does
    not catch. *)
Definition conversion_raises (s : Store) (data : gmap string value) : bool :=
  int_raises (data_get data "xp")
  || int_raises (data_get data "level")
  || int_raises (data_get data "grad_year")
  || fk_raises s "School" (data_get data "school")
  || fk_raises s "Major" (data_get data "major")
  || m2m_raises s "Skill" (data_get data "skills")
  || m2m_raises s "Interest" (data_get data "interests").


(** One step of validation for the field [name]: it does not raise
    [ValidationError], and unless it fails with another exception it adds the
    key [name] exactly when [b] holds and touches no other key. *)
Definition step_ok {A} (name : string) (b : bool) (m : V A) : Prop :=
  forall errors,
    match m errors with
    | Val _ errors' =>
        forall k, is_Some (errors' !! k)
                  <-> is_Some (errors !! k) \/ (k = name /\ b = true)
    | Invalid _ => False
    | Crash _ => True
    end.
End Rules.

(** ** Colours *)

(** A colour number, as [random.randint(0, 0xFFFFFF)] draws it. *)
Definition colour (x : Z) : Prop := 0 <= x <= 16777215.

(** Two colours too close for a gradient. *)
Definition close_to (a b : Z) : Prop := Z.abs (a - b) < 10000.

(** A user row without defaults: no gradient, stale [xp_needed]. *)
Definition blank_dave : User :=
  set_profile_gradient (set_xp_needed (sample_user "u-dave" "dave" 4000000) 0)
                       [].

Definition blank_store : Store := set_users empty_store [blank_dave].

(** The friendship row links the two users, in either direction. *)
Definition linked (a b : uuid) (f : Friendship) : Prop :=
  (f_user f = a /\ f_friend f = b) \/ (f_user f = b /\ f_friend f = a).

(** The user is a member of the team, with a stored user row. *)
Definition member_of (s : Store) (team : Team) (uid : uuid) : Prop :=
  (exists m, m ∈ memberships s /\ tm_team m = t_id team /\ tm_user m = uid)
  /\ exists u, u ∈ users s /\ u_id u = uid.

(** ** [best_placement_for_user] *)

(** [order_by("placement", "-hackathon__end_date")]: ascending placement
    (NULLs first), then the later end date first. *)
Definition best_placement_ordering (x y : HackathonTeam * Hackathon) : bool :=
  match ht_placement (fst x), ht_placement (fst y) with
  | None, None => h_end_date (snd y) <=? h_end_date (snd x)
  | None, Some _ => true
  | Some _, None => false
  | Some p, Some q =>
      (p <? q) || ((p =? q) && (h_end_date (snd y) <=? h_end_date (snd x)))
  end.

(** [HackathonTeam.objects.filter(team__members=user,
       placement__isnull=False).select_related("hackathon")] *)
Definition placed_entries_of_user (s : Store) (user : User)
  : list (HackathonTeam * Hackathon) :=
  List.filter (fun r => bool_decide (is_Some (ht_placement (fst r))))
              (with_hackathon s (entries_of_user s (u_id user))).

Definition best_placement_for_user (s : Store) (user : User)
  : option PastHackathon :=
  match first (order_by best_placement_ordering
                        (placed_entries_of_user s user)) with
  | None => None
  | Some r => Some (past_hackathon s r)
  end.

(** An entry of one of the user's teams with its hackathon and a placement. *)
Definition placed_entry_of (s : Store) (user : User)
  (r : HackathonTeam * Hackathon) (k : Z) : Prop :=
  fst r ∈ hackathon_teams s
  /\ snd r ∈ hackathons s
  /\ h_id (snd r) = ht_hackathon (fst r)
  /\ (exists m, m ∈ memberships s /\ tm_team m = ht_team (fst r)
                /\ tm_user m = u_id user)
  /\ ht_placement (fst r) = Some k.

(** ** What validation hands on *)

Section Validated.
Context `{Builtins}.

(** A validated integer field: absent stays absent; a provided value has
    become the integer [int] reads from it, within the bounds. *)
Definition int_in_range (f a : field) (lo : Z) (hi : option Z) : Prop :=
  match f with
  | Empty => a = Empty
  | Given v =>
      exists n, py_int v = inr n /\ a = Given (VInt n) /\ lo <= n
                /\ match hi with Some h => n <= h | None => True end
  end.

(** A validated foreign key: absent stays absent; a provided value has
    become the integer key of an existing row. *)
Definition existing_id (s : Store) (model : string) (f a : field) : Prop :=
  match f with
  | Empty => a = Empty
  | Given v =>
      exists n, py_int v = inr n /\ a = Given (VInt n)
                /\ pk_exists s model (VInt n) = inr true
  end.

(** A validated gradient: absent or [None] as given, or the two parts of the
    list as strings. *)
Definition gradient_strings (f a : field) : Prop :=
  match f with
  | Empty => a = Empty
  | Given VNull => a = Given VNull
  | Given (VList [x; y]) => a = Given (VList [VStr (str_of x); VStr (str_of y)])
  | Given _ => False
  end.
End Validated.

(** A store with one school and one major, and a payload that passes
    validation against it. *)
Definition campus_store : Store :=
  {| users := []; friendships := []; hackathons := []; teams := [];
     memberships := []; hackathon_teams := [];
     schools := [(1, "State")]; majors := [(2, "Physics")];
     skills := []; interests := [] |}.

Definition sample_patch : gmap string value :=
  {[ "xp" := VStr "120"; "level" := VInt 3; "school" := VStr "1";
     "major" := VInt 2; "bio" := VStr "hi";
     "profile_gradient" := VList [VStr "aabbcc"; VInt 7] ]}.

(** ** Pages of the list endpoints *)

(** The list of a 200 response; an error response carries none. *)
Definition page_of {A} (r : response (list A)) : list A :=
  match r with Response l _ => l | Detail _ _ => [] end.

(** A page of the friends endpoint: one payload per friendship of the user,
    oldest first. *)
Definition oldest_first_page (s : Store) (user : User)
  (l : list FriendPayload) : Prop :=
  exists fs,
    Forall2 (fun f p => fp_friends_since p = timestamp (f_created_at f)
                        /\ fp_uuid p = other_end user f) fs l
    /\ Forall (fun f => f ∈ friendships s /\ friendship_of user f) fs
    /\ StronglySorted (fun a b => f_created_at a <= f_created_at b) fs
    /\ StronglySorted
         (fun a b => fp_friends_since a <= fp_friends_since b) l.

(** An entry/hackathon row is a past entry of the user when the entry and
    its hackathon are stored, the user is a member of the entry's team, and
    the hackathon ended before [now]. *)
Definition past_entry_of (s : Store) (now : datetime) (user : User)
  (r : HackathonTeam * Hackathon) : Prop :=
  fst r ∈ hackathon_teams s
  /\ snd r ∈ hackathons s
  /\ h_id (snd r) = ht_hackathon (fst r)
  /\ (exists m, m ∈ memberships s /\ tm_team m = ht_team (fst r)
                /\ tm_user m = u_id user)
  /\ h_end_date (snd r) < now.

(** A page of the past-hackathons endpoint: one payload per past entry of
    the user, latest end date first, each carrying the hackathon's id and
    the placement of the listed entry (which may be null). *)
Definition ended_page (s : Store) (now : datetime) (user : User)
  (l : list HackathonPayload) : Prop :=
  exists rows,
    Forall (past_entry_of s now user) rows
    /\ Forall2 (fun r p => hp_uuid p = h_id (snd r)
                           /\ hp_placement p = ht_placement (fst r)
                           /\ hp_end_date p = timestamp (h_end_date (snd r))
                           /\ hp_leaderboard p = None) rows l
    /\ StronglySorted
         (fun x y => h_end_date (snd y) <= h_end_date (snd x)) rows
    /\ StronglySorted (fun a b => hp_end_date b <= hp_end_date a) l.

(** A history page whose rows are placed entries picked out by [mine]. *)
Definition placed_history (s : Store) (mine : HackathonTeam -> Prop)
  (l : list PastHackathon) : Prop :=
  exists rows,
    l = map (past_hackathon s) rows
    /\ Forall (fun r => fst r ∈ hackathon_teams s /\ mine (fst r)
                        /\ ph_placement (past_hackathon s r)
                           = ht_placement (fst r)) rows
    /\ Forall (fun p => is_Some (ph_placement p)) l.

(** ** Signup *)

Section SignupRows.
Context `{UserLibrary}.

(** The row a signup with string email, username and password inserts. *)
Definition signup_row (d : Drawn) (e u p : string) (g : list string) : User :=
  with_password
    (new_user d (normalize_email e)
       {| x_username := u; x_profile_gradient := g; x_xp := 0; x_level := 1;
          x_xp_needed := 100; x_is_staff := Some false;
          x_is_superuser := Some false |})
    (make_password p).

(** The insert of a signup fails: the drawn key, the normalised email or the
    username is taken. *)
Definition taken (s : Store) (d : Drawn) (e u : string) : Prop :=
  exists row, row ∈ users s
              /\ (u_id row = new_id d \/ u_email row = normalize_email e
                  \/ u_username row = u).
End SignupRows.

(** A reference instance: on an email without surrounding white space, the
    part after the last "@" is put in lower case. *)
Fixpoint rsplit_at (t : string) : option (string * string) :=
  match t with
  | EmptyString => None
  | String c rest =>
      match rsplit_at rest with
      | Some (name, domain) => Some (String c name, domain)
      | None => if Ascii.eqb c "@" then Some ("", rest) else None
      end
  end.

Definition plain_normalize_email (e : string) : string :=
  match rsplit_at e with
  | Some (name, domain) => name ++ "@" ++ lower domain
  | None => e
  end.

#[local] Instance reference_user_library : UserLibrary :=
  {| normalize_email := plain_normalize_email;
     make_password := fun p => "hash$" ++ p;
     unusable_password := "!" |}.

Definition sample_drawn : Drawn :=
  {| new_id := "u-new"; joined_at := 9000000; saved_at := 9000001 |}.

(* ================================================================== *)
(** * Facts about the query idioms *)
(* ================================================================== *)

Section OrderByFacts.
Context {A : Type} (leb : A -> A -> bool).

Lemma insert_by_Permutation (x : A) (l : list A) :
  insert_by leb x l ≡ₚ x :: l.
Proof.
  induction l as [|y l IH]; simpl; [done|].
  destruct (leb x y); [done|].
  rewrite IH. apply Permutation_swap.
Qed.

Lemma order_by_Permutation (l : list A) : order_by leb l ≡ₚ l.
Proof.
  induction l as [|x l IH]; simpl; [done|].
  rewrite insert_by_Permutation. by rewrite IH.
Qed.

Lemma order_by_elem_of (x : A) (l : list A) : x ∈ order_by leb l <-> x ∈ l.
Proof. by rewrite order_by_Permutation. Qed.

Lemma order_by_length (l : list A) : length (order_by leb l) = length l.
Proof. by rewrite order_by_Permutation. Qed.

Lemma order_by_Forall (P : A -> Prop) (l : list A) :
  Forall P l -> Forall P (order_by leb l).
Proof. intros HP. by rewrite order_by_Permutation. Qed.

Hypothesis leb_total : forall x y, leb x y = true \/ leb y x = true.
Hypothesis leb_trans :
  forall x y z, leb x y = true -> leb y z = true -> leb x z = true.

Lemma insert_by_sorted (x : A) (l : list A) :
  StronglySorted (fun a b => leb a b = true) l ->
  StronglySorted (fun a b => leb a b = true) (insert_by leb x l).
Proof.
  induction 1 as [|y l Hs IH Hy]; simpl.
  - repeat constructor.
  - destruct (leb x y) eqn:Hxy.
    + constructor; [by constructor|].
      constructor; [done|].
      eapply Forall_impl; [exact Hy|]. intros z Hz. by eapply leb_trans.
    + constructor; [done|].
      rewrite insert_by_Permutation. constructor; [|done].
      destruct (leb_total x y) as [Hc|Hc]; [congruence|done].
Qed.

Lemma order_by_sorted (l : list A) :
  StronglySorted (fun a b => leb a b = true) (order_by leb l).
Proof.
  induction l as [|x l IH]; simpl; [constructor|].
  by apply insert_by_sorted.
Qed.
End OrderByFacts.

Lemma StronglySorted_take {A} (R : A -> A -> Prop) (n : nat) (l : list A) :
  StronglySorted R l -> StronglySorted R (take n l).
Proof.
  intros Hs. rewrite <- (take_drop n l) in Hs.
  by apply StronglySorted_app_1_l in Hs.
Qed.

Lemma StronglySorted_drop {A} (R : A -> A -> Prop) (n : nat) (l : list A) :
  StronglySorted R l -> StronglySorted R (drop n l).
Proof.
  intros Hs. rewrite <- (take_drop n l) in Hs.
  by apply StronglySorted_app_1_r in Hs.
Qed.

Lemma StronglySorted_slice {A} (R : A -> A -> Prop) (offset limit : Z)
  (l : list A) :
  StronglySorted R l -> StronglySorted R (slice offset limit l).
Proof. intros Hs. by apply StronglySorted_take, StronglySorted_drop. Qed.

Lemma StronglySorted_map {A B} (R : B -> B -> Prop) (f : A -> B)
  (l : list A) :
  StronglySorted (fun x y => R (f x) (f y)) l -> StronglySorted R (map f l).
Proof.
  induction 1 as [|x l Hs IH Hx]; simpl; constructor; [done|].
  by apply Forall_map.
Qed.

Lemma StronglySorted_impl {A} (R S : A -> A -> Prop) (l : list A) :
  (forall x y, R x y -> S x y) -> StronglySorted R l -> StronglySorted S l.
Proof.
  intros HRS. induction 1 as [|x l Hs IH Hx]; constructor; [done|].
  eapply Forall_impl; [exact Hx|]. auto.
Qed.

(** Like [StronglySorted_impl], for an implication that holds on the members
    of the list. *)
Lemma StronglySorted_impl_Forall {A} (P : A -> Prop) (R S : A -> A -> Prop)
  (l : list A) :
  (forall x y, P x -> P y -> R x y -> S x y) ->
  Forall P l -> StronglySorted R l -> StronglySorted S l.
Proof.
  intros HRS HP Hs. induction Hs as [|x l Hs IH Hx]; [constructor|].
  apply Forall_cons in HP as [Hpx HP]. constructor; [by apply IH|].
  rewrite Forall_forall in *. intros y Hy. apply HRS; auto.
Qed.

Lemma slice_subseteq {A} (offset limit : Z) (l : list A) :
  slice offset limit l ⊆ l.
Proof.
  unfold slice. intros x Hx.
  apply (subseteq_drop (Z.to_nat offset)), (subseteq_take (Z.to_nat limit)), Hx.
Qed.

Lemma slice_Forall {A} (P : A -> Prop) (offset limit : Z) (l : list A) :
  Forall P l -> Forall P (slice offset limit l).
Proof.
  rewrite !Forall_forall. intros HP x Hx. by apply HP, (slice_subseteq offset limit).
Qed.

Lemma slice_length {A} (offset limit : Z) (l : list A) :
  (length (slice offset limit l) <= Z.to_nat limit)%nat.
Proof. unfold slice. rewrite length_take. lia. Qed.

Lemma elem_of_filter_bool {A} (f : A -> bool) (x : A) (l : list A) :
  x ∈ List.filter f l <-> x ∈ l /\ f x = true.
Proof. rewrite !list_elem_of_In. apply filter_In. Qed.

Lemma filter_Forall {A} (f : A -> bool) (l : list A) :
  Forall (fun x => f x = true) (List.filter f l).
Proof.
  apply Forall_forall. intros x Hx. by apply elem_of_filter_bool in Hx as [_ ?].
Qed.

Lemma asc_total {A} (key : A -> Z) (x y : A) :
  asc key x y = true \/ asc key y x = true.
Proof. unfold asc. rewrite !Z.leb_le. lia. Qed.

Lemma asc_trans {A} (key : A -> Z) (x y z : A) :
  asc key x y = true -> asc key y z = true -> asc key x z = true.
Proof. unfold asc. rewrite !Z.leb_le. lia. Qed.

Lemma desc_total {A} (key : A -> Z) (x y : A) :
  desc key x y = true \/ desc key y x = true.
Proof. unfold desc. rewrite !Z.leb_le. lia. Qed.

Lemma desc_trans {A} (key : A -> Z) (x y z : A) :
  desc key x y = true -> desc key y z = true -> desc key x z = true.
Proof. unfold desc. rewrite !Z.leb_le. lia. Qed.

Lemma asc_null_total {A} (key : A -> option Z) (x y : A) :
  asc_null key x y = true \/ asc_null key y x = true.
Proof.
  unfold asc_null. destruct (key x), (key y); auto.
  rewrite !Z.leb_le. lia.
Qed.

Lemma asc_null_trans {A} (key : A -> option Z) (x y z : A) :
  asc_null key x y = true -> asc_null key y z = true ->
  asc_null key x z = true.
Proof.
  unfold asc_null. destruct (key x), (key y), (key z); auto; try done.
  rewrite !Z.leb_le. lia.
Qed.

(** An ascending ordering on a key, as a relation on rows. *)
Lemma order_by_asc_sorted {A} (key : A -> Z) (l : list A) :
  StronglySorted (fun x y => key x <= key y) (order_by (asc key) l).
Proof.
  eapply StronglySorted_impl;
    [|apply order_by_sorted; [apply asc_total|apply asc_trans]].
  intros x y. unfold asc. by rewrite Z.leb_le.
Qed.

Lemma order_by_desc_sorted {A} (key : A -> Z) (l : list A) :
  StronglySorted (fun x y => key y <= key x) (order_by (desc key) l).
Proof.
  eapply StronglySorted_impl;
    [|apply order_by_sorted; [apply desc_total|apply desc_trans]].
  intros x y. unfold desc. by rewrite Z.leb_le.
Qed.

(* ================================================================== *)
(** * Pagination *)
(* ================================================================== *)

Section PaginationFacts.
Context `{Builtins}.

Lemma parse_pagination_Some (qp : gmap string string) (offset limit : Z) :
  int_param qp "offset" 0 = Some offset ->
  int_param qp "limit" 10 = Some limit ->
  parse_pagination qp = Some (Z.max offset 0, Z.max (Z.min limit 50) 1).
Proof. unfold parse_pagination. by intros -> ->. Qed.

Lemma parse_pagination_None (qp : gmap string string) :
  (exists raw, qp !! "offset" = Some raw /\ int_of_str raw = None)
  \/ (exists raw, qp !! "limit" = Some raw /\ int_of_str raw = None) ->
  parse_pagination qp = None.
Proof.
  unfold parse_pagination, int_param.
  intros [(raw & -> & ->)|(raw & -> & ->)]; [done|].
  by destruct (qp !! "offset") as [r|]; [destruct (int_of_str r)|].
Qed.

Lemma parse_pagination_range (qp : gmap string string) (offset limit : Z) :
  parse_pagination qp = Some (offset, limit) ->
  0 <= offset /\ 1 <= limit <= 50.
Proof.
  unfold parse_pagination.
  destruct (int_param qp "offset" 0); [|done].
  destruct (int_param qp "limit" 10); [|done].
  intros [= <- <-]. lia.
Qed.
End PaginationFacts.

(** C3.  For every paginated request: when both parameters read as integers
    (an absent one reads as its default, 0 and 10), [parse_pagination]
    returns the offset raised to at least 0 and the limit brought into
    1..50 -- a limit above 50 becomes 50, a limit below 1 becomes 1, a
    negative offset becomes 0, values in range are kept; when the offset or
    the limit parameter is present and [int] rejects it, each of the seven
    paginated handlers answers HTTP 400 (and the friends handler leaves the
    store untouched). *)
Theorem pagination_clamped_or_rejected `{Builtins}
  (s : Store) (now : datetime) (user : User) (id : uuid) (tape : list Z)
  (qp : gmap string string) :
  (forall offset limit,
     int_param qp "offset" 0 = Some offset ->
     int_param qp "limit" 10 = Some limit ->
     exists o l,
       parse_pagination qp = Some (o, l)
       /\ (50 < limit -> l = 50) /\ (limit < 1 -> l = 1)
       /\ (1 <= limit <= 50 -> l = limit)
       /\ (offset < 0 -> o = 0) /\ (0 <= offset -> o = offset))
  /\ ((exists raw, qp !! "offset" = Some raw /\ int_of_str raw = None)
      \/ (exists raw, qp !! "limit" = Some raw /\ int_of_str raw = None) ->
      UserHackathonsView_get s now user qp
        = Detail "Invalid pagination" 400
      /\ UserPastHackathonsView_get s now user qp
        = Detail "Invalid pagination" 400
      /\ UserFriendsView_get user qp s tape
        = Ret (Detail "Invalid pagination" 400) s tape
      /\ HackathonSearchView_get s user qp
        = Detail "Invalid pagination" 400
      /\ HackathonLeaderboardView_get s user id qp
        = Detail "Invalid pagination" 400
      /\ UserHistoryView_get s now id qp
        = Detail "Invalid pagination" 400
      /\ TeamHistoryView_get s now id qp
        = Detail "Invalid pagination" 400).
Proof.
  split.
  - intros offset limit Ho Hl.
    exists (Z.max offset 0), (Z.max (Z.min limit 50) 1).
    split; [by apply parse_pagination_Some|]. lia.
  - intros Hbad. apply parse_pagination_None in Hbad.
    unfold UserHackathonsView_get, UserPastHackathonsView_get,
      UserFriendsView_get, HackathonSearchView_get,
      HackathonLeaderboardView_get, UserHistoryView_get, TeamHistoryView_get.
    by rewrite Hbad.
Qed.

Lemma pagination_clamped_or_rejected_witness :
  parse_pagination {[ "offset" := "-3"; "limit" := "500" ]} = Some (0, 50)
  /\ HackathonSearchView_get empty_store alice {[ "limit" := "ten" ]}
     = Detail "Invalid pagination" 400.
Proof.
  pose proof (pagination_clamped_or_rejected empty_store 0 alice "h" []
                {[ "offset" := "-3"; "limit" := "500" ]}) as [Hclamp _].
  pose proof (pagination_clamped_or_rejected empty_store 0 alice "h" []
                {[ "limit" := "ten" ]}) as [_ Hreject].
  split.
  - destruct (Hclamp (-3) 500) as (o & l & -> & Hl & _ & _ & Ho & _);
      [reflexivity|reflexivity|].
    rewrite Hl, Ho by lia. reflexivity.
  - apply Hreject. right. exists "ten". split; reflexivity.
Defined.

(* ================================================================== *)
(** * Leaderboards *)
(* ================================================================== *)

Lemma elem_of_with_team (s : Store) (es : list HackathonTeam)
  (e : HackathonTeam) (t : Team) :
  (e, t) ∈ with_team s es <->
  e ∈ es /\ t ∈ teams s /\ String.eqb (t_id t) (ht_team e) = true.
Proof.
  unfold with_team. rewrite list_elem_of_In, in_flat_map. split.
  - intros (e' & He' & Hin). apply list_elem_of_In in He', Hin.
    apply list_elem_of_fmap in Hin as (t' & [= -> ->] & Ht').
    apply elem_of_filter_bool in Ht' as [? ?]. done.
  - intros (He & Ht & Heq). exists e. rewrite <- !list_elem_of_In.
    split; [done|]. apply list_elem_of_fmap. exists t. split; [done|].
    by apply elem_of_filter_bool.
Qed.

Lemma placed_entries_placed (s : Store) (hid : uuid) :
  Forall (fun r => ht_hackathon (fst r) = hid
                   /\ is_Some (ht_placement (fst r)))
         (placed_entries s hid).
Proof.
  unfold placed_entries. apply order_by_Forall, Forall_forall.
  intros [e t] Hr. apply elem_of_with_team in Hr as (He & _ & _).
  apply elem_of_filter_bool in He as [_ He].
  apply andb_true_iff in He as [Hh Hp]. simpl.
  apply String.eqb_eq in Hh. by apply bool_decide_eq_true in Hp.
Qed.

Lemma placed_entries_nil (s : Store) (hid : uuid) :
  Forall (fun e => ht_hackathon e = hid -> ht_placement e = None)
         (hackathon_teams s) ->
  placed_entries s hid = [].
Proof.
  intros Hnone. destruct (placed_entries s hid) as [|r l] eqn:Hpl; [done|].
  exfalso. assert (Hr : r ∈ placed_entries s hid) by (rewrite Hpl; left).
  unfold placed_entries in Hr. apply order_by_elem_of in Hr.
  destruct r as [e t]. apply elem_of_with_team in Hr as (He & _ & _).
  apply elem_of_filter_bool in He as [He Hf].
  apply andb_true_iff in Hf as [Hh Hp].
  apply String.eqb_eq in Hh. apply bool_decide_eq_true in Hp.
  rewrite Forall_forall in Hnone. rewrite (Hnone e He Hh) in Hp.
  by destruct Hp.
Qed.

Lemma placed_entries_sorted (s : Store) (hid : uuid) :
  StronglySorted
    (fun x y => exists p q, ht_placement (fst x) = Some p
                            /\ ht_placement (fst y) = Some q /\ p <= q)
    (placed_entries s hid).
Proof.
  eapply (StronglySorted_impl_Forall
            (fun r => is_Some (ht_placement (fst r)))
            (fun a b => asc_null (fun r => ht_placement (fst r)) a b = true)).
  - intros x y [p Hp] [q Hq] Hle. exists p, q.
    unfold asc_null in Hle. simpl in Hle. rewrite Hp, Hq in Hle.
    by apply Z.leb_le in Hle.
  - eapply Forall_impl; [apply placed_entries_placed|]. by intros r [_ ?].
  - apply order_by_sorted; [apply asc_null_total|apply asc_null_trans].
Qed.

(** The rows of a page or prefix of the placed entries ascend by placement. *)
Lemma leaderboard_rows_sorted (s : Store) (cu : option User)
  (rows : list (HackathonTeam * Team)) :
  StronglySorted
    (fun x y => exists p q, ht_placement (fst x) = Some p
                            /\ ht_placement (fst y) = Some q /\ p <= q)
    rows ->
  StronglySorted placement_le (map (leaderboard_row s cu) rows).
Proof.
  intros Hs. apply StronglySorted_map.
  eapply StronglySorted_impl; [|exact Hs].
  intros [e1 t1] [e2 t2]. done.
Qed.

Lemma serialize_hackathon_leaderboard_ok (s : Store) (h : Hackathon)
  (cu : option User) (include_user_team : bool) :
  embedded_leaderboard_ok s (serialize_hackathon s h cu include_user_team true).
Proof.
  unfold embedded_leaderboard_ok. simpl.
  set (rows := take 10 (placed_entries s (h_id h))).
  exists (match map (leaderboard_row s cu) rows with
          | [] => None
          | _ :: _ => Some (map (leaderboard_row s cu) rows)
          end).
  split; [done|]. split; [|split].
  - destruct (map (leaderboard_row s cu) rows) as [|r l] eqn:Hrows; [done|].
    rewrite <- Hrows. split; [by rewrite Hrows|]. split.
    + rewrite length_map. unfold rows. rewrite length_take. lia.
    + apply leaderboard_rows_sorted, StronglySorted_take,
        placed_entries_sorted.
  - intros Hnone. unfold rows. by rewrite (placed_entries_nil _ _ Hnone).
  - intros (e & t & He & Hh & Hp & Ht & Hid).
    assert (Hin : (e, t) ∈ placed_entries s (h_id h)).
    { unfold placed_entries. apply order_by_elem_of, elem_of_with_team.
      split; [|split; [done|by apply String.eqb_eq]].
      apply elem_of_filter_bool. split; [done|].
      apply andb_true_iff. split; [by apply String.eqb_eq|].
      by apply bool_decide_eq_true. }
    unfold rows. destruct (placed_entries s (h_id h)) as [|r l].
    + by apply elem_of_nil in Hin.
    + simpl. eauto.
Qed.

(** C10.  A hackathon serialized with its leaderboard embedded -- and so
    every hackathon of a search response -- carries a ["leaderboard"] key
    that is either [None] or a non-empty list of at most 10 rows in
    ascending order of placement; it is [None] when no entry of the
    hackathon has a placement, and a list when an entry of the hackathon
    for a stored team has one. *)
Theorem embedded_leaderboard `{Builtins} (s : Store) (h : Hackathon)
  (cu : option User) (include_user_team : bool) (user : User)
  (qp : gmap string string) :
  embedded_leaderboard_ok s (serialize_hackathon s h cu include_user_team true)
  /\ match HackathonSearchView_get s user qp with
     | Response l _ => Forall (embedded_leaderboard_ok s) l
     | Detail _ _ => True
     end.
Proof.
  split; [apply serialize_hackathon_leaderboard_ok|].
  unfold HackathonSearchView_get.
  destruct (parse_pagination qp) as [[offset limit]|]; [|done].
  apply Forall_map, Forall_forall. intros h' _.
  apply serialize_hackathon_leaderboard_ok.
Qed.

(** C5 (as amended).  The leaderboard endpoint answers 400 on invalid
    pagination and otherwise 200 with a page in which every row has a
    placement and the rows ascend by placement; rows that share a placement
    may follow one another. *)
Theorem leaderboard_placed_and_ascending `{Builtins} (s : Store)
  (user : User) (hackathon_id : uuid) (qp : gmap string string) :
  match HackathonLeaderboardView_get s user hackathon_id qp with
  | Response l st =>
      st = 200
      /\ Forall (fun r => is_Some (lb_placement r)) l
      /\ StronglySorted placement_le l
  | Detail _ st => st = 400
  end.
Proof.
  unfold HackathonLeaderboardView_get.
  destruct (parse_pagination qp) as [[offset limit]|]; [|done].
  split; [done|]. split.
  - apply Forall_map, (slice_Forall _ offset limit).
    eapply Forall_impl; [apply placed_entries_placed|].
    by intros [e t] [_ ?].
  - apply leaderboard_rows_sorted, StronglySorted_slice,
      placed_entries_sorted.
Qed.

(** C5 as stated fails: two teams that share first place are both returned,
    and the page is not strictly ascending. *)
Lemma leaderboard_tie_not_strict :
  exists l,
    HackathonLeaderboardView_get tie_store alice "h-1" ∅ = Response l 200
    /\ map lb_placement l = [Some 1; Some 1]
    /\ ~ StronglySorted placement_lt l.
Proof.
  eexists. split; [vm_compute; reflexivity|]. split; [reflexivity|].
  intros Hs. apply StronglySorted_inv in Hs as [_ Hall].
  apply Forall_cons in Hall as [(p & q & Hp & Hq & Hlt) _].
  simpl in Hp, Hq. injection Hp as <-. injection Hq as <-. lia.
Qed.

(* ================================================================== *)
(** * Past-hackathon history *)
(* ================================================================== *)

Lemma elem_of_with_hackathon (s : Store) (es : list HackathonTeam)
  (e : HackathonTeam) (h : Hackathon) :
  (e, h) ∈ with_hackathon s es <->
  e ∈ es /\ h ∈ hackathons s /\ h_id h = ht_hackathon e.
Proof.
  unfold with_hackathon. rewrite list_elem_of_In, in_flat_map. split.
  - intros (e' & He' & Hin). apply list_elem_of_In in He', Hin.
    apply list_elem_of_fmap in Hin as (h' & [= -> ->] & Hh').
    apply elem_of_filter_bool in Hh' as [? Heq].
    by apply String.eqb_eq in Heq.
  - intros (He & Hh & Heq). exists e. rewrite <- !list_elem_of_In.
    split; [done|]. apply list_elem_of_fmap. exists h. split; [done|].
    apply elem_of_filter_bool. split; [done|]. by apply String.eqb_eq.
Qed.

Lemma elem_of_entries_of_user (s : Store) (uid : uuid) (e : HackathonTeam) :
  e ∈ entries_of_user s uid <->
  e ∈ hackathon_teams s
  /\ exists m, m ∈ memberships s /\ tm_team m = ht_team e /\ tm_user m = uid.
Proof.
  unfold entries_of_user, is_member.
  rewrite list_elem_of_In, in_flat_map. split.
  - intros (e' & He' & Hin). apply list_elem_of_In in He', Hin.
    apply list_elem_of_fmap in Hin as (m & -> & Hm).
    apply elem_of_filter_bool in Hm as [Hm Heq].
    apply andb_true_iff in Heq as [Ht Hu].
    apply String.eqb_eq in Ht, Hu. eauto.
  - intros (He & m & Hm & Ht & Hu). exists e. rewrite <- !list_elem_of_In.
    split; [done|]. apply list_elem_of_fmap. exists m. split; [done|].
    apply elem_of_filter_bool. split; [done|].
    apply andb_true_iff. by rewrite !String.eqb_eq.
Qed.

Lemma timestamp_mono (a b : Z) : a <= b -> timestamp a <= timestamp b.
Proof. intros Hab. unfold timestamp. apply Z.quot_le_mono; lia. Qed.

(** The shared shape of [past_entries_for_user] and
    [past_entries_for_team]. *)
Lemma past_rows_page (s : Store) (now : datetime) (es : list HackathonTeam)
  (offset limit : Z) :
  es ⊆ hackathon_teams s ->
  past_page s now
    (map (past_hackathon s)
       (slice offset limit
          (order_by (desc (fun r => h_end_date (snd r)))
             (List.filter
                (fun r => (h_end_date (snd r) <? now)
                          && bool_decide (is_Some (ht_placement (fst r))))
                (with_hackathon s es))))).
Proof.
  intros Hes. eexists. split; [reflexivity|].
  assert (Hsorted :
    StronglySorted (fun x y => h_end_date (snd y) <= h_end_date (snd x))
      (slice offset limit
         (order_by (desc (fun r : HackathonTeam * Hackathon =>
                            h_end_date (snd r)))
            (List.filter
               (fun r => (h_end_date (snd r) <? now)
                         && bool_decide (is_Some (ht_placement (fst r))))
               (with_hackathon s es))))).
  { apply StronglySorted_slice.
    apply (order_by_desc_sorted (fun r : HackathonTeam * Hackathon =>
                                   h_end_date (snd r))). }
  split; [|split; [done|]].
  - apply slice_Forall, order_by_Forall, Forall_forall.
    intros [e h] Hr. apply elem_of_filter_bool in Hr as [Hr Hf].
    apply elem_of_with_hackathon in Hr as (He & Hh & Hid).
    apply andb_true_iff in Hf as [Hlt _]. apply Z.ltb_lt in Hlt.
    simpl. auto.
  - apply StronglySorted_map.
    eapply StronglySorted_impl; [|exact Hsorted].
    intros [e1 h1] [e2 h2]. simpl. apply timestamp_mono.
Qed.

(** C6.  The history endpoints of a user and of a team answer 400 on invalid
    pagination, 404 for an unknown id, and otherwise 200 with hackathons
    that all ended strictly before [now], ordered by end date, most recent
    first. *)
Theorem history_past_most_recent_first `{Builtins} (s : Store)
  (now : datetime) (id : uuid) (qp : gmap string string) :
  match UserHistoryView_get s now id qp with
  | Response l st => st = 200 /\ past_page s now l
  | Detail _ st => st = 400 \/ st = 404
  end
  /\ match TeamHistoryView_get s now id qp with
     | Response l st => st = 200 /\ past_page s now l
     | Detail _ st => st = 400 \/ st = 404
     end.
Proof.
  unfold UserHistoryView_get, TeamHistoryView_get.
  destruct (parse_pagination qp) as [[offset limit]|]; [|by split; left].
  split.
  - destruct (get_user s id) as [target|]; [|by right].
    split; [done|]. apply past_rows_page.
    intros e He. by apply elem_of_entries_of_user in He as [? _].
  - destruct (get_team s id) as [team|]; [|by right].
    split; [done|]. apply past_rows_page.
    intros e He. by apply elem_of_filter_bool in He as [? _].
Qed.

(* ================================================================== *)
(** * Hackathon search *)
(* ================================================================== *)

Lemma startswith_app (t p : string) :
  startswith t p = true -> exists rest, t = p ++ rest.
Proof.
  revert t. induction p as [|a p IH]; intros t Hs.
  - by exists t.
  - destruct t as [|b t]; [done|]. simpl in Hs.
    apply andb_true_iff in Hs as [Hab Hs]. apply Ascii.eqb_eq in Hab as ->.
    destruct (IH t Hs) as [rest ->]. by exists rest.
Qed.

Lemma contains_app (hay needle : string) :
  contains hay needle = true ->
  exists pre post, hay = pre ++ needle ++ post.
Proof.
  induction hay as [|c hay IH]; intros Hc.
  - destruct needle; [by exists "", ""|done].
  - change (startswith (String c hay) needle || contains hay needle = true)
      in Hc.
    apply orb_true_iff in Hc as [Hs|Hc].
    + apply startswith_app in Hs as [rest ->]. by exists "", rest.
    + destruct (IH Hc) as (pre & post & ->). by exists (String c pre), post.
Qed.

Lemma icontains_occurs (name query : string) :
  icontains name query = true -> occurs_ignoring_case query name.
Proof. apply contains_app. Qed.

Lemma elem_of_distinct {A} `{EqDecision A} (x : A) (l : list A) :
  x ∈ distinct l <-> x ∈ l.
Proof.
  induction l as [|y l IH]; simpl; [done|].
  case_bool_decide as Hy.
  - rewrite IH. split; [by right|].
    intros [->|?]%elem_of_cons; done.
  - rewrite !elem_of_cons, IH. done.
Qed.

Lemma NoDup_distinct {A} `{EqDecision A} (l : list A) : NoDup (distinct l).
Proof.
  induction l as [|y l IH]; simpl; [constructor|].
  case_bool_decide as Hy; [done|].
  constructor; [|done]. by rewrite elem_of_distinct.
Qed.

(** The annotation counts each participant of the hackathon once. *)
Lemma participant_estimate_counts (s : Store) (h : Hackathon) :
  exists ids,
    NoDup ids
    /\ (forall uid, uid ∈ ids <-> is_participant s h uid)
    /\ participant_estimate s h = Z.of_nat (length ids).
Proof.
  unfold participant_estimate. eexists. split; [apply NoDup_distinct|].
  split; [|reflexivity].
  intros uid. rewrite elem_of_distinct, list_elem_of_In, in_flat_map.
  unfold is_participant. split.
  - intros (e & He & Hin). apply list_elem_of_In in He, Hin.
    apply elem_of_filter_bool in He as [He Hh]. apply String.eqb_eq in Hh.
    apply list_elem_of_fmap in Hin as (m & -> & Hm).
    apply elem_of_filter_bool in Hm as [Hm Ht]. apply String.eqb_eq in Ht.
    exists e, m. done.
  - intros (e & m & He & Hh & Hm & Ht & <-). exists e.
    rewrite <- !list_elem_of_In. split.
    + apply elem_of_filter_bool. split; [done|]. by apply String.eqb_eq.
    + apply list_elem_of_fmap. exists m. split; [done|].
      apply elem_of_filter_bool. split; [done|]. by apply String.eqb_eq.
Qed.

(** C4.  For a search request with a non-empty query, every hackathon of a
    200 response is a stored hackathon whose name contains the query when
    case is ignored, and the hackathons come in descending order of
    [participant_estimate], which counts the distinct users across the
    hackathon's teams. *)
Theorem search_filters_and_ranks `{Builtins} (s : Store) (user : User)
  (qp : gmap string string) (query : string) :
  qp !! "query" = Some query ->
  query <> "" ->
  match HackathonSearchView_get s user qp with
  | Response l st => st = 200 /\ search_page s user query l
  | Detail _ st => st = 400
  end
  /\ forall h, exists ids,
       NoDup ids
       /\ (forall uid, uid ∈ ids <-> is_participant s h uid)
       /\ participant_estimate s h = Z.of_nat (length ids).
Proof.
  intros Hq Hne. split; [|apply participant_estimate_counts].
  unfold HackathonSearchView_get.
  destruct (parse_pagination qp) as [[offset limit]|]; [|done].
  split; [done|]. rewrite Hq. simpl. unfold search_results.
  apply String.eqb_neq in Hne. rewrite Hne. simpl.
  set (hs := slice offset limit
               (order_by (desc (participant_estimate s))
                  (List.filter (fun h => icontains (h_name h) query)
                               (hackathons s)))).
  assert (Hall : Forall (fun h => h ∈ hackathons s
                          /\ occurs_ignoring_case query (h_name h)) hs).
  { apply slice_Forall, order_by_Forall, Forall_forall.
    intros h Hh. apply elem_of_filter_bool in Hh as [? Hi].
    split; [done|]. by apply icontains_occurs. }
  exists hs. split; [done|]. split; [done|]. split.
  - apply Forall_map. eapply Forall_impl; [exact Hall|]. by intros h [_ ?].
  - apply StronglySorted_slice, order_by_desc_sorted.
Qed.

Lemma search_filters_and_ranks_witness :
  match HackathonSearchView_get tie_store alice {[ "query" := "SPRING" ]} with
  | Response l st => st = 200 /\ search_page tie_store alice "SPRING" l
  | Detail _ st => st = 400
  end.
Proof.
  refine (proj1 (search_filters_and_ranks tie_store alice
                   {[ "query" := "SPRING" ]} "SPRING" _ _)).
  - reflexivity.
  - discriminate.
Defined.

(* ================================================================== *)
(** * Signup *)
(* ================================================================== *)

(** C9 (the code departs from it).  A signup body with neither ["email"] nor
    ["username"] makes the handler evaluate [email.split("@")] on [None]
    before the guard [if not email or not password] is reached:
    [AttributeError] escapes.  With a username, or with an empty-string
    email, the guard answers 400. *)
Theorem signup_without_email `{Builtins}
  (create_and_respond :
     value -> value -> value -> list string -> M (response Bootstrap))
  (s : Store) (tape : list Z) :
  SignupView_post create_and_respond {[ "password" := VStr "pass123" ]} s tape
  = Raise AttributeError
  /\ SignupView_post create_and_respond
       {[ "password" := VStr "pass123"; "username" := VStr "newbie" ]} s tape
     = Ret (Detail "email and password are required" 400) s tape
  /\ SignupView_post create_and_respond
       {[ "email" := VStr ""; "password" := VStr "pass123" ]} s tape
     = Ret (Detail "email and password are required" 400) s tape.
Proof. repeat split. Qed.

(* ================================================================== *)
(** * The bootstrap payload: its lists *)
(* ================================================================== *)

Section TopOfOrdering.
Context {A : Type} (leb : A -> A -> bool).
Hypothesis leb_total : forall x y, leb x y = true \/ leb y x = true.
Hypothesis leb_trans :
  forall x y z, leb x y = true -> leb y z = true -> leb x z = true.

(** Whatever a prefix of an ordering leaves out comes no earlier than what
    the prefix holds. *)
Lemma take_order_by_first (n : nat) (l : list A) (x y : A) :
  x ∈ take n (order_by leb l) -> y ∈ l -> y ∉ take n (order_by leb l) ->
  leb x y = true.
Proof.
  intros Hx Hy Hny.
  apply (order_by_elem_of leb) in Hy.
  rewrite <- (take_drop n (order_by leb l)) in Hy.
  apply elem_of_app in Hy as [Hy|Hy]; [done|].
  pose proof (order_by_sorted leb leb_total leb_trans l) as Hs.
  rewrite <- (take_drop n (order_by leb l)) in Hs.
  exact (StronglySorted_app_1_elem_of _ _ _ _ _ Hs Hx Hy).
Qed.
End TopOfOrdering.

Lemma bind_Ret {A B} (m : M A) (k : A -> M B) (s : Store) (t : list Z)
  (b : B) (s2 : Store) (t2 : list Z) :
  bind m k s t = Ret b s2 t2 ->
  exists a s1 t1, m s t = Ret a s1 t1 /\ k a s1 t1 = Ret b s2 t2.
Proof. unfold bind. destruct (m s t) as [a s1 t1| |]; [eauto|done|done]. Qed.

Lemma build_bootstrap_Ret (now : datetime) (user : User) (s : Store)
  (t : list Z) (b : Bootstrap) (s' : Store) (t' : list Z) :
  build_bootstrap_payload now user s t = Ret b s' t' ->
  exists friends core s1 t1,
    mapM (fun f => serialize_friend f user) (recent_friendships s user) s t
    = Ret friends s1 t1
    /\ serialize_user_core user None true s1 t1 = Ret core s' t'
    /\ b = {| bp_user := core;
              bp_hackathons :=
                map (fun r => serialize_hackathon s (snd r) (Some user)
                                true false)
                    (upcoming_entries s now user);
              bp_friends := friends |}.
Proof.
  unfold build_bootstrap_payload. intros Hb.
  apply bind_Ret in Hb as (s0 & s0' & t0 & [= <- <- <-] & Hb).
  apply bind_Ret in Hb as (friends & s1 & t1 & Hf & Hb).
  apply bind_Ret in Hb as (core & s2 & t2 & Hc & [= <- <- <-]).
  by exists friends, core, s1, t1.
Qed.

Lemma elem_of_with_hackathon_team (s : Store) (es : list HackathonTeam)
  (e : HackathonTeam) (h : Hackathon) :
  (e, h) ∈ with_hackathon_team s es <->
  e ∈ es /\ (exists t, t ∈ teams s /\ t_id t = ht_team e)
  /\ h ∈ hackathons s /\ h_id h = ht_hackathon e.
Proof.
  unfold with_hackathon_team. rewrite elem_of_with_hackathon.
  rewrite list_elem_of_fmap. split.
  - intros ((r & -> & Hr) & Hh & Hid). destruct r as [e' t].
    apply elem_of_with_team in Hr as (He & Ht & Heq).
    apply String.eqb_eq in Heq. simpl. eauto 10.
  - intros (He & (t & Ht & Heq) & Hh & Hid). split; [|done].
    exists (e, t). split; [done|]. apply elem_of_with_team.
    split; [done|]. split; [done|]. by apply String.eqb_eq.
Qed.

(** The candidates of the upcoming query are the upcoming entries. *)
Lemma upcoming_candidates (s : Store) (now : datetime) (user : User)
  (r : HackathonTeam * Hackathon) :
  r ∈ List.filter (fun r => now <=? h_end_date (snd r))
        (with_hackathon_team s (entries_of_user s (u_id user)))
  <-> upcoming_entry_of s now user r.
Proof.
  destruct r as [e h]. unfold upcoming_entry_of. simpl.
  rewrite elem_of_filter_bool, elem_of_with_hackathon_team,
    elem_of_entries_of_user, Z.leb_le. simpl. tauto.
Qed.

Lemma user_entry_Some (s : Store) (user : User) (e : HackathonTeam)
  (h : Hackathon) :
  e ∈ entries_of_user s (u_id user) -> ht_hackathon e = h_id h ->
  (exists t, t ∈ teams s /\ t_id t = ht_team e) ->
  exists e' t',
    user_entry s h user = Some (e', t')
    /\ e' ∈ entries_of_user s (u_id user) /\ ht_hackathon e' = h_id h
    /\ t' ∈ teams s /\ t_id t' = ht_team e'.
Proof.
  intros He Hh (t & Ht & Heq). unfold user_entry, first.
  set (joined := with_team s
                   (List.filter
                      (fun e0 => String.eqb (ht_hackathon e0) (h_id h))
                      (entries_of_user s (u_id user)))).
  assert (Hin : (e, t) ∈ joined).
  { apply elem_of_with_team. split; [|split; [done|by apply String.eqb_eq]].
    apply elem_of_filter_bool. split; [done|]. by apply String.eqb_eq. }
  set (leb := fun x y : HackathonTeam * Team =>
                hackathon_team_ordering (fst x) (fst y)).
  apply (order_by_elem_of leb) in Hin.
  destruct (order_by leb joined) as [|[e' t'] rest] eqn:Hord;
    [by apply elem_of_nil in Hin|].
  exists e', t'. split; [done|].
  assert (Hhead : (e', t') ∈ joined).
  { apply (order_by_elem_of leb). rewrite Hord. left. }
  apply elem_of_with_team in Hhead as (He' & Ht' & Heq').
  apply elem_of_filter_bool in He' as [He' Hh'].
  apply String.eqb_eq in Heq', Hh'. done.
Qed.

Lemma upcoming_entry_team_embedded (s : Store) (now : datetime)
  (user : User) (r : HackathonTeam * Hackathon) :
  upcoming_entry_of s now user r ->
  team_embedded s user (serialize_hackathon s (snd r) (Some user) true false).
Proof.
  destruct r as [e h]. intros (He & Hh & Hid & Hm & Ht & Hend). simpl in *.
  destruct (user_entry_Some s user e h) as (e' & t' & Hue & He' & Hh' & Ht' & Heq');
    [by apply elem_of_entries_of_user|done|done|].
  apply elem_of_entries_of_user in He' as (He' & m & Hm' & Hmt & Hmu).
  exists e', t'. unfold serialize_hackathon. rewrite Hue. simpl.
  split; [done|]. split; [done|]. split; [done|]. split; [done|].
  split; [|done]. exists m. by rewrite Heq'.
Qed.

Lemma take_full_or_all {A} (n : nat) (l : list A) :
  length (take n l) = n \/ take n l = l.
Proof.
  destruct (decide (n <= length l)%nat) as [Hle|Hgt].
  - left. rewrite length_take. lia.
  - right. apply take_ge. lia.
Qed.

Lemma upcoming_entries_page (s : Store) (now : datetime) (user : User) :
  earliest_starting_page s now user
    (map (fun r => serialize_hackathon s (snd r) (Some user) true false)
         (upcoming_entries s now user)).
Proof.
  assert (Hall : Forall (upcoming_entry_of s now user)
                        (upcoming_entries s now user)).
  { apply Forall_forall. intros r Hr. apply upcoming_candidates.
    unfold upcoming_entries in Hr. apply subseteq_take in Hr.
    by apply order_by_elem_of in Hr. }
  split.
  { rewrite length_map. unfold upcoming_entries. rewrite length_take. lia. }
  exists (upcoming_entries s now user). split; [done|]. split; [done|].
  split; [|split; [|split]].
  - apply StronglySorted_take, order_by_asc_sorted.
  - intros r r' Hr Hr' Hnot. apply upcoming_candidates in Hr'.
    apply Z.leb_le.
    exact (take_order_by_first (asc (fun r => h_start_date (snd r)))
             (asc_total _) (asc_trans _) 5 _ r r' Hr Hr' Hnot).
  - apply Forall_map. eapply Forall_impl; [exact Hall|].
    intros r. apply upcoming_entry_team_embedded.
  - rewrite length_map. unfold upcoming_entries.
    destruct (take_full_or_all 5
                (order_by (asc (fun r => h_start_date (snd r)))
                   (List.filter (fun r => now <=? h_end_date (snd r))
                      (with_hackathon_team s
                         (entries_of_user s (u_id user))))))
      as [Hfull|Hall']; [by left|right].
    intros r' Hr'. rewrite Hall'.
    by apply order_by_elem_of, upcoming_candidates.
Qed.

(** C1 (as amended).  When the bootstrap payload is built for a user, its
    [hackathons] list has at most 5 entries; they are upcoming hackathons
    (end date not before now) that the user's teams are entered in, taken in
    ascending order of start date -- the earliest-starting ones, not the
    soonest-ending -- and each embeds the user's team and placement.  The
    list has 5 entries unless the user has fewer upcoming entries, and then
    it leaves none of them out. *)
Theorem bootstrap_hackathons_earliest_starting (now : datetime) (user : User)
  (s : Store) (tape : list Z) (b : Bootstrap) (s' : Store) (tape' : list Z) :
  build_bootstrap_payload now user s tape = Ret b s' tape' ->
  earliest_starting_page s now user (bp_hackathons b).
Proof.
  intros Hb. apply build_bootstrap_Ret in Hb as (fr & core & s1 & t1 & _ & _ & ->).
  apply upcoming_entries_page.
Qed.

Lemma bootstrap_hackathons_earliest_starting_witness :
  exists b,
    build_bootstrap_payload 0 alice six_store [] = Ret b six_store []
    /\ map hp_uuid (bp_hackathons b) = ["h-1"; "h-2"; "h-3"; "h-4"; "h-5"]
    /\ earliest_starting_page six_store 0 alice (bp_hackathons b).
Proof.
  eexists. split; [vm_compute; reflexivity|]. split; [reflexivity|].
  apply (bootstrap_hackathons_earliest_starting 0 alice six_store []
           _ six_store []).
  vm_compute. reflexivity.
Defined.

(** C1 as stated fails: of six upcoming hackathons of Alice's team, the one
    that starts last ends first; the payload lists the five that start
    earliest and leaves out the one that ends soonest. *)
Lemma bootstrap_hackathons_not_soonest_ending :
  exists b,
    build_bootstrap_payload 0 alice six_store [] = Ret b six_store []
    /\ map hp_uuid (bp_hackathons b) = ["h-1"; "h-2"; "h-3"; "h-4"; "h-5"]
    /\ ~ soonest_ending six_store 0 alice (bp_hackathons b).
Proof.
  eexists. split; [vm_compute; reflexivity|]. split; [reflexivity|].
  intros Hc.
  specialize (Hc (entry "h-6" "t-1" None, hack "h-6" 60 70)).
  assert (Hup : upcoming_entry_of six_store 0 alice
                  (entry "h-6" "t-1" None, hack "h-6" 60 70)).
  { unfold upcoming_entry_of. simpl.
    split; [apply list_elem_of_In; simpl; auto 10|].
    split; [apply list_elem_of_In; simpl; auto 10|].
    split; [reflexivity|].
    split; [eexists; split; [apply list_elem_of_here|split; reflexivity]|].
    split; [eexists; split; [apply list_elem_of_here|reflexivity]|].
    unfold hack. simpl. lia. }
  specialize (Hc Hup).
  assert (Hout : h_id (hack "h-6" 60 70)
                 ∉ ["h-1"; "h-2"; "h-3"; "h-4"; "h-5"]).
  { intros Hin. apply list_elem_of_In in Hin. simpl in Hin.
    intuition discriminate. }
  specialize (Hc Hout).
  apply Forall_cons in Hc as [Hle _].
  vm_compute in Hle. by apply Hle.
Qed.

Lemma mapM_Forall2 {A B} (f : A -> M B) (P : A -> B -> Prop) (l : list A) :
  (forall x s t y s' t', f x s t = Ret y s' t' -> P x y) ->
  forall s t ys s' t', mapM f l s t = Ret ys s' t' -> Forall2 P l ys.
Proof.
  intros HP. induction l as [|x l IH]; simpl; intros s t ys s' t' Hm.
  - injection Hm as <- _ _. constructor.
  - apply bind_Ret in Hm as (y & s1 & t1 & Hy & Hm).
    apply bind_Ret in Hm as (ys' & s2 & t2 & Hys & [= <- <- <-]).
    constructor; [by eapply HP|by eapply IH].
Qed.

Lemma ensure_user_defaults_id (user user' : User) (s s' : Store)
  (t t' : list Z) :
  ensure_user_defaults user s t = Ret user' s' t' -> u_id user' = u_id user.
Proof.
  unfold ensure_user_defaults. intros He.
  apply bind_Ret in He as ([user1 changed1] & s1 & t1 & H1 & He).
  assert (Hid1 : u_id user1 = u_id user).
  { destruct (u_profile_gradient user).
    - apply bind_Ret in H1 as (g & ? & ? & _ & [= <- _ _ _]). done.
    - by injection H1 as <- _ _ _. }
  destruct (negb (u_xp_needed user1 =? _)), changed1; simpl in He.
  - apply bind_Ret in He as (? & ? & ? & _ & [= <- _ _]). done.
  - apply bind_Ret in He as (? & ? & ? & _ & [= <- _ _]). done.
  - apply bind_Ret in He as (? & ? & ? & _ & [= <- _ _]). done.
  - by injection He as <- _ _.
Qed.

Lemma get_user_id (s : Store) (id : uuid) (u : User) :
  get_user s id = Some u -> u ∈ users s /\ u_id u = id.
Proof.
  unfold get_user. intros Hg. apply head_Some_elem_of in Hg.
  apply elem_of_filter_bool in Hg as [? Heq]. by apply String.eqb_eq in Heq.
Qed.

Lemma serialize_friend_Ret (f : Friendship) (user : User) (s s' : Store)
  (t t' : list Z) (p : FriendPayload) :
  serialize_friend f user s t = Ret p s' t' ->
  fp_friends_since p = timestamp (f_created_at f)
  /\ fp_uuid p = other_end user f.
Proof.
  unfold serialize_friend. intros Hs.
  apply bind_Ret in Hs as (s0 & ? & ? & [= <- <- <-] & Hs).
  fold (other_end user f) in Hs.
  destruct (get_user s (other_end user f)) as [other|] eqn:Hg; [|done].
  apply bind_Ret in Hs as (other' & s1 & t1 & He & [= <- _ _]). simpl.
  split; [done|]. apply ensure_user_defaults_id in He.
  apply get_user_id in Hg as [_ Hid]. congruence.
Qed.

Lemma Forall2_sorted_keys {A B} (ka : A -> Z) (kb : B -> Z) (la : list A)
  (lb : list B) :
  Forall2 (fun a b => kb b = ka a) la lb ->
  StronglySorted (fun x y => ka y <= ka x) la ->
  StronglySorted (fun x y => kb y <= kb x) lb.
Proof.
  induction 1 as [|a b la lb Hab Hf IH]; [constructor|].
  intros Hs. apply StronglySorted_inv in Hs as [Hs Hall].
  constructor; [by apply IH|].
  clear IH Hs. induction Hf as [|a' b' la lb Hab' Hf IH]; [constructor|].
  apply Forall_cons in Hall as [Ha Hall]. constructor; [|by apply IH].
  rewrite Hab, Hab'. done.
Qed.

Lemma recent_friendships_page (s : Store) (user : User)
  (l : list FriendPayload) :
  Forall2 (fun f p => fp_friends_since p = timestamp (f_created_at f)
                      /\ fp_uuid p = other_end user f)
          (recent_friendships s user) l ->
  most_recent_page s user l.
Proof.
  intros Hf2.
  assert (Hsorted : StronglySorted (fun a b => f_created_at b <= f_created_at a)
                      (recent_friendships s user)).
  { apply StronglySorted_take, order_by_desc_sorted. }
  split.
  { rewrite <- (Forall2_length _ _ _ Hf2). unfold recent_friendships.
    rewrite length_take. lia. }
  exists (recent_friendships s user).
  split; [done|]. split; [|split; [done|split; [|split]]].
  - apply Forall_forall. intros f Hf. unfold recent_friendships in Hf.
    apply subseteq_take, order_by_elem_of in Hf.
    apply elem_of_filter_bool in Hf as [Hf Hor]. split; [done|].
    apply orb_true_iff in Hor as [Heq|Heq]; apply String.eqb_eq in Heq;
      [by left|by right].
  - intros f f' Hf Hf' Hof Hnot. apply Z.leb_le.
    refine (take_order_by_first (desc f_created_at)
              (desc_total _) (desc_trans _) 5 _ f f' Hf _ Hnot).
    apply elem_of_filter_bool. split; [done|].
    apply orb_true_iff. destruct Hof as [Heq|Heq];
      [left|right]; by apply String.eqb_eq.
  - eapply (Forall2_sorted_keys (fun f => timestamp (f_created_at f))
              fp_friends_since); [|].
    + eapply Forall2_impl; [exact Hf2|]. by intros f p [? _].
    + eapply StronglySorted_impl; [|exact Hsorted].
      intros a b. apply timestamp_mono.
  - rewrite <- (Forall2_length _ _ _ Hf2). unfold recent_friendships.
    destruct (take_full_or_all 5
                (order_by (desc f_created_at)
                   (List.filter
                      (fun f => String.eqb (f_user f) (u_id user)
                                || String.eqb (f_friend f) (u_id user))
                      (friendships s))))
      as [Hfull|Hall']; [by left|right].
    intros f' Hf' Hof. rewrite Hall'.
    apply order_by_elem_of, elem_of_filter_bool. split; [done|].
    apply orb_true_iff. destruct Hof as [Heq|Heq];
      [left|right]; by apply String.eqb_eq.
Qed.

(** C2 (as amended).  When the bootstrap payload is built for a user, its
    [friends] list has at most 5 entries, one for each of the user's most
    recently created friendships, presented newest first.  The list has 5
    entries unless the user has fewer friendships, and then it leaves none
    of them out. *)
Theorem bootstrap_friends_newest_first (now : datetime) (user : User)
  (s : Store) (tape : list Z) (b : Bootstrap) (s' : Store) (tape' : list Z) :
  build_bootstrap_payload now user s tape = Ret b s' tape' ->
  most_recent_page s user (bp_friends b).
Proof.
  intros Hb.
  apply build_bootstrap_Ret in Hb as (fr & core & s1 & t1 & Hm & _ & ->).
  simpl. apply recent_friendships_page.
  eapply mapM_Forall2; [|exact Hm].
  intros f s0 t0 p s0' t0'. apply serialize_friend_Ret.
Qed.

Lemma bootstrap_friends_newest_first_witness :
  exists b s',
    build_bootstrap_payload 0 alice crowd_store [] = Ret b s' []
    /\ map fp_uuid (bp_friends b)
       = ["u-grace"; "u-frank"; "u-erin"; "u-dave"; "u-carol"]
    /\ most_recent_page crowd_store alice (bp_friends b).
Proof.
  eexists _, _. split; [vm_compute; reflexivity|].
  split; [reflexivity|].
  eapply (bootstrap_friends_newest_first 0 alice crowd_store [] _ _ []).
  vm_compute. reflexivity.
Defined.

(** C2 as stated fails: Alice's friendship with Bob is older than the one
    with Carol, and the payload lists Carol first. *)
Lemma bootstrap_friends_not_oldest_first :
  exists b s',
    build_bootstrap_payload 0 alice friends_store [] = Ret b s' []
    /\ map fp_uuid (bp_friends b) = ["u-carol"; "u-bob"]
    /\ map fp_friends_since (bp_friends b) = [2; 1]
    /\ ~ StronglySorted
           (fun a c => fp_friends_since a <= fp_friends_since c)
           (bp_friends b).
Proof.
  eexists _, _. split; [vm_compute; reflexivity|].
  split; [reflexivity|]. split; [reflexivity|].
  intros Hs. apply StronglySorted_inv in Hs as [_ Hall].
  apply Forall_cons in Hall as [Hle _]. vm_compute in Hle. by apply Hle.
Qed.

(* ================================================================== *)
(** * The bootstrap payload: what it writes *)
(* ================================================================== *)

Lemma with_defaults_same (u : User) :
  with_defaults (u_profile_gradient u) (u_xp_needed u) u = u.
Proof. by destruct u. Qed.

Lemma with_defaults_twice (g g' : list string) (n n' : Z) (u : User) :
  with_defaults g n (with_defaults g' n' u) = with_defaults g n u.
Proof. done. Qed.

Lemma compute_xp_needed_formula (row : User) :
  compute_xp_needed (or_int (u_level row) 1) (or_int (u_xp row) 0)
  = xp_formula row.
Proof.
  unfold compute_xp_needed, xp_formula, or_int.
  destruct (Z.eqb_spec (u_level row) 0), (Z.eqb_spec (u_xp row) 0); lia.
Qed.

Lemma save_defaults_Ret (user : User) (s s' : Store) (t t' : list Z) :
  save_defaults user s t = Ret tt s' t' ->
  s' = set_users s
         (map (fun row => if String.eqb (u_id row) (u_id user)
                          then with_defaults (u_profile_gradient user)
                                             (u_xp_needed user) row
                          else row)
              (users s)).
Proof.
  unfold save_defaults. destruct (existsb _ _); [|done]. by intros [= <- _].
Qed.

(** What one call of [ensure_user_defaults] does to the instance and to the
    store. *)
Lemma ensure_user_defaults_effect (inst inst' : User) (s s' : Store)
  (t t' : list Z) :
  ensure_user_defaults inst s t = Ret inst' s' t' ->
  inst' = with_defaults (u_profile_gradient inst') (u_xp_needed inst') inst
  /\ (u_profile_gradient inst' <> u_profile_gradient inst ->
      u_profile_gradient inst = [])
  /\ (u_xp_needed inst' <> u_xp_needed inst ->
      u_xp_needed inst' = xp_formula inst)
  /\ (s' = s
      \/ s' = set_users s
                (map (fun row => if String.eqb (u_id row) (u_id inst)
                                 then with_defaults (u_profile_gradient inst')
                                                    (u_xp_needed inst') row
                                 else row)
                     (users s))).
Proof.
  unfold ensure_user_defaults. intros He.
  apply bind_Ret in He as ([user1 changed1] & s1 & t1 & H1 & He).
  assert (Hs1 : s1 = s
                /\ user1 = with_defaults (u_profile_gradient user1)
                                         (u_xp_needed inst) inst
                /\ (u_profile_gradient user1 <> u_profile_gradient inst ->
                    u_profile_gradient inst = [])
                /\ (changed1 = false -> user1 = inst)).
  { destruct (u_profile_gradient inst) eqn:Hpg.
    - apply bind_Ret in H1 as (g & s1' & t1' & Hg & [= <- <- <- <-]).
      split; [|done].
      unfold generate_gradient in Hg.
      apply bind_Ret in Hg as (a & sa & ta & Ha & Hg).
      apply bind_Ret in Hg as (b & sb & tb & Hb & Hg).
      unfold randint in Ha, Hb. destruct t as [|x t]; [done|].
      injection Ha as <- <- <-. destruct t as [|y t]; [done|].
      injection Hb as <- <- <-.
      clear -Hg. revert y Hg. induction t as [|z t IH]; intros y Hg.
      + simpl in Hg. destruct (_hex_distance _ _); [|done].
        destruct (_ <? _); [done|]. by injection Hg.
      + simpl in Hg. destruct (_hex_distance _ _); [|done].
        destruct (_ <? _); [by eapply IH|]. by injection Hg.
    - injection H1 as <- <- <- <-. rewrite <- Hpg.
      by rewrite with_defaults_same. }
  destruct Hs1 as (-> & Hu1 & Hpg1 & Hch1).
  rewrite compute_xp_needed_formula in He.
  assert (Hf1 : xp_formula user1 = xp_formula inst) by by rewrite Hu1.
  assert (Hx1 : u_xp_needed user1 = u_xp_needed inst) by by rewrite Hu1.
  assert (Hid1 : u_id user1 = u_id inst) by by rewrite Hu1.
  destruct (Z.eqb_spec (u_xp_needed user1) (xp_formula user1)) as [Heq|Hne];
    simpl in He.
  - destruct changed1.
    + apply bind_Ret in He as ([] & s2 & t2 & Hsave & [= <- <- <-]).
      apply save_defaults_Ret in Hsave. rewrite Hid1 in Hsave.
      rewrite Hx1. split; [done|]. split; [done|]. split; [done|].
      right. by rewrite <- Hx1.
    + injection He as <- <- <-. rewrite (Hch1 eq_refl).
      rewrite with_defaults_same. repeat split; try done. by left.
  - apply bind_Ret in He as ([] & s2 & t2 & Hsave & [= <- <- <-]).
    apply save_defaults_Ret in Hsave. simpl in *. rewrite Hid1 in Hsave.
    split; [by rewrite Hu1|]. split; [done|]. split; [by rewrite Hf1|].
    by right.
Qed.

Lemma NoDup_id_inj (l : list User) (x y : User) :
  NoDup (map u_id l) -> x ∈ l -> y ∈ l -> u_id x = u_id y -> x = y.
Proof.
  induction l as [|z l IH]; simpl; intros Hnd Hx Hy Hid;
    [by apply elem_of_nil in Hx|].
  apply NoDup_cons in Hnd as [Hz Hnd].
  apply elem_of_cons in Hx as [-> | Hx]; apply elem_of_cons in Hy as [-> | Hy];
    [done| | |by apply IH].
  - exfalso. apply Hz. rewrite Hid. by apply list_elem_of_fmap_2.
  - exfalso. apply Hz. rewrite <- Hid. by apply list_elem_of_fmap_2.
Qed.

Lemma frame_invariant_init (s : Store) (user : User) :
  frame_invariant s user s.
Proof.
  split; [by repeat split|].
  apply Forall2_same_length_lookup. split; [done|].
  intros i row row' Hr Hr'. rewrite Hr in Hr'. injection Hr' as <-.
  split; [by eapply list_elem_of_lookup_2|].
  split; [by rewrite with_defaults_same|]. by repeat split.
Qed.

Lemma frame_invariant_frame (s : Store) (user : User) (s1 : Store) :
  frame_invariant s user s1 -> defaults_frame s user s1.
Proof.
  intros [Ht Hf]. split; [done|].
  eapply Forall2_impl; [exact Hf|]. by intros row row' [_ ?].
Qed.

(** One [ensure_user_defaults] on an instance that stands for the stored row
    [row0] of a touched user keeps the invariant. *)
Lemma frame_invariant_step (s0 : Store) (user : User) (s1 s2 : Store)
  (inst inst' row0 : User) (t t' : list Z) :
  NoDup (map u_id (users s0)) ->
  frame_invariant s0 user s1 ->
  row0 ∈ users s0 ->
  touched s0 user (u_id row0) ->
  inst = with_defaults (u_profile_gradient inst) (u_xp_needed inst) row0 ->
  (u_profile_gradient inst <> u_profile_gradient row0 ->
   u_profile_gradient row0 = []) ->
  (u_xp_needed inst <> u_xp_needed row0 ->
   u_xp_needed inst = xp_formula row0) ->
  ensure_user_defaults inst s1 t = Ret inst' s2 t' ->
  frame_invariant s0 user s2.
Proof.
  intros Hnd [Htab Hrows] Hrow0 Htouched Hinst Hpg Hxn He.
  apply ensure_user_defaults_effect in He as (Hinst' & Hpg' & Hxn' & [-> | ->]);
    [by split|].
  split; [done|]. simpl. apply Forall2_fmap_r.
  eapply Forall2_impl; [exact Hrows|].
  intros row row1 (Hin & Hrow1 & Hch & Hg & Hx). split; [done|].
  destruct (String.eqb_spec (u_id row1) (u_id inst)) as [Hid|Hid];
    [|done].
  assert (row = row0) as ->.
  { apply (NoDup_id_inj (users s0)); [done..|].
    rewrite Hrow1 in Hid. rewrite Hinst in Hid. done. }
  rewrite Hrow1, with_defaults_twice. simpl.
  assert (Hf : xp_formula inst = xp_formula row0) by by rewrite Hinst.
  split; [done|]. split; [done|]. split.
  - intros Hne.
    destruct (decide (u_profile_gradient inst' = u_profile_gradient inst))
      as [Heq|Hneq].
    + apply Hpg. by rewrite <- Heq.
    + specialize (Hpg' Hneq).
      destruct (decide (u_profile_gradient inst = u_profile_gradient row0))
        as [Heq0|Hneq0]; [by rewrite <- Heq0|by apply Hpg].
  - intros Hne.
    destruct (decide (u_xp_needed inst' = u_xp_needed inst)) as [Heq|Hneq].
    + rewrite Heq. apply Hxn. by rewrite <- Heq.
    + by rewrite <- Hf; apply Hxn'.
Qed.

Lemma mapM_invariant {A B} (f : A -> M B) (I : Store -> Prop) (l : list A) :
  (forall x s t y s' t', x ∈ l -> I s -> f x s t = Ret y s' t' -> I s') ->
  forall s t ys s' t', I s -> mapM f l s t = Ret ys s' t' -> I s'.
Proof.
  induction l as [|x l IH]; simpl; intros Hf s t ys s' t' HI Hm.
  - by injection Hm as _ <- _.
  - apply bind_Ret in Hm as (y & s1 & t1 & Hy & Hm).
    apply bind_Ret in Hm as (ys' & s2 & t2 & Hys & [= <- <- <-]).
    eapply IH; [|eapply Hf; [left|exact HI|exact Hy]|exact Hys].
    intros x' sa ta y' sb tb Hx'. apply Hf. by right.
Qed.

Lemma serialize_friend_invariant (s0 : Store) (user : User)
  (f : Friendship) (s1 s2 : Store) (t t' : list Z) (p : FriendPayload) :
  NoDup (map u_id (users s0)) ->
  f ∈ recent_friendships s0 user ->
  frame_invariant s0 user s1 ->
  serialize_friend f user s1 t = Ret p s2 t' ->
  frame_invariant s0 user s2.
Proof.
  intros Hnd Hf Hinv Hs. unfold serialize_friend in Hs.
  apply bind_Ret in Hs as (sa & ? & ? & [= <- <- <-] & Hs).
  fold (other_end user f) in Hs.
  destruct (get_user s1 (other_end user f)) as [other|] eqn:Hg; [|done].
  apply bind_Ret in Hs as (other' & sb & tb & He & [= _ <- _]).
  apply get_user_id in Hg as [Hin Hid].
  pose proof Hinv as [_ Hrows].
  apply list_elem_of_lookup in Hin as [i Hi].
  destruct (Forall2_lookup_r _ _ _ _ _ Hrows Hi)
    as (row0 & Hi0 & Hrow0 & Hother & _ & Hpg & Hxn).
  assert (Hid0 : u_id row0 = other_end user f).
  { rewrite <- Hid. by rewrite Hother. }
  eapply (frame_invariant_step s0 user s1 sb other other' row0);
    [exact Hnd|exact Hinv|exact Hrow0| |exact Hother|exact Hpg|exact Hxn
    |exact He].
  right. by exists f.
Qed.

(** C8 (as amended).  Building the bootstrap payload for a stored user
    leaves every table but the user table as it was, and in the user table
    changes nothing but [profile_gradient] and [xp_needed] of the user and of
    the friends it serializes: on those rows the gradient changes only if it
    was empty, and a changed [xp_needed] is
    [max(max(level, 1) * 100 - xp, 0)]. *)
Theorem bootstrap_writes_only_defaults (now : datetime) (user : User)
  (s : Store) (tape : list Z) (b : Bootstrap) (s' : Store) (tape' : list Z) :
  NoDup (map u_id (users s)) ->
  user ∈ users s ->
  build_bootstrap_payload now user s tape = Ret b s' tape' ->
  defaults_frame s user s'.
Proof.
  intros Hnd Huser Hb.
  apply build_bootstrap_Ret in Hb as (fr & core & s1 & t1 & Hm & Hc & _).
  apply frame_invariant_frame.
  assert (Hinv1 : frame_invariant s user s1).
  { eapply (mapM_invariant _ (frame_invariant s user));
      [|apply frame_invariant_init|exact Hm].
    intros f sa ta p sb tb Hf Hinv Hs.
    exact (serialize_friend_invariant s user f sa sb ta tb p Hnd Hf Hinv Hs). }
  unfold serialize_user_core in Hc.
  apply bind_Ret in Hc as (user' & s2 & t2 & He & Hc).
  apply bind_Ret in Hc as (sc & ? & ? & [= <- <- <-] & [= _ <- _]).
  eapply (frame_invariant_step s user s1 s2 user user' user);
    [exact Hnd|exact Hinv1|exact Huser|by left|by rewrite with_defaults_same
    |by intros []|by intros []|exact He].
Qed.

Lemma bootstrap_writes_only_defaults_witness :
  exists b s',
    build_bootstrap_payload 0 alice friends_store [] = Ret b s' []
    /\ defaults_frame friends_store alice s'.
Proof.
  eexists _, _. split; [vm_compute; reflexivity|].
  eapply (bootstrap_writes_only_defaults 0 alice friends_store [] _ _ []).
  - apply (bool_decide_unpack _). vm_compute. exact I.
  - apply list_elem_of_here.
  - vm_compute. reflexivity.
Defined.

(** C8 as stated fails: Bob is a friend of Alice whose stored [xp_needed] is
    stale; building Alice's payload rewrites Bob's row. *)
Lemma bootstrap_writes_friend_row :
  exists b s',
    build_bootstrap_payload 0 alice friends_store [] = Ret b s' []
    /\ u_xp_needed <$> get_user friends_store "u-bob" = Some 0
    /\ u_xp_needed <$> get_user s' "u-bob" = Some 100
    /\ ~ only_user_row_changes alice friends_store s'.
Proof.
  eexists _, _. split; [vm_compute; reflexivity|].
  split; [reflexivity|]. split; [reflexivity|].
  intros [_ Hrows].
  apply Forall2_cons_1 in Hrows as [_ Hrows].
  apply Forall2_cons_1 in Hrows as [Hbob _].
  assert (Hid : u_id stale_bob = u_id alice); [|discriminate Hid].
  apply Hbob. intros Heq. apply (f_equal u_xp_needed) in Heq.
  vm_compute in Heq. discriminate Heq.
Qed.

(* ================================================================== *)
(** * Validation of inbound user payloads *)
(* ================================================================== *)

Lemma is_Some_insert (errors : gmap string string) (name msg k : string) :
  is_Some (<[name := msg]> errors !! k) <-> is_Some (errors !! k) \/ k = name.
Proof.
  destruct (decide (name = k)) as [->|Hne].
  - rewrite lookup_insert_eq. split; [by right|by eexists].
  - rewrite lookup_insert_ne by done. split; [by left|].
    intros [?| ->]; done.
Qed.

Section ValidationSteps.
Context `{Builtins}.

Lemma step_vret {A} (name : string) (a : A) : step_ok name false (vret a).
Proof. intros errors k. simpl. split; [by left|]. by intros [?|[_ ?]]. Qed.

Lemma step_set_error (name msg : string) :
  step_ok name true (set_error name msg).
Proof.
  intros errors k. simpl. rewrite is_Some_insert.
  split; (intros [?|?]; [by left|right]); [done|tauto].
Qed.

Lemma step_bind {A B} (name : string) (b1 b2 : bool) (m : V A)
  (k : A -> V B) :
  step_ok name b1 m -> (forall a, step_ok name b2 (k a)) ->
  step_ok name (b1 || b2) (vbind m k).
Proof.
  intros Hm Hk errors. unfold vbind. specialize (Hm errors).
  destruct (m errors) as [a errors'| |]; [|done|done].
  specialize (Hk a errors').
  destruct (k a errors') as [c errors''| |]; [|done|done].
  intros key. rewrite Hk, Hm, orb_true_iff. tauto.
Qed.

Lemma step_then_ret {A B} (name : string) (b : bool) (m : V A) (x : B) :
  step_ok name b m -> step_ok name b (vbind m (fun _ => vret x)).
Proof.
  intros Hm. rewrite <- (orb_false_r b).
  apply step_bind; [done|]. intros _. apply step_vret.
Qed.

Lemma step_crash {A} (name : string) (b : bool) (e : exn) :
  step_ok name b (fun _ => Crash e : outcome A).
Proof. by intros errors. Qed.

Lemma check_email_ok (f : field) :
  step_ok "email" (field_bad bad_email f) (check_email f).
Proof.
  destruct f as [|[]]; simpl; try apply step_set_error; try apply step_vret.
  destruct (endswith s ".edu"); [apply step_vret|apply step_set_error].
Qed.

Lemma check_password_ok (f : field) :
  step_ok "password" (field_bad bad_password f) (check_password f).
Proof.
  destruct f as [|[]]; simpl; try apply step_set_error; try apply step_vret.
  destruct (_ <? _)%nat; [apply step_set_error|apply step_vret].
Qed.

Lemma check_visibility_ok (f : field) :
  step_ok "visibility" (field_bad bad_visibility f) (check_visibility f).
Proof.
  destruct f as [|v]; simpl; [apply step_vret|]. unfold bad_visibility.
  destruct (_ || _); [apply step_vret|apply step_set_error].
Qed.

Lemma check_blocked_ok (f : field) :
  step_ok "blocked" (field_bad bad_blocked f) (check_blocked f).
Proof.
  destruct f as [|v]; simpl; [apply step_vret|]. unfold bad_blocked.
  destruct (is_list v); [apply step_vret|apply step_set_error].
Qed.

Lemma check_profile_gradient_ok (f : field) :
  step_ok "profile_gradient" (field_bad bad_gradient f)
          (check_profile_gradient f).
Proof.
  destruct f as [|[| | | | |[|a [|b [|c l]]]|]]; simpl;
    try apply step_vret; apply step_then_ret, step_set_error.
Qed.

Lemma parse_int_ok (name : string) (f : field) (minv maxv : option Z) :
  step_ok name (field_bad (bad_int minv maxv) f)
          (parse_int name f minv maxv).
Proof.
  destruct f as [|v]; simpl; [apply step_vret|]. unfold bad_int.
  destruct (py_int v) as [[]|iv];
    try apply step_crash; try apply step_then_ret, step_set_error.
  apply step_bind.
  - destruct minv as [m|]; [|apply step_vret].
    destruct (iv <? m); [apply step_set_error|apply step_vret].
  - intros _. apply step_then_ret.
    destruct maxv as [m|]; [|apply step_vret].
    destruct (m <? iv); [apply step_set_error|apply step_vret].
Qed.

Lemma validate_fk_ok (s : Store) (name model : string) (f : field) :
  step_ok name (field_bad (bad_fk s model) f) (validate_fk s name model f).
Proof.
  destruct f as [|v]; simpl; [apply step_vret|]. unfold bad_fk.
  destruct (py_int v) as [e|pk_int]; [apply step_then_ret, step_set_error|].
  destruct (pk_exists s model (VInt pk_int)) as [e|found];
    [apply step_crash|].
  apply step_then_ret.
  destruct found; [apply step_vret|apply step_set_error].
Qed.

Lemma validate_url_ok (name : string) (f : field) :
  step_ok name (field_bad bad_url f) (validate_url name f).
Proof.
  destruct f as [|v]; simpl; [apply step_vret|].
  destruct v; simpl; try apply step_vret;
    try (apply step_then_ret;
         destruct (url_validator _); [apply step_vret|apply step_set_error]).
  destruct (String.eqb s ""); [apply step_vret|].
  apply step_then_ret.
  destruct (url_validator _); [apply step_vret|apply step_set_error].
Qed.

Lemma bad_ids_forallb (s : Store) (model : string) (l bad : list value) :
  bad_ids s model l = inr bad ->
  forallb (fun pk => match pk_exists s model pk with
                     | inr found => found
                     | inl _ => false
                     end) l
  = match bad with [] => true | _ :: _ => false end.
Proof.
  revert bad. induction l as [|pk l IH]; simpl; intros bad Hb.
  - by injection Hb as <-.
  - destruct (pk_exists s model pk) as [e|found]; [done|].
    destruct (bad_ids s model l) as [e|bad']; [done|].
    injection Hb as <-. rewrite (IH bad' eq_refl).
    by destruct found.
Qed.

Lemma validate_m2m_ok (s : Store) (name : string) (f : field)
  (model : string) :
  step_ok name (field_bad (bad_m2m s model) f) (validate_m2m s name f model).
Proof.
  destruct f as [|v]; simpl; [apply step_vret|].
  destruct v; simpl; try apply step_then_ret, step_set_error.
  destruct (bad_ids s model l) as [e|bad] eqn:Hbad; [apply step_crash|].
  rewrite (bad_ids_forallb _ _ _ _ Hbad). apply step_then_ret.
  destruct bad; [apply step_vret|apply step_set_error].
Qed.

Lemma vbind_get_field_patch {B} (data : gmap string value) (name : string)
  (required : bool) (k : field -> V B) (errors : gmap string string) :
  vbind (get_field "PATCH" data name required) k errors
  = k (data_get data name) errors.
Proof.
  unfold vbind, get_field. simpl. by rewrite andb_false_r.
Qed.

(** Running one validation step in front of the rest. *)
Lemma vbind_step {A B} (name : string) (b : bool) (m : V A) (k : A -> V B)
  (errors : gmap string string) (r : outcome B) :
  step_ok name b m ->
  vbind m k errors = r ->
  (exists e, r = Crash e)
  \/ exists a errors',
       (forall key, is_Some (errors' !! key)
                    <-> is_Some (errors !! key) \/ (key = name /\ b = true))
       /\ k a errors' = r.
Proof.
  intros Hm Hr. unfold vbind in Hr. specialize (Hm errors).
  destruct (m errors) as [a errors'| |]; [|done|].
  - right. by exists a, errors'.
  - left. by eexists.
Qed.
End ValidationSteps.

Section PatchValidation.
Context `{Builtins}.

(** One validation step of the chain in hypothesis [H]: the outcome is not a
    crash, so the step ran and the rest of the chain follows. *)
Ltac run_step H lem :=
  let a := fresh "a" in
  let e := fresh "e" in
  let He := fresh "He" in
  apply (vbind_step _ _ _ _ _ _ lem) in H
    as [[? ?]|(a & e & He & H)]; [discriminate|]; cbv beta in H.

Ltac run_chain H s data :=
  unfold to_internal_value, to_internal_value_body in H;
  repeat (rewrite vbind_get_field_patch in H; cbv beta in H);
  run_step H (check_email_ok (data_get data "email"));
  run_step H (check_password_ok (data_get data "password"));
  run_step H (check_visibility_ok (data_get data "visibility"));
  run_step H (parse_int_ok "xp" (data_get data "xp") (Some 0) None);
  run_step H (parse_int_ok "level" (data_get data "level") (Some 0) (Some 500));
  run_step H (parse_int_ok "grad_year" (data_get data "grad_year")
                (Some 2015) (Some 2080));
  run_step H (validate_fk_ok s "school" "School" (data_get data "school"));
  run_step H (validate_fk_ok s "major" "Major" (data_get data "major"));
  run_step H (validate_url_ok "discord" (data_get data "discord"));
  run_step H (validate_url_ok "instagram" (data_get data "instagram"));
  run_step H (validate_url_ok "github" (data_get data "github"));
  run_step H (validate_url_ok "linkedin" (data_get data "linkedin"));
  run_step H (validate_url_ok "personal" (data_get data "personal"));
  run_step H (validate_m2m_ok s "skills" (data_get data "skills") "Skill");
  run_step H (validate_m2m_ok s "interests" (data_get data "interests")
                "Interest");
  run_step H (check_blocked_ok (data_get data "blocked"));
  run_step H (check_profile_gradient_ok (data_get data "profile_gradient")).

(** The keys of the errors dictionary at the end of the chain are the
    invalid fields. *)
Lemma invalid_field_cases (s : Store) (data : gmap string value)
  (name : string) :
  invalid_field s data name = true <->
  ((((((((((((((((((False
  \/ (name = "email" /\ field_bad bad_email (data_get data "email") = true))
  \/ (name = "password"
      /\ field_bad bad_password (data_get data "password") = true))
  \/ (name = "visibility"
      /\ field_bad bad_visibility (data_get data "visibility") = true))
  \/ (name = "xp"
      /\ field_bad (bad_int (Some 0) None) (data_get data "xp") = true))
  \/ (name = "level"
      /\ field_bad (bad_int (Some 0) (Some 500)) (data_get data "level")
         = true))
  \/ (name = "grad_year"
      /\ field_bad (bad_int (Some 2015) (Some 2080))
           (data_get data "grad_year") = true))
  \/ (name = "school"
      /\ field_bad (bad_fk s "School") (data_get data "school") = true))
  \/ (name = "major"
      /\ field_bad (bad_fk s "Major") (data_get data "major") = true))
  \/ (name = "discord" /\ field_bad bad_url (data_get data "discord") = true))
  \/ (name = "instagram"
      /\ field_bad bad_url (data_get data "instagram") = true))
  \/ (name = "github" /\ field_bad bad_url (data_get data "github") = true))
  \/ (name = "linkedin"
      /\ field_bad bad_url (data_get data "linkedin") = true))
  \/ (name = "personal"
      /\ field_bad bad_url (data_get data "personal") = true))
  \/ (name = "skills"
      /\ field_bad (bad_m2m s "Skill") (data_get data "skills") = true))
  \/ (name = "interests"
      /\ field_bad (bad_m2m s "Interest") (data_get data "interests") = true))
  \/ (name = "blocked"
      /\ field_bad bad_blocked (data_get data "blocked") = true))
  \/ (name = "profile_gradient"
      /\ field_bad bad_gradient (data_get data "profile_gradient") = true))).
Proof.
  unfold invalid_field, rule.
  repeat match goal with
         | |- context [String.eqb name ?x] =>
             destruct (String.eqb_spec name x) as [-> | ?];
             [split; [intros Hb; repeat (first [by right|left])
                     |intros Hd; repeat destruct Hd as [Hd|Hd]; try done;
                      destruct Hd as [Heq Hb];
                      first [discriminate Heq|exact Hb]]|]
         end.
  split; [done|]. intros Hd. repeat destruct Hd as [Hd|Hd]; try done;
    destruct Hd as [Heq Hb]; congruence.
Qed.

Ltac rewrite_keys :=
  repeat match goal with
         | Hk : forall key, is_Some (?e !! key) <-> _ |- _ =>
             rewrite Hk; clear Hk
         end.

Lemma is_Some_empty_False (name : string) :
  is_Some ((∅ : gmap string string) !! name) <-> False.
Proof. rewrite lookup_empty. split; [apply is_Some_None|done]. Qed.

(** The outcome of validating a [PATCH] payload. *)
Lemma to_internal_value_patch (s : Store) (data : gmap string value) :
  match to_internal_value "PATCH" s data with
  | Val _ _ => forall name, invalid_field s data name = false
  | Invalid errs =>
      errs <> ∅
      /\ forall name, is_Some (errs !! name)
                      <-> invalid_field s data name = true
  | Crash _ => True
  end.
Proof.
  destruct (to_internal_value "PATCH" s data) as [v errs|errs|e] eqn:Hr;
    [| |done].
  - run_chain Hr s data. unfold vbind, raise_if_errors in Hr.
    match type of Hr with
    | context [decide (?e = ∅)] => destruct (decide (e = ∅)) as [-> | ?]
    end; [|done].
    intros name. destruct (invalid_field s data name) eqn:Hi; [|done].
    exfalso. apply invalid_field_cases in Hi.
    apply (is_Some_empty_False name). rewrite_keys.
    by rewrite is_Some_empty_False.
  - run_chain Hr s data. unfold vbind, raise_if_errors in Hr.
    match type of Hr with
    | context [decide (?e = ∅)] => destruct (decide (e = ∅)) as [? | Hne]
    end; [done|].
    injection Hr as <-. split; [done|].
    intros name. rewrite invalid_field_cases. rewrite_keys.
    by rewrite is_Some_empty_False.
Qed.
End PatchValidation.

Section RequiredFields.
Context `{Builtins}.

Lemma vbind_get_field_optional {B} (method : string)
  (data : gmap string value) (name : string) (k : field -> V B)
  (errors : gmap string string) :
  vbind (get_field method data name false) k errors
  = k (data_get data name) errors.
Proof. reflexivity. Qed.

Lemma vbind_get_field_present {B} (method : string)
  (data : gmap string value) (name : string) (required : bool) (v : value)
  (k : field -> V B) (errors : gmap string string) :
  data !! name = Some v ->
  vbind (get_field method data name required) k errors
  = k (data_get data name) errors.
Proof.
  intros Hv. unfold vbind, get_field, data_get. rewrite Hv. simpl.
  by rewrite andb_false_r.
Qed.

Lemma vbind_get_field_missing {B} (data : gmap string value) (name : string)
  (k : field -> V B) (errors : gmap string string) :
  data !! name = None ->
  vbind (get_field "POST" data name true) k errors
  = Invalid {[ name := "This field is required" ]}.
Proof. intros Hv. unfold vbind, get_field, data_get. by rewrite Hv. Qed.

End RequiredFields.

Section UncaughtExceptions.
Context `{Builtins}.













End UncaughtExceptions.



(** An infinite float in ["xp"] makes [int] raise [OverflowError], which
    [parse_int] does not catch: the exception escapes the handler although
    the email is invalid too. *)
Example patch_overflow_escapes :
  let data : gmap string value :=
    {[ "email" := VStr "a@b.com"; "xp" := VFloat Infinite ]} in
  MeView_patch (fun _ _ _ => inl DatabaseError) empty_store alice data
  = inl OverflowError
  /\ conversion_raises empty_store data = true
  /\ invalid_field empty_store data "email" = true.
Proof. repeat split. Qed.


(** A [PATCH] payload with three invalid fields: all three are reported. *)
Example patch_three_errors :
  exists errs,
    to_internal_value "PATCH" empty_store
      {[ "email" := VStr "a@b.com"; "level" := VInt 900;
         "github" := VStr "not a url"; "bio" := VStr "hi" ]}
    = Invalid errs
    /\ dom errs = ({[ "email"; "level"; "github" ]} : gset string).
Proof. eexists. split; [vm_compute; reflexivity|]. by vm_compute. Qed.

(* ================================================================== *)
(** * The bootstrap payload is produced *)
(* ================================================================== *)

(** The loop of [generate_gradient] redraws the second colour until it is
    far enough from the first. *)
Example generate_gradient_redraws :
  generate_gradient empty_store [0; 5; 16777215; 7]
  = Ret ["000000"; "ffffff"] empty_store [7].
Proof. reflexivity. Qed.

(** With a gradient in place nothing is drawn: [ensure_user_defaults]
    returns, whatever the tape, as long as the row to save exists. *)
Lemma ensure_user_defaults_returns (inst : User) (s : Store) (t : list Z) :
  u_profile_gradient inst <> [] ->
  (exists row, row ∈ users s /\ u_id row = u_id inst) ->
  exists inst' s', ensure_user_defaults inst s t = Ret inst' s' t.
Proof.
  intros Hpg (row & Hrow & Hid). unfold ensure_user_defaults, bind.
  destruct (u_profile_gradient inst) as [|c g] eqn:Hg; [done|]. simpl.
  destruct (negb (u_xp_needed inst =? _)); simpl; [|by eexists _, _].
  unfold save_defaults. simpl.
  assert (Hex : existsb (fun r => String.eqb (u_id r) (u_id inst)) (users s)
                = true).
  { apply existsb_exists. exists row. split; [by apply list_elem_of_In|].
    by apply String.eqb_eq. }
  rewrite Hex. by eexists _, _.
Qed.

Lemma frame_invariant_row (s0 : Store) (user : User) (s1 : Store)
  (row1 : User) :
  frame_invariant s0 user s1 -> row1 ∈ users s1 ->
  exists row0,
    row0 ∈ users s0 /\ u_id row1 = u_id row0
    /\ (u_profile_gradient row0 <> [] -> u_profile_gradient row1 <> []).
Proof.
  intros [_ Hrows] Hin. apply list_elem_of_lookup in Hin as [i Hi].
  destruct (Forall2_lookup_r _ _ _ _ _ Hrows Hi)
    as (row0 & Hi0 & Hrow0 & Hrow1 & _ & Hpg & _).
  exists row0. split; [done|]. split; [by rewrite Hrow1|].
  intros Hne Hnil. apply Hne, Hpg. by rewrite Hnil.
Qed.

Lemma frame_invariant_has_row (s0 : Store) (user : User) (s1 : Store)
  (row0 : User) :
  frame_invariant s0 user s1 -> row0 ∈ users s0 ->
  exists row1, row1 ∈ users s1 /\ u_id row1 = u_id row0.
Proof.
  intros [_ Hrows] Hin. apply list_elem_of_lookup in Hin as [i Hi].
  destruct (Forall2_lookup_l _ _ _ _ _ Hrows Hi)
    as (row1 & Hi1 & _ & Hrow1 & _).
  exists row1. split; [by eapply list_elem_of_lookup_2|by rewrite Hrow1].
Qed.

Lemma get_user_Some (s : Store) (id : uuid) (row : User) :
  row ∈ users s -> u_id row = id -> exists u, get_user s id = Some u.
Proof.
  intros Hin Hid. unfold get_user.
  destruct (List.filter _ (users s)) as [|u l] eqn:Hf; [|by exists u].
  exfalso. assert (Hrow : row ∈ List.filter
                            (fun u => String.eqb (u_id u) id) (users s)).
  { apply elem_of_filter_bool. split; [done|]. by apply String.eqb_eq. }
  rewrite Hf in Hrow. by apply elem_of_nil in Hrow.
Qed.

(** For a stored user whose friends are stored, and with gradients in place
    on all of them, the payload is produced and the tape is left alone. *)
Lemma build_bootstrap_payload_returns (now : datetime) (user : User)
  (s : Store) (tape : list Z) :
  NoDup (map u_id (users s)) ->
  user ∈ users s ->
  (forall f, f ∈ recent_friendships s user ->
             exists row, row ∈ users s /\ u_id row = other_end user f) ->
  (forall row, row ∈ users s -> touched s user (u_id row) ->
               u_profile_gradient row <> []) ->
  exists b s', build_bootstrap_payload now user s tape = Ret b s' tape.
Proof.
  intros Hnd Huser Hstored Hgrad.
  assert (Hfriends :
    forall l s1, l ⊆ recent_friendships s user -> frame_invariant s user s1 ->
      exists ys s2,
        mapM (fun f => serialize_friend f user) l s1 tape = Ret ys s2 tape
        /\ frame_invariant s user s2).
  { induction l as [|f l IH]; intros s1 Hl Hinv.
    - by exists [], s1.
    - assert (Hf : f ∈ recent_friendships s user) by (apply Hl; left).
      destruct (Hstored f Hf) as (row0 & Hrow0 & Hid0).
      destruct (frame_invariant_has_row _ _ _ _ Hinv Hrow0)
        as (row1 & Hrow1 & Hid1).
      destruct (get_user_Some s1 (other_end user f) row1 Hrow1)
        as [other Hg]; [congruence|].
      pose proof (get_user_id _ _ _ Hg) as [Hother Hoid].
      destruct (frame_invariant_row _ _ _ _ Hinv Hother)
        as (r0 & Hr0 & Hr0id & Hr0pg).
      destruct (ensure_user_defaults_returns other s1 tape)
        as (other' & s2 & He).
      { apply Hr0pg, Hgrad; [done|]. right. exists f. split; [done|].
        congruence. }
      { by exists other. }
      assert (Hsf : exists p, serialize_friend f user s1 tape = Ret p s2 tape).
      { unfold serialize_friend, bind, get_store.
        fold (other_end user f). rewrite Hg, He. by eexists. }
      destruct Hsf as [p Hsf].
      destruct (IH s2) as (ys & s3 & Hm & Hinv3).
      { intros x Hx. apply Hl. by right. }
      { by eapply serialize_friend_invariant. }
      exists (p :: ys), s3. split; [|done].
      simpl. unfold bind at 1. rewrite Hsf. unfold bind. by rewrite Hm. }
  destruct (Hfriends (recent_friendships s user) s)
    as (friends & s1 & Hm & Hinv); [done|apply frame_invariant_init|].
  destruct (frame_invariant_has_row _ _ _ _ Hinv Huser) as (row1 & Hrow1 & Hid1).
  destruct (ensure_user_defaults_returns user s1 tape) as (user' & s2 & He).
  { apply Hgrad; [done|by left]. }
  { by exists row1. }
  unfold build_bootstrap_payload, serialize_user_core, bind, get_store.
  rewrite Hm, He. by eexists _, _.
Qed.

(* ================================================================== *)
(** * Experience points and gradients *)
(* ================================================================== *)

(** X1.  [compute_xp_needed] is never negative; it is zero exactly when the
    experience has reached the target [max(level, 1) * 100]; experience plus
    what is needed is the larger of the experience and the target; and a
    level of 0 counts as level 1. *)
Theorem compute_xp_needed_target (level xp : Z) :
  0 <= compute_xp_needed level xp
  /\ (compute_xp_needed level xp = 0 <-> Z.max level 1 * 100 <= xp)
  /\ xp + compute_xp_needed level xp = Z.max xp (Z.max level 1 * 100)
  /\ compute_xp_needed 0 xp = compute_xp_needed 1 xp.
Proof. unfold compute_xp_needed. lia. Qed.

Lemma hex_val_digit (d : Z) :
  0 <= d < 16 -> hex_val (hex_digit d) = Some d.
Proof.
  intros Hd.
  assert (Hcases : d = 0 \/ d = 1 \/ d = 2 \/ d = 3 \/ d = 4 \/ d = 5
                   \/ d = 6 \/ d = 7 \/ d = 8 \/ d = 9 \/ d = 10 \/ d = 11
                   \/ d = 12 \/ d = 13 \/ d = 14 \/ d = 15) by lia.
  repeat destruct Hcases as [-> | Hcases]; try reflexivity.
  by subst.
Qed.

Lemma int16_hex6 (x : Z) : 0 <= x <= 16777215 -> int16 (hex6 x) = Some x.
Proof.
  intros Hx. unfold hex6, int16. simpl.
  change (16 ^ 5) with 1048576. change (16 ^ 4) with 65536.
  change (16 ^ 3) with 4096. change (16 ^ 2) with 256.
  change (16 ^ 1) with 16. change (16 ^ 0) with 1.
  rewrite !hex_val_digit by (apply Z.mod_pos_bound; lia).
  f_equal. Z.div_mod_to_equations. lia.
Qed.

(** X2.  Formatting a colour as six hexadecimal digits and reading it back
    gives the colour again, so the distance of two formatted colours is the
    absolute difference of the numbers; the format always has six
    characters. *)
Theorem hex_round_trip (a b : Z) :
  0 <= a <= 16777215 ->
  0 <= b <= 16777215 ->
  int16 (hex6 a) = Some a
  /\ String.length (hex6 a) = 6%nat
  /\ _hex_distance (hex6 a) (hex6 b) = Some (Z.abs (a - b)).
Proof.
  intros Ha Hb. split; [by apply int16_hex6|]. split; [reflexivity|].
  unfold _hex_distance. by rewrite !int16_hex6.
Qed.

Lemma hex_round_trip_witness :
  int16 (hex6 11259375) = Some 11259375
  /\ String.length (hex6 11259375) = 6%nat
  /\ _hex_distance (hex6 11259375) (hex6 255) = Some (Z.abs (11259375 - 255)).
Proof. apply (hex_round_trip 11259375 255); lia. Defined.

Lemma gradient_loop_first_far (s : Store) (a : Z) (tape : list Z) (b : Z) :
  colour a -> colour b -> Forall colour tape ->
  match gradient_loop (hex6 a) (hex6 b) s tape with
  | Ret g s' tape' =>
      s' = s
      /\ exists skipped b',
           b :: tape = (skipped ++ b' :: tape')%list
           /\ Forall (close_to a) skipped
           /\ 10000 <= Z.abs (a - b')
           /\ g = [hex6 a; hex6 b']
  | Raise _ => False
  | OutOfTape => Forall (close_to a) (b :: tape)
  end.
Proof.
  intros Ha. revert b.
  induction tape as [|c tape IH]; intros b Hb Htape.
  - simpl. unfold _hex_distance. rewrite !int16_hex6 by done.
    destruct (Z.ltb_spec (Z.abs (a - b)) 10000) as [Hlt|Hge].
    + by repeat constructor.
    + split; [done|]. exists [], b. by repeat split.
  - apply Forall_cons in Htape as [Hc Htape].
    simpl. unfold _hex_distance. rewrite !int16_hex6 by done.
    destruct (Z.ltb_spec (Z.abs (a - b)) 10000) as [Hlt|Hge].
    + specialize (IH c Hc Htape).
      destruct (gradient_loop (hex6 a) (hex6 c) s tape) as [g s' tape'| |];
        [|done|by constructor].
      destruct IH as (-> & skipped & b' & Heq & Hsk & Hfar & ->).
      split; [done|]. exists (b :: skipped), b'.
      split; [by rewrite Heq|]. split; [by constructor|done].
    + split; [done|]. exists [], b. by repeat split.
Qed.

(** X3.  On a tape of colour numbers [generate_gradient] never raises.  When
    it returns, the store is untouched, the first colour is the first draw,
    the second colour is the first later draw at least 10000 away from it
    (closer draws are skipped), and the rest of the tape is left.  It runs
    out of tape only if no draw after the first is far enough. *)
Theorem generate_gradient_first_far (s : Store) (tape : list Z) :
  Forall colour tape ->
  match generate_gradient s tape with
  | Ret g s' tape' =>
      s' = s
      /\ exists a skipped b,
           tape = (a :: skipped ++ b :: tape')%list
           /\ Forall (close_to a) skipped
           /\ 10000 <= Z.abs (a - b)
           /\ g = [hex6 a; hex6 b]
  | Raise _ => False
  | OutOfTape =>
      match tape with
      | [] => True
      | a :: rest => Forall (close_to a) rest
      end
  end.
Proof.
  intros Htape. unfold generate_gradient, bind, randint.
  destruct tape as [|a [|b tape]]; [done|by constructor|].
  apply Forall_cons in Htape as [Ha Htape].
  apply Forall_cons in Htape as [Hb Htape].
  pose proof (gradient_loop_first_far s a tape b Ha Hb Htape) as Hloop.
  destruct (gradient_loop (hex6 a) (hex6 b) s tape) as [g s' tape'| |];
    [|done|done].
  destruct Hloop as (-> & skipped & b' & Heq & Hsk & Hfar & ->).
  split; [done|]. exists a, skipped, b'. by rewrite Heq.
Qed.

Lemma generate_gradient_first_far_witness :
  match generate_gradient empty_store [0; 5; 16777215; 7] with
  | Ret g s' tape' =>
      s' = empty_store
      /\ exists a skipped b,
           [0; 5; 16777215; 7] = (a :: skipped ++ b :: tape')%list
           /\ Forall (close_to a) skipped
           /\ 10000 <= Z.abs (a - b)
           /\ g = [hex6 a; hex6 b]
  | Raise _ => False
  | OutOfTape => True
  end.
Proof.
  apply (generate_gradient_first_far empty_store [0; 5; 16777215; 7]).
  repeat constructor; unfold colour; lia.
Defined.

Lemma gradient_loop_nonempty (first second : string) (s s' : Store)
  (tape tape' : list Z) (g : list string) :
  gradient_loop first second s tape = Ret g s' tape' -> g <> [] /\ s' = s.
Proof.
  revert second. induction tape as [|c tape IH]; intros second Hg.
  - simpl in Hg. destruct (_hex_distance _ _); [|done].
    destruct (_ <? _); [done|]. by injection Hg as <- <- _.
  - simpl in Hg. destruct (_hex_distance _ _); [|done].
    destruct (_ <? _); [by eapply IH|]. by injection Hg as <- <- _.
Qed.

Lemma generate_gradient_nonempty (s s' : Store) (tape tape' : list Z)
  (g : list string) :
  generate_gradient s tape = Ret g s' tape' -> g <> [] /\ s' = s.
Proof.
  unfold generate_gradient. intros Hg.
  apply bind_Ret in Hg as (a & sa & ta & Ha & Hg).
  apply bind_Ret in Hg as (b & sb & tb & Hb & Hg).
  unfold randint in Ha, Hb. destruct tape as [|x tape]; [done|].
  injection Ha as <- <- <-. destruct tape as [|y tape]; [done|].
  injection Hb as <- <- <-. by eapply gradient_loop_nonempty.
Qed.

Lemma ensure_user_defaults_post (inst inst' : User) (s s' : Store)
  (t t' : list Z) :
  ensure_user_defaults inst s t = Ret inst' s' t' ->
  u_profile_gradient inst' <> [] /\ u_xp_needed inst' = xp_formula inst'.
Proof.
  unfold ensure_user_defaults. intros He.
  apply bind_Ret in He as ([user1 changed1] & s1 & t1 & H1 & He).
  assert (Hpg1 : u_profile_gradient user1 <> []).
  { destruct (u_profile_gradient inst) eqn:Hpg.
    - apply bind_Ret in H1 as (g & sg & tg & Hg & [= <- _ _ _]).
      by apply generate_gradient_nonempty in Hg as [? _].
    - injection H1 as <- _ _ _. by rewrite Hpg. }
  rewrite compute_xp_needed_formula in He.
  destruct (Z.eqb_spec (u_xp_needed user1) (xp_formula user1)) as [Heq|Hne];
    simpl in He.
  - destruct changed1.
    + by apply bind_Ret in He as ([] & s2 & t2 & _ & [= <- _ _]).
    + by injection He as <- _ _.
  - by apply bind_Ret in He as ([] & s2 & t2 & _ & [= <- _ _]).
Qed.

(** X4.  After [ensure_user_defaults] the instance has a gradient and its
    [xp_needed] is [max(max(level, 1) * 100 - xp, 0)]; ensuring the defaults
    of that instance again changes nothing: no draw, no write. *)
Theorem ensure_user_defaults_settles (inst inst' : User) (s s' : Store)
  (t t' : list Z) :
  ensure_user_defaults inst s t = Ret inst' s' t' ->
  u_profile_gradient inst' <> []
  /\ u_xp_needed inst' = xp_formula inst'
  /\ ensure_user_defaults inst' s' t' = Ret inst' s' t'.
Proof.
  intros He. apply ensure_user_defaults_post in He as [Hpg Hxn].
  split; [done|]. split; [done|].
  unfold ensure_user_defaults, bind.
  destruct (u_profile_gradient inst') as [|c g]; [done|]. simpl.
  by rewrite compute_xp_needed_formula, <- Hxn, Z.eqb_refl.
Qed.

Lemma ensure_user_defaults_settles_witness :
  exists inst' s',
    ensure_user_defaults blank_dave blank_store [0; 16777215]
    = Ret inst' s' []
    /\ u_profile_gradient inst' <> []
    /\ u_xp_needed inst' = xp_formula inst'
    /\ ensure_user_defaults inst' s' [] = Ret inst' s' [].
Proof.
  eexists _, _. split; [vm_compute; reflexivity|].
  eapply (ensure_user_defaults_settles blank_dave _ blank_store _
            [0; 16777215] []).
  vm_compute. reflexivity.
Defined.

(* ================================================================== *)
(** * Friendships and team members *)
(* ================================================================== *)

Lemma head_order_by_least {A} (leb : A -> A -> bool) (l : list A) (x : A) :
  (forall a b, leb a b = true \/ leb b a = true) ->
  (forall a b c, leb a b = true -> leb b c = true -> leb a c = true) ->
  head (order_by leb l) = Some x ->
  x ∈ l /\ forall y, y ∈ l -> leb x y = true.
Proof.
  intros Htotal Htrans Hhead.
  pose proof (order_by_sorted leb Htotal Htrans l) as Hs.
  destruct (order_by leb l) as [|x' rest] eqn:Hord; [done|].
  injection Hhead as ->. split.
  - apply (order_by_elem_of leb). rewrite Hord. left.
  - intros y Hy. apply (order_by_elem_of leb) in Hy. rewrite Hord in Hy.
    apply StronglySorted_inv in Hs as [_ Hall].
    apply elem_of_cons in Hy as [-> | Hy].
    + by destruct (Htotal x x).
    + rewrite Forall_forall in Hall. by apply Hall.
Qed.

Lemma head_order_by_None {A} (leb : A -> A -> bool) (l : list A) :
  head (order_by leb l) = None -> l = [].
Proof.
  intros Hhead. apply length_zero_iff_nil.
  rewrite <- (order_by_length leb). by destruct (order_by leb l).
Qed.

Lemma elem_of_link_filter (s : Store) (a b : User) (f : Friendship) :
  f ∈ List.filter
        (fun f => (String.eqb (f_user f) (u_id a)
                   && String.eqb (f_friend f) (u_id b))
                  || (String.eqb (f_user f) (u_id b)
                      && String.eqb (f_friend f) (u_id a)))
        (friendships s)
  <-> f ∈ friendships s /\ linked (u_id a) (u_id b) f.
Proof.
  rewrite elem_of_filter_bool. unfold linked.
  rewrite orb_true_iff, !andb_true_iff, !String.eqb_eq. tauto.
Qed.

(** X5.  [friendship_since] does not depend on which of the two users asks;
    it is [None] for an anonymous viewer and when no friendship row links
    the two users, and otherwise the whole-second timestamp of the earliest
    row that links them, in either direction. *)
Theorem friendship_since_symmetric_earliest (s : Store) (a b : User) :
  friendship_since s (Some a) b = friendship_since s (Some b) a
  /\ friendship_since s None b = None
  /\ match friendship_since s (Some a) b with
     | None => forall f, f ∈ friendships s -> ~ linked (u_id a) (u_id b) f
     | Some ts =>
         exists f, f ∈ friendships s /\ linked (u_id a) (u_id b) f
                   /\ ts = timestamp (f_created_at f)
                   /\ forall f', f' ∈ friendships s ->
                                 linked (u_id a) (u_id b) f' ->
                                 f_created_at f <= f_created_at f'
     end.
Proof.
  split; [|split; [done|]].
  - unfold friendship_since. f_equal.
    assert (Hext : forall l,
      List.filter
        (fun f => (String.eqb (f_user f) (u_id a)
                   && String.eqb (f_friend f) (u_id b))
                  || (String.eqb (f_user f) (u_id b)
                      && String.eqb (f_friend f) (u_id a))) l
      = List.filter
          (fun f => (String.eqb (f_user f) (u_id b)
                     && String.eqb (f_friend f) (u_id a))
                    || (String.eqb (f_user f) (u_id a)
                        && String.eqb (f_friend f) (u_id b))) l).
    { intros l. apply filter_ext. intros f. apply orb_comm. }
    by rewrite Hext.
  - unfold friendship_since, first.
    destruct (head _) as [link|] eqn:Hhead.
    + apply head_order_by_least in Hhead as [Hin Hleast];
        [|apply asc_total|apply asc_trans].
      apply elem_of_link_filter in Hin as [Hin Hlink].
      exists link. split; [done|]. split; [done|]. split; [done|].
      intros f' Hf' Hl'. apply Z.leb_le. apply (Hleast f').
      by apply elem_of_link_filter.
    + apply head_order_by_None in Hhead. intros f Hf Hl.
      assert (Hin : f ∈ @nil Friendship); [|by apply elem_of_nil in Hin].
      rewrite <- Hhead. by apply elem_of_link_filter.
Qed.

Lemma elem_of_team_members (s : Store) (team : Team) (u : User) :
  u ∈ team_members s team <->
  u ∈ users s
  /\ exists m, m ∈ memberships s /\ tm_team m = t_id team
               /\ tm_user m = u_id u.
Proof.
  unfold team_members. rewrite order_by_elem_of, list_elem_of_In, in_flat_map.
  split.
  - intros (m & Hm & Hu). apply list_elem_of_In in Hm, Hu.
    apply elem_of_filter_bool in Hm as [Hm Ht], Hu as [Hu Hid].
    apply String.eqb_eq in Ht, Hid. eauto.
  - intros (Hu & m & Hm & Ht & Hid). exists m. rewrite <- !list_elem_of_In.
    split; apply elem_of_filter_bool; (split; [done|]);
      by apply String.eqb_eq.
Qed.

(** X6.  [serialize_team_members] lists exactly the stored users that have a
    membership in the team; with [exclude_user] it lists the same users but
    never the excluded one. *)
Theorem team_members_listed (s : Store) (team : Team)
  (current_user : option User) (x : User) (uid : uuid) :
  (uid ∈ map mp_uuid (serialize_team_members s team current_user None)
   <-> member_of s team uid)
  /\ (uid ∈ map mp_uuid (serialize_team_members s team current_user (Some x))
      <-> member_of s team uid /\ uid <> u_id x).
Proof.
  unfold serialize_team_members, member_of.
  rewrite <- !list_fmap_compose. split.
  - rewrite list_elem_of_fmap. split.
    + intros (u & -> & Hu). apply elem_of_team_members in Hu as (Hu & m & ?).
      simpl. split; [by exists m|by exists u].
    + intros ((m & Hm & Ht & Hid) & u & Hu & <-). exists u.
      split; [done|]. apply elem_of_team_members. eauto.
  - rewrite list_elem_of_fmap. split.
    + intros (u & -> & Hu). apply elem_of_filter_bool in Hu as [Hu Hne].
      apply elem_of_team_members in Hu as (Hu & m & ?).
      apply negb_true_iff, String.eqb_neq in Hne. simpl.
      split; [|done]. split; [by exists m|by exists u].
    + intros (((m & Hm & Ht & Hid) & u & Hu & <-) & Hne). exists u.
      split; [done|]. apply elem_of_filter_bool. split.
      * apply elem_of_team_members. eauto.
      * by apply negb_true_iff, String.eqb_neq.
Qed.

(* ================================================================== *)
(** * Participants *)
(* ================================================================== *)

Lemma participants_count_counts (s : Store) (h : Hackathon) :
  exists ids,
    NoDup ids
    /\ (forall uid, uid ∈ ids <->
                    (exists u, u ∈ users s /\ u_id u = uid)
                    /\ is_participant s h uid)
    /\ participants_count s h = Z.of_nat (length ids).
Proof.
  unfold participants_count. eexists. split; [apply NoDup_distinct|].
  split; [|reflexivity].
  intros uid. rewrite elem_of_distinct, list_elem_of_In, in_flat_map.
  unfold is_participant. split.
  - intros (u & Hu & Hin). apply in_flat_map in Hin as (m & Hm & Hin).
    apply list_elem_of_In in Hu, Hm, Hin.
    apply elem_of_filter_bool in Hm as [Hm Hmu]. apply String.eqb_eq in Hmu.
    apply list_elem_of_fmap in Hin as (e & -> & He).
    apply elem_of_filter_bool in He as [He Heq].
    apply andb_true_iff in Heq as [Het Heh]. apply String.eqb_eq in Het, Heh.
    split; [by exists u|]. exists e, m. done.
  - intros ((u & Hu & <-) & e & m & He & Heh & Hm & Het & Hmu).
    exists u. split; [by apply list_elem_of_In|].
    apply in_flat_map. exists m. rewrite <- !list_elem_of_In. split.
    + apply elem_of_filter_bool. split; [done|]. by apply String.eqb_eq.
    + apply list_elem_of_fmap. exists e. split; [done|].
      apply elem_of_filter_bool. split; [done|].
      apply andb_true_iff. by rewrite !String.eqb_eq.
Qed.

(** X7.  When every membership points to a stored user, the number a
    hackathon payload shows as ["participants"] is the number the search
    ranks by: [Hackathon.participants_count] and the search annotation
    count the same users. *)
Theorem participants_match_estimate (s : Store) (h : Hackathon)
  (current_user : option User) (include_user_team include_leaderboard : bool) :
  (forall m, m ∈ memberships s ->
             exists u, u ∈ users s /\ u_id u = tm_user m) ->
  participants_count s h = participant_estimate s h
  /\ hp_participants (serialize_hackathon s h current_user include_user_team
                        include_leaderboard)
     = participant_estimate s h.
Proof.
  intros Hfk.
  assert (Heq : participants_count s h = participant_estimate s h); [|done].
  destruct (participants_count_counts s h) as (ids1 & Hnd1 & Hin1 & ->).
  destruct (participant_estimate_counts s h) as (ids2 & Hnd2 & Hin2 & ->).
  f_equal. apply Permutation_length, NoDup_Permutation; [done|done|].
  intros uid. rewrite Hin1, Hin2. split; [by intros [_ ?]|].
  intros Hp. split; [|done].
  destruct Hp as (e & m & _ & _ & Hm & _ & <-). by apply Hfk.
Qed.

Lemma participants_match_estimate_witness :
  participants_count six_store (hack "h-1" 10 100) = 1
  /\ participant_estimate six_store (hack "h-1" 10 100) = 1.
Proof.
  destruct (participants_match_estimate six_store (hack "h-1" 10 100)
              None false false) as [Heq _].
  - intros m Hm. apply list_elem_of_In in Hm. simpl in Hm.
    destruct Hm as [<- | []]. exists alice. split; [left|reflexivity].
  - split; [reflexivity|]. rewrite <- Heq. reflexivity.
Defined.

(* ================================================================== *)
(** * Best placement *)
(* ================================================================== *)

Lemma best_placement_ordering_total (x y : HackathonTeam * Hackathon) :
  best_placement_ordering x y = true \/ best_placement_ordering y x = true.
Proof.
  unfold best_placement_ordering.
  destruct (ht_placement (fst x)) as [p|], (ht_placement (fst y)) as [q|];
    auto; rewrite ?orb_true_iff, ?andb_true_iff, ?Z.ltb_lt, ?Z.eqb_eq,
            ?Z.leb_le; lia.
Qed.

Lemma best_placement_ordering_trans (x y z : HackathonTeam * Hackathon) :
  best_placement_ordering x y = true -> best_placement_ordering y z = true ->
  best_placement_ordering x z = true.
Proof.
  unfold best_placement_ordering.
  destruct (ht_placement (fst x)) as [p|], (ht_placement (fst y)) as [q|],
    (ht_placement (fst z)) as [r|];
    auto; try done;
    rewrite ?orb_true_iff, ?andb_true_iff, ?Z.ltb_lt, ?Z.eqb_eq, ?Z.leb_le;
    lia.
Qed.

Lemma elem_of_placed_entries_of_user (s : Store) (user : User)
  (r : HackathonTeam * Hackathon) :
  r ∈ placed_entries_of_user s user <-> exists k, placed_entry_of s user r k.
Proof.
  destruct r as [e h]. unfold placed_entries_of_user, placed_entry_of.
  rewrite elem_of_filter_bool, elem_of_with_hackathon,
    elem_of_entries_of_user, bool_decide_eq_true. simpl. split.
  - intros (((He & Hm) & Hh & Hid) & [k Hk]). exists k. done.
  - intros (k & He & Hh & Hid & Hm & Hk). rewrite Hk. eauto.
Qed.

(** X8.  [best_placement_for_user] is [None] exactly when no entry of the
    user's teams has a placement; otherwise it describes one of those
    entries, with the smallest placement of them all and, among the entries
    that share that placement, the latest end date. *)
Theorem best_placement_is_best (s : Store) (user : User) :
  match best_placement_for_user s user with
  | None => forall r k, ~ placed_entry_of s user r k
  | Some b =>
      exists r k,
        placed_entry_of s user r k
        /\ b = past_hackathon s r
        /\ ph_placement b = Some k
        /\ forall r' k', placed_entry_of s user r' k' ->
                         k <= k'
                         /\ (k' = k ->
                             h_end_date (snd r') <= h_end_date (snd r))
  end.
Proof.
  unfold best_placement_for_user, first.
  destruct (head _) as [r|] eqn:Hhead.
  - apply head_order_by_least in Hhead as [Hin Hleast];
      [|apply best_placement_ordering_total
       |apply best_placement_ordering_trans].
    apply elem_of_placed_entries_of_user in Hin as [k Hr].
    exists r, k. split; [done|]. split; [done|].
    pose proof Hr as (_ & _ & _ & _ & Hk).
    split; [by destruct r|].
    intros r' k' Hr'. pose proof Hr' as (_ & _ & _ & _ & Hk').
    assert (Hle : best_placement_ordering r r' = true).
    { apply Hleast, elem_of_placed_entries_of_user. by exists k'. }
    unfold best_placement_ordering in Hle. rewrite Hk, Hk' in Hle.
    rewrite orb_true_iff, andb_true_iff, Z.ltb_lt, Z.eqb_eq, Z.leb_le in Hle.
    lia.
  - apply head_order_by_None in Hhead. intros r k Hr.
    assert (Hin : r ∈ placed_entries_of_user s user).
    { apply elem_of_placed_entries_of_user. by exists k. }
    rewrite Hhead in Hin. by apply elem_of_nil in Hin.
Qed.

(* ================================================================== *)
(** * Required fields under POST *)
(* ================================================================== *)

Section PostValidation.
Context `{Builtins}.

(** X9.  Under [POST] the serializer checks the required fields in the order
    email, username, visibility, password: the first one that is missing is
    reported alone, whatever else the payload holds.  When all four are
    present, [POST] validates exactly as [PATCH] does. *)
Theorem post_requires_four_fields (s : Store) (data : gmap string value) :
  match data !! "email", data !! "username", data !! "visibility",
        data !! "password" with
  | None, _, _, _ =>
      to_internal_value "POST" s data
      = Invalid {[ "email" := "This field is required" ]}
  | Some _, None, _, _ =>
      to_internal_value "POST" s data
      = Invalid {[ "username" := "This field is required" ]}
  | Some _, Some _, None, _ =>
      to_internal_value "POST" s data
      = Invalid {[ "visibility" := "This field is required" ]}
  | Some _, Some _, Some _, None =>
      to_internal_value "POST" s data
      = Invalid {[ "password" := "This field is required" ]}
  | Some _, Some _, Some _, Some _ =>
      to_internal_value "POST" s data = to_internal_value "PATCH" s data
  end.
Proof.
  unfold to_internal_value, to_internal_value_body.
  destruct (data !! "email") as [email|] eqn:Hemail;
    [|by rewrite vbind_get_field_missing].
  rewrite (vbind_get_field_present _ _ _ _ email) by done. cbv beta.
  destruct (data !! "username") as [username|] eqn:Husername;
    [|by rewrite vbind_get_field_missing].
  rewrite (vbind_get_field_present _ _ _ _ username) by done. cbv beta.
  destruct (data !! "visibility") as [visibility|] eqn:Hvisibility;
    [|by rewrite vbind_get_field_missing].
  rewrite (vbind_get_field_present _ _ _ _ visibility) by done. cbv beta.
  rewrite !vbind_get_field_optional. cbv beta.
  destruct (data !! "password") as [password|] eqn:Hpassword;
    [|by rewrite vbind_get_field_missing].
  rewrite (vbind_get_field_present _ _ _ _ password) by done. cbv beta.
  repeat (rewrite vbind_get_field_optional; cbv beta).
  repeat (rewrite vbind_get_field_patch; cbv beta).
  reflexivity.
Qed.
End PostValidation.

(* ================================================================== *)
(** * Validated data *)
(* ================================================================== *)

Section ValidatedData.
Context `{Builtins}.

Lemma vbind_Val {A B} (m : V A) (k : A -> V B) (e e' : gmap string string)
  (x : B) :
  vbind m k e = Val x e' ->
  exists a e1, m e = Val a e1 /\ k a e1 = Val x e'.
Proof. unfold vbind. destruct (m e) as [a e1| |]; [eauto|done|done]. Qed.

Lemma parse_int_Val (name : string) (f a : field) (lo : Z) (hi : option Z)
  (e e' : gmap string string) :
  parse_int name f (Some lo) hi e = Val a e' ->
  field_bad (bad_int (Some lo) hi) f = false ->
  int_in_range f a lo hi.
Proof.
  intros Hp Hb. destruct f as [|v]; simpl in *.
  { by injection Hp as <- _. }
  unfold bad_int in Hb. destruct (py_int v) as [err|n]; [done|].
  apply orb_false_iff in Hb as [Hlo Hhi].
  rewrite Hlo in Hp. apply Z.ltb_ge in Hlo.
  exists n. split; [done|].
  destruct hi as [h|].
  - rewrite Hhi in Hp. apply Z.ltb_ge in Hhi.
    unfold vbind, vret in Hp. by injection Hp as <- _.
  - unfold vbind, vret in Hp. by injection Hp as <- _.
Qed.

Lemma validate_fk_Val (s : Store) (name model : string) (f a : field)
  (e e' : gmap string string) :
  validate_fk s name model f e = Val a e' ->
  field_bad (bad_fk s model) f = false ->
  existing_id s model f a.
Proof.
  intros Hp Hb. destruct f as [|v]; simpl in *.
  { by injection Hp as <- _. }
  unfold bad_fk in Hb. destruct (py_int v) as [err|n]; [done|].
  destruct (pk_exists s model (VInt n)) as [err|[]] eqn:Hpk;
    simpl in *; [done| |done].
  unfold vbind, vret in Hp. injection Hp as <- _. by exists n.
Qed.

Lemma validate_url_Val (name : string) (f a : field)
  (e e' : gmap string string) :
  validate_url name f e = Val a e' -> a = f.
Proof.
  unfold validate_url, vbind, vret, set_error. intros Hp.
  destruct f as [|v]; [by injection Hp as <- _|].
  destruct v; try (by injection Hp as <- _);
    repeat match type of Hp with
           | context [if ?c then _ else _] => destruct c
           end; by injection Hp as <- _.
Qed.

Lemma validate_m2m_Val (s : Store) (name model : string) (f a : field)
  (e e' : gmap string string) :
  validate_m2m s name f model e = Val a e' ->
  field_bad (bad_m2m s model) f = false ->
  a = f.
Proof.
  unfold validate_m2m, vbind, vret, set_error. intros Hp Hb.
  destruct f as [|v]; [by injection Hp as <- _|].
  destruct v; try done.
  destruct (bad_ids s model l) as [err|bad]; [done|].
  destruct bad; by injection Hp as <- _.
Qed.

Lemma check_profile_gradient_Val (f a : field) (e e' : gmap string string) :
  check_profile_gradient f e = Val a e' ->
  field_bad bad_gradient f = false ->
  gradient_strings f a.
Proof.
  unfold check_profile_gradient, vbind, vret, set_error. intros Hp Hb.
  destruct f as [|[| | | | |[|x [|y [|z l]]]|]]; simpl in *; try done;
    by injection Hp as <- _.
Qed.

(** X10.  When validation of a [PATCH] payload passes, no error was noted
    and [validated_data] holds the payload's fields: xp, level and grad_year
    as integers within their bounds (xp from 0, level 0 to 500, grad_year
    2015 to 2080), school and major as keys of existing rows, the gradient
    as two strings, every other field as it was given, and
    [serializers.empty] for every key the payload does not have. *)
Theorem patch_validated_data (s : Store) (data : gmap string value)
  (vd : list (string * field)) (errs : gmap string string) :
  to_internal_value "PATCH" s data = Val vd errs ->
  errs = ∅
  /\ exists xp level grad_year school_id major_id profile_gradient,
       vd = [ ("email", data_get data "email");
              ("username", data_get data "username");
              ("first_name", data_get data "first_name");
              ("last_name", data_get data "last_name");
              ("visibility", data_get data "visibility");
              ("password", data_get data "password");
              ("xp", xp); ("level", level); ("school_id", school_id);
              ("grad_year", grad_year); ("major_id", major_id);
              ("discord", data_get data "discord");
              ("instagram", data_get data "instagram");
              ("github", data_get data "github");
              ("linkedin", data_get data "linkedin");
              ("bio", data_get data "bio");
              ("skills", data_get data "skills");
              ("interests", data_get data "interests");
              ("blocked", data_get data "blocked");
              ("personal", data_get data "personal");
              ("xp_needed", data_get data "xp_needed");
              ("profile_gradient", profile_gradient) ]
       /\ int_in_range (data_get data "xp") xp 0 None
       /\ int_in_range (data_get data "level") level 0 (Some 500)
       /\ int_in_range (data_get data "grad_year") grad_year 2015 (Some 2080)
       /\ existing_id s "School" (data_get data "school") school_id
       /\ existing_id s "Major" (data_get data "major") major_id
       /\ gradient_strings (data_get data "profile_gradient") profile_gradient.
Proof.
  intros Hv. pose proof (to_internal_value_patch s data) as Hok.
  rewrite Hv in Hok.
  unfold to_internal_value, to_internal_value_body in Hv.
  repeat (rewrite vbind_get_field_patch in Hv; cbv beta in Hv).
  apply vbind_Val in Hv as ([] & e1 & _ & Hv).
  apply vbind_Val in Hv as ([] & e2 & _ & Hv).
  apply vbind_Val in Hv as ([] & e3 & _ & Hv).
  apply vbind_Val in Hv as (xp & e4 & Hxp & Hv).
  apply vbind_Val in Hv as (level & e5 & Hlevel & Hv).
  apply vbind_Val in Hv as (grad_year & e6 & Hgrad & Hv).
  apply vbind_Val in Hv as (school_id & e7 & Hschool & Hv).
  apply vbind_Val in Hv as (major_id & e8 & Hmajor & Hv).
  apply vbind_Val in Hv as (discord & e9 & ->%validate_url_Val & Hv).
  apply vbind_Val in Hv as (instagram & e10 & ->%validate_url_Val & Hv).
  apply vbind_Val in Hv as (github & e11 & ->%validate_url_Val & Hv).
  apply vbind_Val in Hv as (linkedin & e12 & ->%validate_url_Val & Hv).
  apply vbind_Val in Hv as (personal & e13 & ->%validate_url_Val & Hv).
  apply vbind_Val in Hv as (skills & e14 & Hskills & Hv).
  apply vbind_Val in Hv as (interests & e15 & Hinterests & Hv).
  apply vbind_Val in Hv as ([] & e16 & _ & Hv).
  apply vbind_Val in Hv as (pg & e17 & Hpg & Hv).
  apply vbind_Val in Hv as ([] & e18 & Hraise & Hv).
  unfold raise_if_errors in Hraise.
  destruct (decide (e17 = ∅)) as [-> | ?]; [|done].
  injection Hraise as <-. injection Hv as <- <-.
  apply validate_m2m_Val in Hskills as ->; [|exact (Hok "skills")].
  apply validate_m2m_Val in Hinterests as ->; [|exact (Hok "interests")].
  split; [done|]. exists xp, level, grad_year, school_id, major_id, pg.
  split; [done|].
  split; [exact (parse_int_Val _ _ _ _ _ _ _ Hxp (Hok "xp"))|].
  split; [exact (parse_int_Val _ _ _ _ _ _ _ Hlevel (Hok "level"))|].
  split; [exact (parse_int_Val _ _ _ _ _ _ _ Hgrad (Hok "grad_year"))|].
  split; [exact (validate_fk_Val _ _ _ _ _ _ _ Hschool (Hok "school"))|].
  split; [exact (validate_fk_Val _ _ _ _ _ _ _ Hmajor (Hok "major"))|].
  exact (check_profile_gradient_Val _ _ _ _ Hpg (Hok "profile_gradient")).
Qed.
End ValidatedData.

Lemma patch_validated_data_witness :
  exists vd errs,
    to_internal_value "PATCH" campus_store sample_patch = Val vd errs
    /\ errs = ∅
    /\ exists xp level grad_year school_id major_id profile_gradient,
         vd = [ ("email", data_get sample_patch "email");
                ("username", data_get sample_patch "username");
                ("first_name", data_get sample_patch "first_name");
                ("last_name", data_get sample_patch "last_name");
                ("visibility", data_get sample_patch "visibility");
                ("password", data_get sample_patch "password");
                ("xp", xp); ("level", level); ("school_id", school_id);
                ("grad_year", grad_year); ("major_id", major_id);
                ("discord", data_get sample_patch "discord");
                ("instagram", data_get sample_patch "instagram");
                ("github", data_get sample_patch "github");
                ("linkedin", data_get sample_patch "linkedin");
                ("bio", data_get sample_patch "bio");
                ("skills", data_get sample_patch "skills");
                ("interests", data_get sample_patch "interests");
                ("blocked", data_get sample_patch "blocked");
                ("personal", data_get sample_patch "personal");
                ("xp_needed", data_get sample_patch "xp_needed");
                ("profile_gradient", profile_gradient) ]
         /\ int_in_range (data_get sample_patch "xp") xp 0 None
         /\ int_in_range (data_get sample_patch "level") level 0 (Some 500)
         /\ int_in_range (data_get sample_patch "grad_year") grad_year 2015
              (Some 2080)
         /\ existing_id campus_store "School" (data_get sample_patch "school")
              school_id
         /\ existing_id campus_store "Major" (data_get sample_patch "major")
              major_id
         /\ gradient_strings (data_get sample_patch "profile_gradient")
              profile_gradient.
Proof.
  eexists _, _. split; [vm_compute; reflexivity|].
  apply (patch_validated_data campus_store sample_patch).
  vm_compute. reflexivity.
Defined.

(* ================================================================== *)
(** * Signup: the two guards *)
(* ================================================================== *)

Lemma before_char_prefix (sep : ascii) (t : string) :
  (exists rest, t = before_char sep t ++ rest
                /\ (rest = "" \/ exists r, rest = String sep r))
  /\ ~ In sep (list_ascii_of_string (before_char sep t)).
Proof.
  induction t as [|c t [(rest & IH & Hrest) Hno]]; simpl.
  - split; [|tauto]. exists "". split; [done|by left].
  - destruct (Ascii.eqb_spec c sep) as [-> | Hne]; simpl.
    + split; [|tauto]. exists (String sep t). split; [done|]. right. by exists t.
    + split.
      * exists rest. split; [|done].
        change (String c t = String c (before_char sep t ++ rest)).
        by rewrite <- IH.
      * intros [Heq|Hin]; [done|by apply Hno].
Qed.

Section SignupFacts.
Context `{Builtins} `{UserLibrary}.

(** What [SignupView.post] runs once its first guard has passed: the exact
    email lookup, and behind it the gradient and the continuation. *)
Lemma SignupView_post_run
  (c : value -> value -> value -> list string -> M (response Bootstrap))
  (data : gmap string value) (s : Store) (tape : list Z)
  (e p u : string) :
  data !! "email" = Some (VStr e) -> e <> "" ->
  data !! "password" = Some (VStr p) -> p <> "" ->
  (if truthy (dict_get data "username") then dict_get data "username"
   else VStr (before_char "@" e)) = VStr u ->
  SignupView_post c data s tape
  = (if existsb (fun row => String.eqb (u_email row) e) (users s)
     then ret (Detail "email already registered" HTTP_400_BAD_REQUEST)
     else let* gradient := generate_gradient in
          c (VStr e) (VStr u) (VStr p) gradient) s tape.
Proof.
  intros He Hne Hp Hpne Hu. rewrite <- Hu.
  unfold SignupView_post, dict_get. rewrite He, Hp. simpl.
  apply String.eqb_neq in Hne, Hpne. rewrite Hne, Hpne. simpl.
  destruct (truthy (default VNull (data !! "username")));
    cbv [bind ret get_store]; reflexivity.
Qed.

Lemma existsb_email (s : Store) (e : string) :
  existsb (fun row => String.eqb (u_email row) e) (users s) = true
  <-> exists row, row ∈ users s /\ u_email row = e.
Proof.
  rewrite existsb_exists. split; intros (row & Hrow & Heq); exists row.
  - split; [by apply list_elem_of_In|by apply String.eqb_eq].
  - split; [by apply list_elem_of_In|by apply String.eqb_eq].
Qed.

Lemma existsb_taken (s : Store) (d : Drawn) (e u p : string)
  (g : list string) :
  existsb (fun row => String.eqb (u_id row) (u_id (signup_row d e u p g))
                      || String.eqb (u_email row)
                           (u_email (signup_row d e u p g))
                      || String.eqb (u_username row)
                           (u_username (signup_row d e u p g)))
          (users s) = true
  <-> taken s d e u.
Proof.
  rewrite existsb_exists. unfold taken. simpl.
  split; intros (row & Hrow & Heq); exists row.
  - split; [by apply list_elem_of_In|].
    rewrite !orb_true_iff, !String.eqb_eq in Heq. tauto.
  - split; [by apply list_elem_of_In|].
    rewrite !orb_true_iff, !String.eqb_eq. tauto.
Qed.

(** The tail of the handler on strings: the insert, then the payload. *)
Lemma SignupView_created_run (d : Drawn) (now : datetime) (e u p : string)
  (g : list string) (s : Store) (tape : list Z) :
  e <> "" -> p <> "" ->
  SignupView_created d now e u p g s tape
  = if existsb (fun row =>
                  String.eqb (u_id row) (u_id (signup_row d e u p g))
                  || String.eqb (u_email row)
                       (u_email (signup_row d e u p g))
                  || String.eqb (u_username row)
                       (u_username (signup_row d e u p g)))
               (users s)
    then Raise IntegrityError
    else (let* payload :=
            build_bootstrap_payload now (signup_row d e u p g) in
          ret (Response payload HTTP_201_CREATED))
           (set_users s (users s ++ [signup_row d e u p g])) tape.
Proof.
  intros Hne Hpne. apply String.eqb_neq in Hne, Hpne.
  unfold SignupView_created, create_user, _create_user.
  rewrite Hne, Hpne.
  change (with_password _ _) with (signup_row d e u p g).
  unfold bind at 1 2. unfold insert_user.
  by destruct (existsb _ (users s)).
Qed.

(** X11.  A signup whose email, password and chosen username are non-empty
    strings -- the username is the one given or, when that is missing or
    falsy, the part of the email before its first "@" -- is answered 400
    "email already registered", with the store and the random source
    untouched, when a stored user has exactly that email.  Otherwise a
    gradient is drawn and [create_user] inserts a row with the normalised
    email: if the drawn key, the normalised email or the username is taken,
    [IntegrityError] escapes the handler; if not, the row is appended to
    the user table and the answer is 201 with the bootstrap payload of the
    new user. *)
Theorem signup_duplicate_or_created
  (c : value -> value -> value -> list string -> M (response Bootstrap))
  (d : Drawn) (now : datetime) (data : gmap string value) (s : Store)
  (tape : list Z) (e p u : string) :
  data !! "email" = Some (VStr e) -> e <> "" ->
  data !! "password" = Some (VStr p) -> p <> "" ->
  (if truthy (dict_get data "username") then dict_get data "username"
   else VStr (before_char "@" e)) = VStr u ->
  (forall g, c (VStr e) (VStr u) (VStr p) g
             = SignupView_created d now e u p g) ->
  ((exists row, row ∈ users s /\ u_email row = e) ->
   SignupView_post c data s tape
   = Ret (Detail "email already registered" 400) s tape)
  /\ ((forall row, row ∈ users s -> u_email row <> e) ->
      match generate_gradient s tape with
      | Ret g _ tape' =>
          (taken s d e u ->
           SignupView_post c data s tape = Raise IntegrityError)
          /\ (~ taken s d e u ->
              SignupView_post c data s tape
              = (let* payload :=
                   build_bootstrap_payload now (signup_row d e u p g) in
                 ret (Response payload 201))
                  (set_users s (users s ++ [signup_row d e u p g])) tape')
      | Raise x => SignupView_post c data s tape = Raise x
      | OutOfTape => SignupView_post c data s tape = OutOfTape
      end).
Proof.
  intros He Hne Hp Hpne Hu Hc.
  rewrite (SignupView_post_run c data s tape e p u He Hne Hp Hpne Hu).
  split.
  - intros Hdup. apply existsb_email in Hdup. by rewrite Hdup.
  - intros Hnone.
    replace (existsb _ (users s)) with false; cycle 1.
    { symmetry. apply not_true_is_false. intros Hdup.
      apply existsb_email in Hdup as (row & Hrow & Heq).
      by apply (Hnone row). }
    assert (Hrun :
              (let* gradient := generate_gradient in
               c (VStr e) (VStr u) (VStr p) gradient) s tape
              = match generate_gradient s tape with
                | Ret g s1 t1 => c (VStr e) (VStr u) (VStr p) g s1 t1
                | Raise x => Raise x
                | OutOfTape => OutOfTape
                end) by reflexivity.
    rewrite Hrun. clear Hrun.
    destruct (generate_gradient s tape) as [g s1 tape'| |] eqn:Hg;
      [|done|done].
    apply generate_gradient_nonempty in Hg as [_ ->].
    rewrite Hc, (SignupView_created_run d now e u p g s tape' Hne Hpne).
    split.
    + intros Ht. apply (existsb_taken s d e u p g) in Ht. by rewrite Ht.
    + intros Ht.
      replace (existsb _ (users s)) with false; [done|].
      symmetry. apply not_true_is_false. intros Hex.
      by apply Ht, (existsb_taken s d e u p g).
Qed.

End SignupFacts.

Lemma signup_duplicate_or_created_witness :
  let data : gmap string value :=
    {[ "email" := VStr "alice@EXAMPLE.edu"; "password" := VStr "secret1" ]} in
  let c : value -> value -> value -> list string -> M (response Bootstrap) :=
    fun email username password g =>
      match email, username, password with
      | VStr e, VStr u, VStr p => SignupView_created sample_drawn 0 e u p g
      | _, _, _ => raise TypeError
      end in
  (forall row, row ∈ users six_store -> u_email row <> "alice@EXAMPLE.edu")
  /\ taken six_store sample_drawn "alice@EXAMPLE.edu" "alice"
  /\ SignupView_post c data six_store [0; 16777215] = Raise IntegrityError.
Proof.
  intros data c.
  assert (Hnone : forall row, row ∈ users six_store
                              -> u_email row <> "alice@EXAMPLE.edu").
  { intros row Hrow. apply list_elem_of_singleton in Hrow as ->.
    discriminate. }
  assert (Htaken : taken six_store sample_drawn "alice@EXAMPLE.edu" "alice").
  { exists alice. split; [apply list_elem_of_here|].
    right. left. reflexivity. }
  split; [exact Hnone|]. split; [exact Htaken|].
  assert (Hthm :=
            proj2 (signup_duplicate_or_created c sample_drawn 0 data
                     six_store [0; 16777215] "alice@EXAMPLE.edu" "secret1"
                     "alice" eq_refl ltac:(discriminate) eq_refl
                     ltac:(discriminate) eq_refl (fun g => eq_refl))
                  Hnone).
  change (generate_gradient six_store [0; 16777215])
    with (Ret ["000000"; "ffffff"] six_store []) in Hthm.
  exact (proj1 Hthm Htaken).
Defined.


(* ================================================================== *)
(** * Pages of the list endpoints *)
(* ================================================================== *)

Section Pages.
Context `{Builtins}.

Lemma parse_pagination_default : parse_pagination ∅ = Some (0, 10).
Proof. unfold parse_pagination, int_param. by rewrite !lookup_empty. Qed.

(** X12.  The leaderboard embedded in a hackathon payload is the page the
    leaderboard endpoint returns for that hackathon when the request has no
    pagination parameters (offset 0, limit 10), with [None] in place of an
    empty page. *)
Theorem embedded_leaderboard_is_default_page (s : Store) (h : Hackathon)
  (user : User) (include_user_team : bool) :
  match HackathonLeaderboardView_get s user (h_id h) ∅ with
  | Response rows st =>
      st = 200
      /\ hp_leaderboard
           (serialize_hackathon s h (Some user) include_user_team true)
         = Some (match rows with [] => None | _ :: _ => Some rows end)
  | Detail _ _ => False
  end.
Proof.
  unfold HackathonLeaderboardView_get. rewrite parse_pagination_default.
  split; [done|]. unfold serialize_hackathon, slice. simpl.
  change (Pos.to_nat 10) with 10%nat. by rewrite drop_0.
Qed.

Lemma mapM_length {A B} (f : A -> M B) (l : list A) (s : Store) (t : list Z)
  (ys : list B) (s' : Store) (t' : list Z) :
  mapM f l s t = Ret ys s' t' -> length ys = length l.
Proof.
  intros Hm. symmetry.
  eapply (Forall2_length (fun _ _ => True)), mapM_Forall2; [|exact Hm].
  done.
Qed.

(** X13.  Whatever the query parameters, no list endpoint returns more rows
    than the parsed limit, which is at most 50: the upcoming and past
    hackathons of the user, the friends, the search results, the
    leaderboard, and the histories of a user and of a team. *)
Theorem pages_within_limit (s : Store) (now : datetime) (user : User)
  (id : uuid) (tape : list Z) (qp : gmap string string) :
  match parse_pagination qp with
  | None => True
  | Some (_, limit) =>
      let n := Z.to_nat limit in
      (n <= 50)%nat
      /\ (length (page_of (UserHackathonsView_get s now user qp)) <= n)%nat
      /\ (length (page_of (UserPastHackathonsView_get s now user qp)) <= n)%nat
      /\ (length (page_of (HackathonSearchView_get s user qp)) <= n)%nat
      /\ (length (page_of (HackathonLeaderboardView_get s user id qp)) <= n)%nat
      /\ (length (page_of (UserHistoryView_get s now id qp)) <= n)%nat
      /\ (length (page_of (TeamHistoryView_get s now id qp)) <= n)%nat
      /\ match UserFriendsView_get user qp s tape with
         | Ret r _ _ => (length (page_of r) <= n)%nat
         | Raise _ | OutOfTape => True
         end
  end.
Proof.
  destruct (parse_pagination qp) as [[offset limit]|] eqn:Hp; [|done].
  apply parse_pagination_range in Hp as Hrange.
  unfold UserHackathonsView_get, UserPastHackathonsView_get,
    HackathonSearchView_get, HackathonLeaderboardView_get,
    UserHistoryView_get, TeamHistoryView_get, UserFriendsView_get,
    search_results, past_hackathons_for_user, past_hackathons_for_team,
    past_entries_for_user, past_entries_for_team.
  rewrite Hp. cbn zeta.
  repeat split; try (simpl; rewrite length_map; apply slice_length).
  - lia.
  - destruct (get_user s id); simpl; [|lia].
    rewrite length_map. apply slice_length.
  - destruct (get_team s id); simpl; [|lia].
    rewrite length_map. apply slice_length.
  - match goal with
    | |- match ?m with _ => _ end => destruct m as [r s' t'| |] eqn:Hr
    end; [|done|done].
    apply bind_Ret in Hr as (s0 & s1 & t1 & [= <- <- <-] & Hr).
    apply bind_Ret in Hr as (friends & s2 & t2 & Hm & [= <- _ _]).
    simpl. rewrite (mapM_length _ _ _ _ _ _ _ Hm). apply slice_length.
Qed.

Lemma Forall2_sorted_keys_asc {A B} (ka : A -> Z) (kb : B -> Z)
  (la : list A) (lb : list B) :
  Forall2 (fun a b => kb b = ka a) la lb ->
  StronglySorted (fun x y => ka x <= ka y) la ->
  StronglySorted (fun x y => kb x <= kb y) lb.
Proof.
  intros Hf Hs.
  assert (Hd : StronglySorted (fun x y => - kb y <= - kb x) lb).
  { apply (Forall2_sorted_keys (fun a => - ka a) (fun b => - kb b) la lb).
    - eapply Forall2_impl; [exact Hf|]. intros a b Hab. cbv beta in *.
      by rewrite Hab.
    - eapply StronglySorted_impl; [|exact Hs]. intros a b Hab.
      cbv beta in *. lia. }
  eapply StronglySorted_impl; [|exact Hd]. intros a b Hab.
  cbv beta in *. lia.
Qed.

(** X14.  The friends endpoint answers 400 exactly when the pagination
    parameters do not parse, leaving
    the store and the random source as they were; a 200 response lists one
    payload per friendship of the user, each naming the other end of the
    friendship and its creation time, oldest friendship first. *)
Theorem friends_page_oldest_first (user : User) (qp : gmap string string)
  (s : Store) (tape : list Z) :
  match UserFriendsView_get user qp s tape with
  | Ret (Response l st) _ _ =>
      st = 200 /\ oldest_first_page s user l
      /\ is_Some (parse_pagination qp)
  | Ret (Detail _ st) s' tape' =>
      st = 400 /\ s' = s /\ tape' = tape /\ parse_pagination qp = None
  | Raise _ | OutOfTape => True
  end.
Proof.
  unfold UserFriendsView_get.
  destruct (parse_pagination qp) as [[offset limit]|]; [|done].
  match goal with
  | |- match ?m with _ => _ end => destruct m as [r s' t'| |] eqn:Hr
  end; [|done|done].
  apply bind_Ret in Hr as (s0 & s1 & t1 & [= <- <- <-] & Hr).
  apply bind_Ret in Hr as (friends & s2 & t2 & Hm & [= <- _ _]).
  split; [done|]. split; [|by eexists].
  set (fs := slice offset limit
               (order_by (asc f_created_at)
                  (List.filter
                     (fun f => String.eqb (f_user f) (u_id user)
                               || String.eqb (f_friend f) (u_id user))
                     (friendships s)))) in *.
  assert (Hf2 : Forall2 (fun f p =>
                  fp_friends_since p = timestamp (f_created_at f)
                  /\ fp_uuid p = other_end user f) fs friends).
  { eapply mapM_Forall2; [|exact Hm].
    intros f sa ta p sb tb. apply serialize_friend_Ret. }
  assert (Hsorted : StronglySorted
                      (fun a b => f_created_at a <= f_created_at b) fs).
  { apply StronglySorted_slice, order_by_asc_sorted. }
  exists fs. split; [done|]. split; [|split; [done|]].
  - apply Forall_forall. intros f Hf.
    apply slice_subseteq, order_by_elem_of in Hf.
    apply elem_of_filter_bool in Hf as [Hf Hor]. split; [done|].
    apply orb_true_iff in Hor as [Heq|Heq]; apply String.eqb_eq in Heq;
      [by left|by right].
  - eapply (Forall2_sorted_keys_asc (fun f => timestamp (f_created_at f))
              fp_friends_since).
    + eapply Forall2_impl; [exact Hf2|]. by intros f p [? _].
    + eapply StronglySorted_impl; [|exact Hsorted].
      intros a b. apply timestamp_mono.
Qed.

(** X15.  The past-hackathons endpoint answers 400 exactly when the
    pagination parameters do not parse, and
    otherwise 200 with one payload per entry of a team of the user in a
    hackathon that ended before [now], latest end date first; the payload
    carries the placement of the listed entry, whether or not it is set,
    and no leaderboard. *)
Theorem past_hackathons_page (s : Store) (now : datetime) (user : User)
  (qp : gmap string string) :
  match UserPastHackathonsView_get s now user qp with
  | Response l st =>
      st = 200 /\ ended_page s now user l /\ is_Some (parse_pagination qp)
  | Detail _ st => st = 400 /\ parse_pagination qp = None
  end.
Proof.
  unfold UserPastHackathonsView_get.
  destruct (parse_pagination qp) as [[offset limit]|]; [|done].
  split; [done|]. split; [|by eexists].
  set (rows := slice offset limit _).
  assert (Hsorted : StronglySorted
            (fun x y => h_end_date (snd y) <= h_end_date (snd x)) rows).
  { apply StronglySorted_slice,
      (order_by_desc_sorted (fun r => h_end_date (snd r))). }
  exists rows. split; [|split; [|split; [done|]]].
  - apply Forall_forall. intros [e h] Hr.
    apply slice_subseteq, order_by_elem_of in Hr.
    apply elem_of_filter_bool in Hr as [Hr Hlt]. apply Z.ltb_lt in Hlt.
    apply elem_of_with_hackathon_team in Hr as (He & _ & Hh & Hid).
    apply elem_of_entries_of_user in He as [He Hm].
    by repeat split.
  - apply Forall2_fmap_r, Forall_Forall2_diag, Forall_forall.
    by intros [e h] _.
  - apply StronglySorted_map.
    eapply StronglySorted_impl; [|exact Hsorted].
    intros [e1 h1] [e2 h2]. simpl. apply timestamp_mono.
Qed.

(** X16.  When the bootstrap payload is built, its [hackathons] list is what
    the upcoming-hackathons endpoint returns for the same user at the same
    time for offset 0 and limit 5. *)
Theorem bootstrap_hackathons_is_first_page (now : datetime) (user : User)
  (qp : gmap string string) (s : Store) (tape : list Z) (b : Bootstrap)
  (s' : Store) (tape' : list Z) :
  parse_pagination qp = Some (0, 5) ->
  build_bootstrap_payload now user s tape = Ret b s' tape' ->
  UserHackathonsView_get s now user qp = Response (bp_hackathons b) 200.
Proof.
  intros Hp Hb.
  apply build_bootstrap_Ret in Hb as (fr & core & s1 & t1 & _ & _ & ->).
  unfold UserHackathonsView_get. rewrite Hp. simpl.
  unfold upcoming_entries, slice. simpl.
  change (Pos.to_nat 5) with 5%nat. by rewrite drop_0.
Qed.

(** X17.  A search with no query, or with an empty one, filters nothing:
    when the stored hackathons fit the limit, the first page lists every
    one of them exactly once, ordered by descending participant count. *)
Theorem search_without_query_lists_all (s : Store) (user : User)
  (qp : gmap string string) (limit : Z) :
  qp !! "query" = None \/ qp !! "query" = Some "" ->
  parse_pagination qp = Some (0, limit) ->
  (length (hackathons s) <= Z.to_nat limit)%nat ->
  exists hs,
    HackathonSearchView_get s user qp
    = Response (map (fun h => serialize_hackathon s h (Some user) true true)
                    hs) 200
    /\ hs ≡ₚ hackathons s
    /\ StronglySorted
         (fun a b => participant_estimate s b <= participant_estimate s a) hs.
Proof.
  intros Hq Hp Hlen.
  exists (order_by (desc (participant_estimate s)) (hackathons s)).
  split; [|split;
    [apply order_by_Permutation|apply order_by_desc_sorted]].
  unfold HackathonSearchView_get, search_results. rewrite Hp.
  assert (Hquery : default "" (qp !! "query") = "")
    by (by destruct Hq as [-> | ->]).
  rewrite Hquery. simpl. unfold slice. simpl. rewrite drop_0.
  rewrite take_ge; [done|]. by rewrite order_by_length.
Qed.
End Pages.

Lemma bootstrap_hackathons_is_first_page_witness :
  exists b s',
    parse_pagination {[ "limit" := "5" ]} = Some (0, 5)
    /\ build_bootstrap_payload 0 alice six_store [] = Ret b s' []
    /\ UserHackathonsView_get six_store 0 alice {[ "limit" := "5" ]}
       = Response (bp_hackathons b) 200.
Proof.
  eexists _, _. split; [vm_compute; reflexivity|].
  split; [vm_compute; reflexivity|].
  eapply (bootstrap_hackathons_is_first_page 0 alice {[ "limit" := "5" ]}
            six_store [] _ _ []).
  - vm_compute. reflexivity.
  - vm_compute. reflexivity.
Defined.

Lemma search_without_query_lists_all_witness :
  exists hs,
    HackathonSearchView_get six_store alice {[ "offset" := "0" ]}
    = Response (map (fun h => serialize_hackathon six_store h (Some alice)
                                true true) hs) 200
    /\ hs ≡ₚ hackathons six_store
    /\ StronglySorted
         (fun a b => participant_estimate six_store b
                     <= participant_estimate six_store a) hs.
Proof.
  apply (search_without_query_lists_all six_store alice
           {[ "offset" := "0" ]} 10).
  - left. reflexivity.
  - vm_compute. reflexivity.
  - vm_compute. lia.
Defined.

(* ================================================================== *)
(** * Histories and the bootstrap user *)
(* ================================================================== *)

Lemma past_rows_placed (s : Store) (now : datetime)
  (es : list HackathonTeam) (mine : HackathonTeam -> Prop)
  (offset limit : Z) :
  (forall e, e ∈ es -> e ∈ hackathon_teams s /\ mine e) ->
  placed_history s mine
    (map (past_hackathon s)
       (slice offset limit
          (order_by (desc (fun r => h_end_date (snd r)))
             (List.filter
                (fun r => (h_end_date (snd r) <? now)
                          && bool_decide (is_Some (ht_placement (fst r))))
                (with_hackathon s es))))).
Proof.
  intros Hes. set (rows := slice offset limit _).
  assert (Hrows : Forall (fun r => fst r ∈ es
                                   /\ is_Some (ht_placement (fst r))) rows).
  { apply Forall_forall. intros [e h] Hr.
    apply slice_subseteq, order_by_elem_of in Hr.
    apply elem_of_filter_bool in Hr as [Hr Hf].
    apply elem_of_with_hackathon in Hr as (He & _ & _).
    apply andb_true_iff in Hf as [_ Hp]. apply bool_decide_eq_true in Hp.
    done. }
  exists rows. split; [done|]. split.
  - eapply Forall_impl; [exact Hrows|]. intros [e h] [He _]. simpl in *.
    destruct (Hes e He). done.
  - apply Forall_map. eapply Forall_impl; [exact Hrows|].
    by intros [e h] [_ Hp].
Qed.

(** X18.  Every row of a user's or a team's history has a placement: the
    history endpoints list only placed entries -- for a user, entries of
    teams the user is a member of; for a team, the team's own entries --
    unlike the past-hackathons endpoint, which also lists unplaced ones. *)
Theorem history_lists_placed_entries `{Builtins} (s : Store)
  (now : datetime) (id : uuid) (qp : gmap string string) :
  match UserHistoryView_get s now id qp with
  | Response l _ =>
      placed_history s
        (fun e => exists m, m ∈ memberships s /\ tm_team m = ht_team e
                            /\ tm_user m = id) l
  | Detail _ _ => True
  end
  /\ match TeamHistoryView_get s now id qp with
     | Response l _ => placed_history s (fun e => ht_team e = id) l
     | Detail _ _ => True
     end.
Proof.
  unfold UserHistoryView_get, TeamHistoryView_get.
  destruct (parse_pagination qp) as [[offset limit]|]; [|done].
  split.
  - destruct (get_user s id) as [target|] eqn:Hg; [|done].
    apply get_user_id in Hg as [_ <-].
    apply past_rows_placed. intros e He.
    by apply elem_of_entries_of_user in He.
  - destruct (get_team s id) as [team|] eqn:Hg; [|done].
    unfold get_team in Hg. apply head_Some_elem_of in Hg.
    apply elem_of_filter_bool in Hg as [_ Hid]. apply String.eqb_eq in Hid.
    subst id. apply past_rows_placed. intros e He.
    apply elem_of_filter_bool in He as [He Ht].
    by apply String.eqb_eq in Ht.
Qed.

(** X19.  The [user] object of the bootstrap payload is the requesting
    user's own card: it carries the user's id and email, is never marked as
    blocked or as a friend, always has a gradient, and its [xp_needed] is
    what is missing from [xp] to reach 100 times the level (a level below 1
    counting as 1), never negative. *)
Theorem bootstrap_user_card (now : datetime) (user : User) (s : Store)
  (tape : list Z) (b : Bootstrap) (s' : Store) (tape' : list Z) :
  build_bootstrap_payload now user s tape = Ret b s' tape' ->
  uc_uuid (bp_user b) = u_id user
  /\ uc_email (bp_user b) = Some (u_email user)
  /\ uc_level (bp_user b) = u_level user
  /\ uc_xp (bp_user b) = u_xp user
  /\ uc_friends_since (bp_user b) = None
  /\ uc_is_blocked (bp_user b) = false
  /\ is_Some (uc_profile_gradient (bp_user b))
  /\ uc_xp_needed (bp_user b)
     = Z.max (Z.max (u_level user) 1 * 100 - u_xp user) 0.
Proof.
  intros Hb.
  apply build_bootstrap_Ret in Hb as (fr & core & s1 & t1 & _ & Hc & ->).
  simpl. unfold serialize_user_core in Hc.
  apply bind_Ret in Hc as (user' & s2 & t2 & He & Hc).
  apply bind_Ret in Hc as (s3 & s4 & t4 & [= <- <- <-] & [= <- _ _]).
  simpl.
  pose proof (ensure_user_defaults_post _ _ _ _ _ _ He) as [Hpg Hxn].
  apply ensure_user_defaults_effect in He as (Heq & _).
  assert (Hlevel : u_level user' = u_level user) by (by rewrite Heq).
  assert (Hxp : u_xp user' = u_xp user) by (by rewrite Heq).
  assert (Hemail : u_email user' = u_email user) by (by rewrite Heq).
  assert (Hid : u_id user' = u_id user) by (by rewrite Heq).
  repeat split; try done; try congruence.
  - destruct (u_profile_gradient user'); [done|]. simpl. eauto.
  - rewrite Hxn. unfold xp_formula. by rewrite Hlevel, Hxp.
Qed.

Lemma bootstrap_user_card_witness :
  exists b s',
    build_bootstrap_payload 0 alice six_store [] = Ret b s' []
    /\ uc_uuid (bp_user b) = u_id alice
    /\ uc_email (bp_user b) = Some (u_email alice)
    /\ uc_level (bp_user b) = u_level alice
    /\ uc_xp (bp_user b) = u_xp alice
    /\ uc_friends_since (bp_user b) = None
    /\ uc_is_blocked (bp_user b) = false
    /\ is_Some (uc_profile_gradient (bp_user b))
    /\ uc_xp_needed (bp_user b)
       = Z.max (Z.max (u_level alice) 1 * 100 - u_xp alice) 0.
Proof.
  eexists _, _. split; [vm_compute; reflexivity|].
  eapply (bootstrap_user_card 0 alice six_store [] _ _ []).
  vm_compute. reflexivity.
Defined.
